(** * FBI fugitives cleaning pipeline: a shallow embedding of [main.py]

    The development follows the second part of the script ("NETTOYAGE DES
    DONNEES"): the field parsers and classifiers ([count_aliases],
    [parse_date], [compute_age], [zodiac_sign], [parse_height_to_cm],
    [parse_weight_to_kg], [categorize_occupation],
    [extract_country_from_birth_place], ...), the column-wise stages
    ([process_aliases] ... [process_marks_and_caution]) and the schema
    finaliser ([remove_unused_columns], [rename_and_reorganize_columns]),
    sequenced by [clean_dataframe].  Of the first part (the scraping) it
    has the two pure helpers, [generate_page_urls] and
    [extract_category_from_url].

    Modelling conventions.
    - A Python [str] is a Rocq [string] whose characters are the code points
      below 256; the character classes of [str.strip], [str.lower] and of the
      [re] module ([\s], [\d], [\b]) are the Unicode ones restricted to that
      range.
    - Python integers are [Z]; [int] of a text refuses a run of more than
      4300 digits with a ValueError, as CPython does from 3.11 on.  An
      integer cell of a frame is one pandas stores, which [str] prints.
    - A Python float is an exact rational [Q]: binary64 rounding error and
      the infinities are not modelled, but the one place where the script's
      arithmetic raises ([int * float] with an integer too large for a
      double, an OverflowError) is.
    - Exceptions are explicit: a computation that may raise returns a
      [result].
    - A pandas DataFrame is an ordered list of named columns. *)

From Stdlib Require Import ZArith QArith Qround Qabs List String Ascii Bool Lia Lqa.
From Stdlib Require DecimalString DecimalPos DecimalZ.
From stdpp Require Import gmap strings.
Import ListNotations.

Local Open Scope Z_scope.

(* ====================================================================== *)
(** * Exceptions *)

Inductive exn := ValueError | IndexError | TypeError | OverflowError.

Inductive result (A : Type) :=
| Ok (a : A)
| Raise (e : exn).
Arguments Ok {A} a.
Arguments Raise {A} e.

Definition bind {A B} (r : result A) (f : A -> result B) : result B :=
  match r with
  | Ok a => f a
  | Raise e => Raise e
  end.

Notation "'let*' x ':=' c1 'in' c2" := (bind c1 (fun x => c2))
  (at level 10, x name, c1 at level 100, c2 at level 200).

(** [try: r except (ValueError, IndexError): pass], followed by the value
    the function returns after the handler. *)
Definition except_value_index {A} (r : result A) (dflt : A) : result A :=
  match r with
  | Raise ValueError | Raise IndexError => Ok dflt
  | _ => r
  end.


(** [for x in l: ... f x ...] collecting the results, stopping at the first
    exception. *)
Fixpoint map_result {A B} (f : A -> result B) (l : list A) : result (list B) :=
  match l with
  | [] => Ok []
  | x :: l' => let* y := f x in let* ys := map_result f l' in Ok (y :: ys)
  end.

(* ====================================================================== *)
(** * Python built-ins on characters and strings *)

Module Py.

Definition code (c : ascii) : nat := nat_of_ascii c.

Definition between (lo hi n : nat) : bool := Nat.leb lo n && Nat.leb n hi.

(** [str.isspace] on one character (also the [\s] of [re]). *)
Definition isspace (c : ascii) : bool :=
  let n := code c in
  between 9 13 n || between 28 32 n || Nat.eqb n 133 || Nat.eqb n 160.

(** Unicode decimal digits below 256 (the [\d] of [re]). *)
Definition isdigit (c : ascii) : bool := between 48 57 (code c).

(** [\w]: alphanumeric or underscore. *)
Definition isword (c : ascii) : bool :=
  let n := code c in
  between 48 57 n || between 65 90 n || Nat.eqb n 95 || between 97 122 n
  || Nat.eqb n 170 || between 178 179 n || Nat.eqb n 181
  || between 185 186 n || between 188 190 n
  || between 192 214 n || between 216 246 n || between 248 255 n.

(** [str.lower] on one character. *)
Definition lower_char (c : ascii) : ascii :=
  let n := code c in
  if between 65 90 n || between 192 214 n || between 216 222 n
  then ascii_of_nat (n + 32) else c.

Definition chars (s : string) : list ascii := list_ascii_of_string s.
Definition str (l : list ascii) : string := string_of_list_ascii l.

Definition lower (s : string) : string := str (map lower_char (chars s)).

Fixpoint lstrip_chars (l : list ascii) : list ascii :=
  match l with
  | c :: l' => if isspace c then lstrip_chars l' else l
  | [] => []
  end.

(** [str.strip()] *)
Definition strip (s : string) : string :=
  str (rev (lstrip_chars (rev (lstrip_chars (chars s))))).

(** Truth value of a string: non-empty. *)
Definition truthy (s : string) : bool :=
  match s with EmptyString => false | String _ _ => true end.

Fixpoint is_prefix (p l : list ascii) : bool :=
  match p, l with
  | [], _ => true
  | a :: p', b :: l' => Ascii.eqb a b && is_prefix p' l'
  | _ :: _, [] => false
  end.

Fixpoint contains_chars (sub l : list ascii) : bool :=
  is_prefix sub l ||
  match l with
  | [] => false
  | _ :: l' => contains_chars sub l'
  end.

(** [sub in s] *)
Definition contains (sub s : string) : bool :=
  contains_chars (chars sub) (chars s).

(** [s.replace(old, new)] for a non-empty [old]: leftmost, non-overlapping.
    [skip] counts the characters of an occurrence still to be passed. *)
Fixpoint replace_chars (old new l : list ascii) (skip : nat) : list ascii :=
  match skip with
  | S n => match l with [] => [] | _ :: l' => replace_chars old new l' n end
  | O =>
    match l with
    | [] => []
    | c :: l' =>
      if is_prefix old l
      then new ++ replace_chars old new l' (Nat.pred (List.length old))
      else c :: replace_chars old new l' 0
    end
  end.

Definition replace (old new s : string) : string :=
  str (replace_chars (chars old) (chars new) (chars s) 0).

(** ** Numbers *)

Definition digit_val (c : ascii) : Z := Z.of_nat (code c) - 48.

(** Value of a run of decimal digits, most significant first. *)
Fixpoint digits_val (acc : Z) (l : list ascii) : Z :=
  match l with
  | [] => acc
  | c :: l' => digits_val (10 * acc + digit_val c) l'
  end.

Definition all_digits (l : list ascii) : bool :=
  match l with [] => false | _ => forallb isdigit l end.

(** Most digits [int] reads from a text (CPython 3.11 on:
    [sys.get_int_max_str_digits()], 4300 unless configured otherwise). *)
Definition int_max_str_digits : nat := 4300.

(** [int(s)] on the texts the script passes: a non-empty run of digits,
    possibly surrounded by blanks.  Anything else is a [ValueError], and so
    is a run of more than [int_max_str_digits] digits. *)
Definition int (s : string) : result Z :=
  let l := chars (strip s) in
  if all_digits l && (List.length l <=? int_max_str_digits)%nat
  then Ok (digits_val 0 l) else Raise ValueError.

Fixpoint split_dot (l : list ascii) : list ascii * option (list ascii) :=
  match l with
  | [] => ([], None)
  | c :: l' =>
    if Ascii.eqb c "."%char then ([], Some l')
    else let '(a, b) := split_dot l' in (c :: a, b)
  end.

(** [float(s)] on the texts the script passes: digits, optionally followed
    by a point and more digits.  Anything else is a [ValueError]. *)
Definition float (s : string) : result Q :=
  let l := chars (strip s) in
  match split_dot l with
  | (ip, None) =>
    if all_digits ip then Ok (inject_Z (digits_val 0 ip)) else Raise ValueError
  | (ip, Some fp) =>
    if all_digits ip && all_digits fp
    then Ok (Qmake (digits_val 0 (ip ++ fp)) (Pos.pow 10 (Pos.of_nat (List.length fp))))
    else Raise ValueError
  end.

(** Largest magnitude an integer may have to be converted to a double:
    [int * float] raises [OverflowError] from [2^1024 - 2^970] on. *)
Definition float_max_int : Z := 2 ^ 1024 - 2 ^ 970.

Definition float_of_int (z : Z) : result Q :=
  if Z.abs z <? float_max_int then Ok (inject_Z z) else Raise OverflowError.

(** Nearest integer, ties to even. *)
Definition round_half_even (q : Q) : Z :=
  let f := Qfloor q in
  match Qcompare (q - inject_Z f) (1 # 2) with
  | Lt => f
  | Gt => f + 1
  | Eq => if Z.even f then f else f + 1
  end.

(** [round(q, 1)] *)
Definition round1 (q : Q) : Q := Qmake (round_half_even (q * 10)) 10.

(** [str(z)] for an integer. *)
Definition str_of_int (z : Z) : string :=
  DecimalString.NilZero.string_of_int (Z.to_int z).

(** Zero-padded decimal of a non-negative integer, as in ["%04d"]. *)
Definition pad (width : nat) (z : Z) : string :=
  let s := DecimalString.NilZero.string_of_uint (N.to_uint (Z.to_N z)) in
  str (repeat "0"%char (width - String.length s) ++ chars s).

End Py.


(* ====================================================================== *)
(** * The [re] module: a backtracking matcher

    Only the constructs the script's patterns use: literals, character
    classes, concatenation, ordered alternation, greedy repetition of a
    character class, capture groups and the word boundary.  The matcher is
    written in continuation-passing style, so that alternatives are tried in
    the order Python tries them and a capture made on an abandoned path is
    forgotten. *)

Module Re.

Inductive cset :=
| CChar (c : ascii)            (* the character itself *)
| CIChar (c : ascii)           (* the character, under re.IGNORECASE *)
| CDigit                       (* \d *)
| CSpace                       (* \s *)
| CRange (lo hi : ascii)       (* lo-hi inside brackets *)
| COr (a b : cset).            (* two items inside brackets *)

Fixpoint cset_mem (cs : cset) (c : ascii) : bool :=
  match cs with
  | CChar x => Ascii.eqb c x
  | CIChar x => Ascii.eqb (Py.lower_char c) (Py.lower_char x)
  | CDigit => Py.isdigit c
  | CSpace => Py.isspace c
  | CRange lo hi => Py.between (Py.code lo) (Py.code hi) (Py.code c)
  | COr a b => cset_mem a c || cset_mem b c
  end.

Inductive regex :=
| Eps
| One (cs : cset)
| Cat (r1 r2 : regex)
| Alt (r1 r2 : regex)                          (* r1|r2, r1 tried first *)
| Rep (cs : cset) (lo : nat) (hi : option nat) (* cs{lo,hi}, greedy *)
| Grp (i : nat) (r : regex)                    (* i-th capture group *)
| Bnd.                                         (* \b *)

(** The matcher's position in the subject: the characters before the
    cursor (nearest first), those after it, and the groups captured so
    far. *)
Record mstate := MState {
  pre : list ascii;
  suf : list ascii;
  caps : list (nat * string)
}.

Definition word_before (st : mstate) : bool :=
  match pre st with c :: _ => Py.isword c | [] => false end.

Definition word_after (st : mstate) : bool :=
  match suf st with c :: _ => Py.isword c | [] => false end.

(** Text consumed between an earlier state and a later one. *)
Definition consumed (st st' : mstate) : string :=
  Py.str (rev (firstn (List.length (pre st') - List.length (pre st)) (pre st'))).

Definition set_cap (i : nat) (s : string) (st : mstate) : mstate :=
  MState (pre st) (suf st) ((i, s) :: caps st).

(** Leaving a repetition: allowed once the least count is reached. *)
Definition rep_stop (lo : nat) (k : mstate -> option mstate) (st : mstate)
    : option mstate :=
  match lo with O => k st | S _ => None end.

Fixpoint rep (cs : cset) (lo : nat) (hi : option nat)
    (p s : list ascii) (cp : list (nat * string))
    (k : mstate -> option mstate) {struct s} : option mstate :=
  match hi with
  | Some O => rep_stop lo k (MState p s cp)
  | _ =>
    match s with
    | c :: s' =>
      if cset_mem cs c then
        match rep cs (Nat.pred lo) (option_map Nat.pred hi) (c :: p) s' cp k with
        | Some st => Some st
        | None => rep_stop lo k (MState p s cp)
        end
      else rep_stop lo k (MState p s cp)
    | [] => rep_stop lo k (MState p s cp)
    end
  end.

Fixpoint run (r : regex) (st : mstate) (k : mstate -> option mstate)
    : option mstate :=
  match r with
  | Eps => k st
  | One cs =>
    match suf st with
    | c :: s' =>
      if cset_mem cs c then k (MState (c :: pre st) s' (caps st)) else None
    | [] => None
    end
  | Cat r1 r2 => run r1 st (fun st' => run r2 st' k)
  | Alt r1 r2 =>
    match run r1 st k with
    | Some st' => Some st'
    | None => run r2 st k
    end
  | Rep cs lo hi => rep cs lo hi (pre st) (suf st) (caps st) k
  | Grp i r' => run r' st (fun st' => k (set_cap i (consumed st st') st'))
  | Bnd => if xorb (word_before st) (word_after st) then k st else None
  end.

(** A match object. *)
Record match_obj := MatchObj {
  m_start : nat;
  m_end : nat;
  m_caps : list (nat * string)
}.

Fixpoint lookup_cap (i : nat) (cp : list (nat * string)) : option string :=
  match cp with
  | [] => None
  | (j, s) :: cp' => if Nat.eqb i j then Some s else lookup_cap i cp'
  end.

(** [m.group(i)] for [i >= 1]: [None] when the group took no part. *)
Definition group (m : match_obj) (i : nat) : option string :=
  lookup_cap i (m_caps m).

(** [m.groups()] for a pattern with [n] groups. *)
Definition groups (n : nat) (m : match_obj) : list (option string) :=
  map (fun i => group m (S i)) (seq 0 n).

Definition match_at (r : regex) (p s : list ascii) : option match_obj :=
  match run r (MState p s []) Some with
  | Some st => Some (MatchObj (List.length p) (List.length (pre st)) (caps st))
  | None => None
  end.

(** [re.match(r, s)]: a match starting at the first character. *)
Definition match_ (r : regex) (s : string) : option match_obj :=
  match_at r [] (Py.chars s).

Fixpoint search_at (r : regex) (p s : list ascii) : option match_obj :=
  match match_at r p s with
  | Some m => Some m
  | None =>
    match s with
    | [] => None
    | c :: s' => search_at r (c :: p) s'
    end
  end.

(** [re.search(r, s)]: the leftmost match. *)
Definition search (r : regex) (s : string) : option match_obj :=
  search_at r [] (Py.chars s).

(** All non-overlapping matches, left to right.  [skip] counts the
    characters of the previous match still to be passed. *)
Fixpoint finditer_at (r : regex) (p s : list ascii) (skip : nat)
    : list match_obj :=
  match skip with
  | S n =>
    match s with
    | [] => []
    | c :: s' => finditer_at r (c :: p) s' n
    end
  | O =>
    match match_at r p s with
    | Some m =>
      m :: match s with
           | [] => []
           | c :: s' => finditer_at r (c :: p) s' (Nat.pred (m_end m - m_start m))
           end
    | None =>
      match s with
      | [] => []
      | c :: s' => finditer_at r (c :: p) s' 0
      end
    end
  end.

Definition finditer (r : regex) (s : string) : list match_obj :=
  finditer_at r [] (Py.chars s) 0.

(** [re.findall(r, s)] for a pattern with exactly one group. *)
Definition findall (r : regex) (s : string) : list string :=
  map (fun m => match group m 1 with Some g => g | None => EmptyString end)
      (finditer r s).

Fixpoint split_pieces (l : list ascii) (pos : nat) (ms : list match_obj)
    : list string :=
  match ms with
  | [] => [Py.str (skipn pos l)]
  | m :: ms' =>
    Py.str (firstn (m_start m - pos) (skipn pos l)) :: split_pieces l (m_end m) ms'
  end.

(** [re.split(r, s)] for a pattern without capture groups. *)
Definition split (r : regex) (s : string) : list string :=
  split_pieces (Py.chars s) 0 (finditer r s).

(** ** Pattern notation *)

Definition chr (c : ascii) : regex := One (CChar c).
Definition d : regex := One CDigit.

Fixpoint lit_chars (l : list ascii) : regex :=
  match l with
  | [] => Eps
  | [c] => chr c
  | c :: l' => Cat (chr c) (lit_chars l')
  end.

(** A literal word. *)
Definition lit (s : string) : regex := lit_chars (Py.chars s).

Fixpoint ilit_chars (l : list ascii) : regex :=
  match l with
  | [] => Eps
  | [c] => One (CIChar c)
  | c :: l' => Cat (One (CIChar c)) (ilit_chars l')
  end.

(** A literal word under re.IGNORECASE. *)
Definition ilit (s : string) : regex := ilit_chars (Py.chars s).

Fixpoint cat (l : list regex) : regex :=
  match l with
  | [] => Eps
  | [r] => r
  | r :: l' => Cat r (cat l')
  end.

Fixpoint alt (l : list regex) : regex :=
  match l with
  | [] => Eps
  | [r] => r
  | r :: l' => Alt r (alt l')
  end.

(** [r?] *)
Definition opt (r : regex) : regex := Alt r Eps.
(** [cs*], [cs+], [cs{lo,hi}] *)
Definition star (cs : cset) : regex := Rep cs 0 None.
Definition plus (cs : cset) : regex := Rep cs 1 None.
Definition rng (cs : cset) (lo hi : nat) : regex := Rep cs lo (Some hi).

End Re.

(* ====================================================================== *)
(** * Dates ([datetime.date]) *)

Record date := Date { year : Z; month : Z; day : Z }.

Definition is_leap (y : Z) : bool :=
  (y mod 4 =? 0) && (negb (y mod 100 =? 0) || (y mod 400 =? 0)).

Definition days_in_month (y m : Z) : Z :=
  if m =? 2 then (if is_leap y then 29 else 28)
  else if (m =? 4) || (m =? 6) || (m =? 9) || (m =? 11) then 30
  else 31.

(** The constructor [date(y, m, d)], which raises [ValueError] outside the
    calendar. *)
Definition new_date (y m d : Z) : result date :=
  if (1 <=? y) && (y <=? 9999) && (1 <=? m) && (m <=? 12)
     && (1 <=? d) && (d <=? days_in_month y m)
  then Ok (Date y m d) else Raise ValueError.

(** [str(d)], the ISO form. *)
Definition isoformat (d : date) : string :=
  (Py.pad 4 (year d) ++ "-" ++ Py.pad 2 (month d) ++ "-" ++ Py.pad 2 (day d))%string.

(** Date de reference pour le calcul de l'age. *)
Definition TODAY : date := Date 2025 10 21.

(* ====================================================================== *)
(** * [datetime.strptime], for the directives the script uses

    As in the standard library, a format is turned into a regular
    expression (compiled with re.IGNORECASE) that must match from the first
    character and consume the whole text; the fields found are then turned
    into a date.  Month names are those of the C locale. *)

Module Strptime.

Inductive item :=
| DirB | Dirb | Dird | Dirm | DirY | Diry   (* %B %b %d %m %Y %y *)
| Blank                                     (* a run of blanks *)
| Ch (c : ascii)                            (* any other character *)
| BadDirective.

(** Splits a format into directives, blanks and literal characters. *)
Fixpoint items_of (l : list ascii) (after_pct after_blank : bool) : list item :=
  match l with
  | [] => if after_pct then [BadDirective] else []
  | c :: l' =>
    if after_pct then
      (if Ascii.eqb c "B" then DirB
       else if Ascii.eqb c "b" then Dirb
       else if Ascii.eqb c "d" then Dird
       else if Ascii.eqb c "m" then Dirm
       else if Ascii.eqb c "Y" then DirY
       else if Ascii.eqb c "y" then Diry
       else BadDirective) :: items_of l' false false
    else if Ascii.eqb c "%" then items_of l' true false
    else if Py.isspace c then
      (if after_blank then items_of l' false true
       else Blank :: items_of l' false true)
    else Ch c :: items_of l' false false
  end.

Definition f_month : list string :=
  ["january"; "february"; "march"; "april"; "may"; "june"; "july";
   "august"; "september"; "october"; "november"; "december"]%string.

Definition a_month : list string :=
  ["jan"; "feb"; "mar"; "apr"; "may"; "jun"; "jul"; "aug"; "sep"; "oct";
   "nov"; "dec"]%string.

(** Stable sort by decreasing length, as [sorted(key=len, reverse=True)]. *)
Fixpoint insert_by_len (x : string) (l : list string) : list string :=
  match l with
  | [] => [x]
  | y :: l' =>
    if Nat.ltb (String.length y) (String.length x) then x :: l
    else y :: insert_by_len x l'
  end.

Definition sort_by_len (l : list string) : list string :=
  fold_left (fun acc x => insert_by_len x acc) l [].

(** Group numbers standing for the named groups of the library. *)
Definition gY := 1%nat.
Definition gy := 2%nat.
Definition gm := 3%nat.
Definition gB := 4%nat.
Definition gb := 5%nat.
Definition gd := 6%nat.

Definition dig (lo hi : ascii) : Re.regex := Re.One (Re.CRange lo hi).

Definition names_re (names : list string) : Re.regex :=
  Re.alt (map Re.ilit (sort_by_len names)).

Definition never : Re.regex := Re.One (Re.CRange "1" "0").

Definition item_re (i : item) : Re.regex :=
  match i with
  | DirB => Re.Grp gB (names_re f_month)
  | Dirb => Re.Grp gb (names_re a_month)
  | Dird =>
    (* 3[0-1]|[1-2]\d|0[1-9]|[1-9]| [1-9] *)
    Re.Grp gd (Re.alt [Re.Cat (Re.chr "3") (dig "0" "1");
                       Re.Cat (dig "1" "2") Re.d;
                       Re.Cat (Re.chr "0") (dig "1" "9");
                       dig "1" "9";
                       Re.Cat (Re.chr " ") (dig "1" "9")])
  | Dirm =>
    (* 1[0-2]|0[1-9]|[1-9] *)
    Re.Grp gm (Re.alt [Re.Cat (Re.chr "1") (dig "0" "2");
                       Re.Cat (Re.chr "0") (dig "1" "9");
                       dig "1" "9"])
  | DirY => Re.Grp gY (Re.rng Re.CDigit 4 4)
  | Diry => Re.Grp gy (Re.rng Re.CDigit 2 2)
  | Blank => Re.plus Re.CSpace
  | Ch c => Re.One (Re.CIChar c)
  | BadDirective => never
  end.

Definition format_regex (fmt : string) : Re.regex :=
  Re.cat (map item_re (items_of (Py.chars fmt) false false)).

Fixpoint index_of (x : string) (l : list string) (i : Z) : result Z :=
  match l with
  | [] => Raise ValueError
  | y :: l' => if String.eqb x y then Ok i else index_of x l' (i + 1)
  end.

(** The field of one directive, or the default when the format has not
    got it. *)
Definition field (m : Re.match_obj) (g : nat) (conv : string -> result Z)
    (dflt : result Z) : result Z :=
  match Re.group m g with
  | Some s => conv s
  | None => dflt
  end.

Definition year_of (m : Re.match_obj) : result Z :=
  field m gY Py.int
    (field m gy (fun s => let* y := Py.int s in
                          Ok (if y <=? 68 then y + 2000 else y + 1900))
       (Ok 1900)).

Definition month_of (m : Re.match_obj) : result Z :=
  field m gm Py.int
    (field m gB (fun s => index_of (Py.lower s) f_month 1)
       (field m gb (fun s => index_of (Py.lower s) a_month 1) (Ok 1))).

Definition day_of (m : Re.match_obj) : result Z := field m gd Py.int (Ok 1).

(** [datetime.strptime(text, fmt).date()] *)
Definition strptime (text fmt : string) : result date :=
  match Re.match_ (format_regex fmt) text with
  | None => Raise ValueError          (* does not match format *)
  | Some m =>
    if Nat.eqb (Re.m_end m) (String.length text) then
      let* y := year_of m in
      let* mo := month_of m in
      let* d := day_of m in
      new_date y mo d
    else Raise ValueError             (* unconverted data remains *)
  end.

End Strptime.

(* ====================================================================== *)
(** * Cells of a DataFrame *)

Inductive cell :=
| NA                    (* None, NaN, <NA> *)
| Str (s : string)
| Int (z : Z)
| Float (q : Q)
| Bool (b : bool)
| DateV (d : date).

(** [pd.isna(x)] *)
Definition isna (x : cell) : bool :=
  match x with NA => true | _ => false end.

(** Decimal expansion of the fractional part [q] in [0, 1): at most [n]
    digits, trailing zeros dropped. *)
Fixpoint frac_digits (n : nat) (q : Q) : list ascii :=
  match n with
  | O => []
  | S n' =>
    if Qeq_bool q 0 then []
    else
      let t := Qred (q * 10) in
      let dgt := Qfloor t in
      ascii_of_nat (Z.to_nat dgt + 48) :: frac_digits n' (Qred (t - inject_Z dgt))
  end.

(** [repr] of a float whose shortest decimal form has no exponent. *)
Definition repr_float (q : Q) : string :=
  let a := Qabs q in
  let ip := Qfloor a in
  let fd := frac_digits 17 (Qred (a - inject_Z ip)) in
  ((if Qlt_le_dec q 0 then "-" else "") ++ Py.str_of_int ip ++ "."
   ++ Py.str (match fd with [] => ["0"%char] | _ => fd end))%string.

(** [str(x)] *)
Definition py_str (x : cell) : string :=
  match x with
  | NA => "None"
  | Str s => s
  | Int z => Py.str_of_int z
  | Float q => repr_float q
  | Bool true => "True"
  | Bool false => "False"
  | DateV d => isoformat d
  end.

(** The test that opens every parser:
    [pd.isna(text) or not str(text).strip()]. *)
Definition absent_or_blank (x : cell) : bool :=
  isna x || negb (Py.truthy (Py.strip (py_str x))).

Definition opt_cell {A} (f : A -> cell) (o : option A) : cell :=
  match o with Some a => f a | None => NA end.

(* ====================================================================== *)
(** * Lookup tables *)

(** Dictionnaire pour categoriser les occupations: categories in the
    order of the dictionary, each with its keywords in order. *)
Definition OCCUPATION_KEYWORDS : list (string * list string) :=
  [("Military/Intelligence",
    ["officer"; "gru"; "intelligence"; "military"; "fsb"; "security service";
     "syrian air force"; "army"; "navy"; "marine"; "directorate";
     "general staff"]);
   ("Medical",
    ["doctor"; "surgeon"; "physician"; "nurse"; "nursing"; "therapist";
     "cardiologist"; "medical"; "catheter"; "respiratory"; "chiropractor";
     "acupuncturist"; "chemist"; "pharmaceutical"]);
   ("IT/Technology",
    ["it worker"; "software"; "programmer"; "developer"; "engineer";
     "computer"; "network"; "blockchain"; "backend"; "zksnark"; "technology";
     "web"]);
   ("Construction",
    ["construction"; "carpenter"; "welder"; "electrician"; "plumber";
     "mason"; "painter"; "handyman"; "builder"; "contractor";
     "tractor driver"; "floor sander"]);
   ("Transportation",
    ["driver"; "truck"; "taxi"; "cab"; "mechanic"; "aviation"; "pilot";
     "shipping"; "boat"; "ship"]);
   ("Food Service",
    ["cook"; "chef"; "waiter"; "restaurant"; "food service"; "kitchen"]);
   ("Business/Management",
    ["ceo"; "president"; "director"; "manager"; "executive"; "businessman";
     "entrepreneur"; "owner"; "operator"; "consultant"]);
   ("Finance/Trading",
    ["broker"; "trader"; "commodities"; "investment"; "banking"; "finance";
     "advisor"; "asset manager"]);
   ("Government",
    ["government"; "official"; "diplomat"; "service officer"; "taxation";
     "commission"; "delegation"]);
   ("Law Enforcement",
    ["police"; "constable"; "dispatcher"; "security"; "law enforcement"]);
   ("Agriculture",
    ["farm"; "agriculture"; "laborer"; "migrant"; "seed"; "rice";
     "landscaping"]);
   ("Sales/Retail",
    ["sales"; "salesman"; "retail"; "store"; "clerk"; "dealer"]);
   ("Trade/Manufacturing",
    ["warehouse"; "factory"; "manufacturing"; "production"; "textile";
     "procurement"; "arms broker"]);
   ("Religious",
    ["priest"; "pastor"; "religious"; "clergy"; "minister"]);
   ("Services",
    ["massage"; "nail technician"; "barber"; "salon"; "spa"]);
   ("Education/Research",
    ["teacher"; "professor"; "researcher"; "education"; "academic"]);
   ("Emergency Services",
    ["fireman"; "firefighter"; "paramedic"; "emt"; "rescue"]);
   ("Entertainment",
    ["recording studio"; "amusement"; "arcade"; "game"]);
   ("Unknown",
    ["unknown"; "unemployed"; "none"; "n/a"])]%string.

(** Dictionnaire des lieux de naissance vers (pays, code ISO). *)
Definition BIRTH_PLACE_MAPPING : gmap string (option string * option string) :=
  list_to_map
    [("Los Angeles, California", (Some "United States", Some "USA"));
     ("Pasadena, California", (Some "United States", Some "USA"));
     ("Arcadia, California", (Some "United States", Some "USA"));
     ("Sacramento, California", (Some "United States", Some "USA"));
     ("San Francisco, California", (Some "United States", Some "USA"));
     ("Fresno, California", (Some "United States", Some "USA"));
     ("California", (Some "United States", Some "USA"));
     ("Brooklyn, New York", (Some "United States", Some "USA"));
     ("New York City, New York", (Some "United States", Some "USA"));
     ("New York", (Some "United States", Some "USA"));
     ("El Paso, Texas", (Some "United States", Some "USA"));
     ("Memphis, Tennessee", (Some "United States", Some "USA"));
     ("Mobile, Alabama", (Some "United States", Some "USA"));
     ("Selma, Alabama", (Some "United States", Some "USA"));
     ("Alabama", (Some "United States", Some "USA"));
     ("Springfield, Illinois", (Some "United States", Some "USA"));
     ("Olney, Illinois", (Some "United States", Some "USA"));
     ("Illinois", (Some "United States", Some "USA"));
     ("Detroit, Michigan", (Some "United States", Some "USA"));
     ("Michigan, USA", (Some "United States", Some "USA"));
     ("Miami, Florida", (Some "United States", Some "USA"));
     ("Florida", (Some "United States", Some "USA"));
     ("New Jersey", (Some "United States", Some "USA"));
     ("Virginia", (Some "United States", Some "USA"));
     ("Oregon", (Some "United States", Some "USA"));
     ("Pennsylvania", (Some "United States", Some "USA"));
     ("North Dakota", (Some "United States", Some "USA"));
     ("Louisiana", (Some "United States", Some "USA"));
     ("Massachusetts", (Some "United States", Some "USA"));
     ("Hawaii", (Some "United States", Some "USA"));
     ("Idaho", (Some "United States", Some "USA"));
     ("Ohio", (Some "United States", Some "USA"));
     ("Wadesboro, North Carolina", (Some "United States", Some "USA"));
     ("Washington, DC", (Some "United States", Some "USA"));
     ("Wayne, Pennsylvania", (Some "United States", Some "USA"));
     ("Hunan Province, China", (Some "China", Some "CHN"));
     ("Liaoning, China", (Some "China", Some "CHN"));
     ("Hangzhou, Zhejiang Province, China", (Some "China", Some "CHN"));
     ("Heilongjiang, China", (Some "China", Some "CHN"));
     ("Wusu, Xinjiang, China", (Some "China", Some "CHN"));
     ("Anhui, China", (Some "China", Some "CHN"));
     ("Tacheng, Xinjiang, China or Urumqi, Xinjiang, China",
      (Some "China", Some "CHN"));
     ("Shaanxi, China", (Some "China", Some "CHN"));
     ("Shandong, China", (Some "China", Some "CHN"));
     ("Shanghai, China", (Some "China", Some "CHN"));
     ("Weifang, Shandong, China", (Some "China", Some "CHN"));
     ("Zhejiang, China", (Some "China", Some "CHN"));
     ("China", (Some "China", Some "CHN"));
     ("People's Republic of China", (Some "China", Some "CHN"));
     ("Chelyabinskaya Oblast, Russia", (Some "Russia", Some "RUS"));
     ("Tver, Russia", (Some "Russia", Some "RUS"));
     ("Stavropol, Russia", (Some "Russia", Some "RUS"));
     ("Novocherkask, Russia", (Some "Russia", Some "RUS"));
     ("Volzhskiy, Volgogradskaya Oblast, Russia", (Some "Russia", Some "RUS"));
     ("Saint Petersburg, Russia", (Some "Russia", Some "RUS"));
     ("Murmanskaya Oblast, Russia", (Some "Russia", Some "RUS"));
     ("Sosnovka, Russia", (Some "Russia", Some "RUS"));
     ("Moscow, Russia", (Some "Russia", Some "RUS"));
     ("Village of Fenino, Serpukhovskoy District, Moscow Oblast, Russia",
      (Some "Russia", Some "RUS"));
     ("Totma, Vologda Oblast, Russia", (Some "Russia", Some "RUS"));
     ("Tymovskoye, Russia", (Some "Russia", Some "RUS"));
     ("Leningrad, Russia", (Some "Russia", Some "RUS"));
     ("Kaluga, Russia", (Some "Russia", Some "RUS"));
     ("City of Syktyvkar, Russia", (Some "Russia", Some "RUS"));
     ("Ramenskoye, Russia", (Some "Russia", Some "RUS"));
     ("Grozny, Chechnya, Russia", (Some "Russia", Some "RUS"));
     ("Rostov-On-Don, Russia", (Some "Russia", Some "RUS"));
     ("Khaborovsk, Russia", (Some "Russia", Some "RUS"));
     ("Obninsk, Kaluga Oblast, Russia", (Some "Russia", Some "RUS"));
     ("Vologda, Russia", (Some "Russia", Some "RUS"));
     ("Bratsk, Irkutsk Oblast, Russia", (Some "Russia", Some "RUS"));
     ("Kursk, Russia", (Some "Russia", Some "RUS"));
     ("Yoshkar-Ola, Russia", (Some "Russia", Some "RUS"));
     ("Stavropolskiy Kraya, Russia", (Some "Russia", Some "RUS"));
     ("Bologoe-4, Kalininskiy Oblast, Russia", (Some "Russia", Some "RUS"));
     ("Russia", (Some "Russia", Some "RUS"));
     ("Russian Federation", (Some "Russia", Some "RUS"));
     ("Zabol, Iran", (Some "Iran", Some "IRN"));
     ("Tehran, Iran", (Some "Iran", Some "IRN"));
     ("Tabriz, Iran", (Some "Iran", Some "IRN"));
     ("Zanjan, Iran", (Some "Iran", Some "IRN"));
     ("Urmia, Iran", (Some "Iran", Some "IRN"));
     ("Yazd Province, Iran", (Some "Iran", Some "IRN"));
     ("Sabzevar, Iran", (Some "Iran", Some "IRN"));
     ("Tehran Province, Iran", (Some "Iran", Some "IRN"));
     ("Karaj, Iran", (Some "Iran", Some "IRN"));
     ("Mianeh, Iran", (Some "Iran", Some "IRN"));
     ("Naghadeh, Iran", (Some "Iran", Some "IRN"));
     ("Ilam, Iran", (Some "Iran", Some "IRN"));
     ("Mashhad, Iran", (Some "Iran", Some "IRN"));
     ("Ardabil, Iran", (Some "Iran", Some "IRN"));
     ("Iran", (Some "Iran", Some "IRN"));
     ("Nayarit, Mexico", (Some "Mexico", Some "MEX"));
     ("Sinaloa, Mexico", (Some "Mexico", Some "MEX"));
     ("Baja California, Mexico", (Some "Mexico", Some "MEX"));
     ("Jalisco, Mexico", (Some "Mexico", Some "MEX"));
     ("Veracruz, Mexico", (Some "Mexico", Some "MEX"));
     ("Jerez, Zacatecas, Mexico", (Some "Mexico", Some "MEX"));
     ("Chuicopa, Sinaloa, Mexico", (Some "Mexico", Some "MEX"));
     ("Mezquital del Oro, Zacatecas, Mexico", (Some "Mexico", Some "MEX"));
     ("Zacatecas, Mexico", (Some "Mexico", Some "MEX"));
     ("Colima, Mexico", (Some "Mexico", Some "MEX"));
     ("Mexico City, Mexico", (Some "Mexico", Some "MEX"));
     ("Hidalgo, Mexico", (Some "Mexico", Some "MEX"));
     ("Durango, Mexico", (Some "Mexico", Some "MEX"));
     ("Mexico", (Some "Mexico", Some "MEX"));
     ("Jucuaran, Usulutan, El Salvador", (Some "El Salvador", Some "SLV"));
     ("San Francisco Menendez, Ahuachapan, El Salvador",
      (Some "El Salvador", Some "SLV"));
     ("San Salvador, San Salvador, El Salvador",
      (Some "El Salvador", Some "SLV"));
     ("Ozatlan, Usulutan, El Salvador", (Some "El Salvador", Some "SLV"));
     ("Ahuachapan, Ahuachapan, El Salvador", (Some "El Salvador", Some "SLV"));
     ("Tejutla, Chalatenango, El Salvador", (Some "El Salvador", Some "SLV"));
     ("Cuscatancingo, San Salvador, El Salvador",
      (Some "El Salvador", Some "SLV"));
     ("Usulutan, Usulutan, El Salvador", (Some "El Salvador", Some "SLV"));
     ("El Salvador", (Some "El Salvador", Some "SLV"));
     ("Pyongyang, North Korea", (Some "North Korea", Some "PRK"));
     ("Democratic People's Republic of Korea (North Korea)",
      (Some "North Korea", Some "PRK"));
     ("Kryvyi Rih, Dnipropetrovsk Oblast, Ukraine",
      (Some "Ukraine", Some "UKR"));
     ("Kyiv, Ukraine", (Some "Ukraine", Some "UKR"));
     ("Kiev, Ukraine", (Some "Ukraine", Some "UKR"));
     ("Boryspil, Kyiv Oblast, Ukraine", (Some "Ukraine", Some "UKR"));
     ("Ukraine", (Some "Ukraine", Some "UKR"));
     ("Homs, Syria", (Some "Syria", Some "SYR"));
     ("Damascus, Syria", (Some "Syria", Some "SYR"));
     ("Allepo, Syria", (Some "Syria", Some "SYR"));
     ("Syria", (Some "Syria", Some "SYR"));
     ("San Juan, Puerto Rico", (Some "Puerto Rico", Some "PRI"));
     ("Lajas, Puerto Rico", (Some "Puerto Rico", Some "PRI"));
     ("Aguada, Puerto Rico", (Some "Puerto Rico", Some "PRI"));
     ("Pakistan", (Some "Pakistan", Some "PAK"));
     ("Pranpura, Haryana, India", (Some "India", Some "IND"));
     ("Hyderabad, Pakistan", (Some "Pakistan", Some "PAK"));
     ("Karachi, Pakistan", (Some "Pakistan", Some "PAK"));
     ("India", (Some "India", Some "IND"));
     ("Honduras", (Some "Honduras", Some "HND"));
     ("Atlantida, Honduras", (Some "Honduras", Some "HND"));
     ("Copan, Honduras", (Some "Honduras", Some "HND"));
     ("Cambodia", (Some "Cambodia", Some "KHM"));
     ("Uzbekistan", (Some "Uzbekistan", Some "UZB"));
     ("Toy Teipa, Uzbekistan", (Some "Uzbekistan", Some "UZB"));
     ("Haiti", (Some "Haiti", Some "HTI"));
     ("Nigeria", (Some "Nigeria", Some "NGA"));
     ("Minsk, Belarus", (Some "Belarus", Some "BLR"));
     ("Jamaica", (Some "Jamaica", Some "JAM"));
     ("Santiago, Dominican Republic", (Some "Dominican Republic", Some "DOM"));
     ("Dominican Republic", (Some "Dominican Republic", Some "DOM"));
     ("La Calera, Chile", (Some "Chile", Some "CHL"));
     ("LaGuaira, Venezuela", (Some "Venezuela", Some "VEN"));
     ("Venezuela", (Some "Venezuela", Some "VEN"));
     ("Bangladesh", (Some "Bangladesh", Some "BGD"));
     ("Riga, Latvia", (Some "Latvia", Some "LVA"));
     ("Vietnam", (Some "Vietnam", Some "VNM"));
     ("Republic of Vietnam", (Some "Vietnam", Some "VNM"));
     ("Mong Cai, Quang Ninh Province, North Vietnam",
      (Some "Vietnam", Some "VNM"));
     ("Quang Binh Province, Vietnam", (Some "Vietnam", Some "VNM"));
     ("Sweden", (Some "Sweden", Some "SWE"));
     ("Canada", (Some "Canada", Some "CAN"));
     ("Bel Ombre, Mahe Island, Seychelles", (Some "Seychelles", Some "SYC"));
     ("Spain", (Some "Spain", Some "ESP"));
     ("Cuba", (Some "Cuba", Some "CUB"));
     ("Turkey", (Some "Turkey", Some "TUR"));
     ("Armenia", (Some "Armenia", Some "ARM"));
     ("Ghana", (Some "Ghana", Some "GHA"));
     ("Ecuador", (Some "Ecuador", Some "ECU"));
     ("Guayaquil, Ecuador", (Some "Ecuador", Some "ECU"));
     ("Brazil", (Some "Brazil", Some "BRA"));
     ("Laos", (Some "Laos", Some "LAO"));
     ("Philippines", (Some "Philippines", Some "PHL"));
     ("Ilocos Norte, Philippines", (Some "Philippines", Some "PHL"));
     ("Germany", (Some "Germany", Some "DEU"));
     ("Sydney, Australia", (Some "Australia", Some "AUS"));
     ("Sumqayit, Azerbaijan", (Some "Azerbaijan", Some "AZE"));
     ("Muscat, Oman", (Some "Oman", Some "OMN"));
     ("United Kingdom", (Some "United Kingdom", Some "GBR"));
     ("Batroun, Lebanon", (Some "Lebanon", Some "LBN"));
     ("Guatemala", (Some "Guatemala", Some "GTM"));
     ("Unknown", (None, None));
     ("", (None, None))]%string.

(* ====================================================================== *)
(** * Field parsers and classifiers *)

(** First non-[None] result of [f] over a list, as a [for] loop whose body
    returns as soon as the value is truthy. *)
Fixpoint first_some {A B} (f : A -> result (option B)) (l : list A)
    : result (option B) :=
  match l with
  | [] => Ok None
  | x :: l' =>
    let* r := f x in
    match r with
    | Some b => Ok (Some b)
    | None => first_some f l'
    end
  end.

(** ** count_aliases *)

(** (?:\saka\s|\s*\|\s*|,\s*|;\s*|\n+), re.IGNORECASE *)
Definition alias_delimiters : Re.regex :=
  Re.alt [Re.cat [Re.One Re.CSpace; Re.ilit "aka"; Re.One Re.CSpace];
          Re.cat [Re.star Re.CSpace; Re.chr "|"; Re.star Re.CSpace];
          Re.cat [Re.chr ","; Re.star Re.CSpace];
          Re.cat [Re.chr ";"; Re.star Re.CSpace];
          Re.plus (Re.CChar "010")].

Definition non_answers : list string := ["-"; "None"; "N/A"; "n/a"]%string.

Definition count_aliases (text : cell) : Z :=
  if absent_or_blank text then 0 else
  let s := Py.replace "a/k/a" "aka" (Py.strip (py_str text)) in
  let parts := Re.split alias_delimiters s in
  let parts :=
    map Py.strip
      (List.filter (fun p => Py.truthy p
                        && negb (existsb (String.eqb (Py.strip p)) non_answers))
              parts) in
  Z.of_nat (List.length parts).

(** ** parse_date *)

Definition _parse_date_with_format (text fmt : string) : result (option date) :=
  match Strptime.strptime text fmt with
  | Ok d => Ok (Some d)
  | Raise ValueError => Ok None
  | Raise e => Raise e
  end.

(** [groups[i]] *)
Definition tuple_get {A} (t : list A) (i : nat) : result A :=
  match nth_error t i with
  | Some a => Ok a
  | None => Raise IndexError
  end.

(** [int(x)] for a group of a match: [int(None)] is a [TypeError]. *)
Definition int_of_group (g : option string) : result Z :=
  match g with
  | Some s => Py.int s
  | None => Raise TypeError
  end.

(** A pattern with the number of groups it has. *)
Definition pattern : Type := Re.regex * nat.

Definition _parse_date_with_regex (text : string) (pat : pattern)
    (year_group month_group day_group : nat) : result (option date) :=
  match Re.search (fst pat) text with
  | Some m =>
    let groups := Re.groups (snd pat) m in
    except_value_index
      ((* Gerer l'ambiguite des annees a deux chiffres *)
       let* gy := tuple_get groups year_group in
       let* year := int_of_group gy in
       let year :=
         if Nat.eqb (String.length (Py.str_of_int year)) 2
         then year + (if 25 <? year then 1900 else 2000)
         else year in
       let* gm := tuple_get groups month_group in
       let* mo := int_of_group gm in
       let* gd := tuple_get groups day_group in
       let* dy := int_of_group gd in
       let* dt := new_date year mo dy in
       Ok (Some dt))
      None
  | None => Ok None
  end.

Definition date_formats : list string :=
  ["%B %d, %Y";   (* "April 13, 1961" *)
   "%b %d, %Y";   (* "Apr 13, 1961" *)
   "%m/%d/%Y";    (* "04/13/1961" *)
   "%m/%d/%y";    (* "04/13/61" *)
   "%Y-%m-%d";    (* "1961-04-13" *)
   "%d %B %Y";    (* "13 April 1961" *)
   "%d %b %Y"     (* "13 Apr 1961" *)
  ]%string.

(** \b(\d{4})-(\d{1,2})-(\d{1,2})\b *)
Definition iso_pattern : pattern :=
  (Re.cat [Re.Bnd; Re.Grp 1 (Re.rng Re.CDigit 4 4); Re.chr "-";
           Re.Grp 2 (Re.rng Re.CDigit 1 2); Re.chr "-";
           Re.Grp 3 (Re.rng Re.CDigit 1 2); Re.Bnd], 3%nat).

(** \b(\d{1,2})/(\d{1,2})/(\d{2,4})\b *)
Definition slash_pattern : pattern :=
  (Re.cat [Re.Bnd; Re.Grp 1 (Re.rng Re.CDigit 1 2); Re.chr "/";
           Re.Grp 2 (Re.rng Re.CDigit 1 2); Re.chr "/";
           Re.Grp 3 (Re.rng Re.CDigit 2 4); Re.Bnd], 3%nat).

(** Each pattern with the indices of its year, month and day groups. *)
Definition date_patterns : list (pattern * nat * nat * nat) :=
  [(iso_pattern, 0, 1, 2);       (* YYYY-MM-DD *)
   (slash_pattern, 2, 0, 1)      (* MM/DD/YYYY ou DD/MM/YYYY *)
  ]%nat.

Definition parse_date (text : cell) : result (option date) :=
  if absent_or_blank text then Ok None else
  let text := Py.strip (py_str text) in
  (* Essayer de parser avec differents formats *)
  let* parsed := first_some (_parse_date_with_format text) date_formats in
  match parsed with
  | Some d => Ok (Some d)
  | None =>
    (* Formats speciaux avec regex *)
    first_some
      (fun '(pat, year_group, month_group, day_group) =>
         _parse_date_with_regex text pat year_group month_group day_group)
      date_patterns
  end.

(** ** compute_age *)

(** [(a, b) < (c, d)] on tuples. *)
Definition pair_ltb (a b c d : Z) : bool := (a <? c) || ((a =? c) && (b <? d)).

Definition compute_age (birth_date : option date) (ref_date : date) : option Z :=
  match birth_date with
  | None => None
  | Some b =>
    let years := year ref_date - year b in
    let years :=
      if pair_ltb (month ref_date) (day ref_date) (month b) (day b)
      then years - 1 else years in
    if 0 <=? years then Some years else None
  end.

(** ** zodiac_sign *)

(** Definition des intervalles des signes astrologiques. *)
Definition zodiac_ranges : list (option (Z * Z) * option (Z * Z) * string) :=
  [(Some (1, 20), Some (2, 18), "Aquarius");
   (Some (2, 19), Some (3, 20), "Pisces");
   (Some (3, 21), Some (4, 19), "Aries");
   (Some (4, 20), Some (5, 20), "Taurus");
   (Some (5, 21), Some (6, 20), "Gemini");
   (Some (6, 21), Some (7, 22), "Cancer");
   (Some (7, 23), Some (8, 22), "Leo");
   (Some (8, 23), Some (9, 22), "Virgo");
   (Some (9, 23), Some (10, 22), "Libra");
   (Some (10, 23), Some (11, 21), "Scorpio");
   (Some (11, 22), Some (12, 21), "Sagittarius");
   (None, None, "Capricorn")   (* Dernier signe par defaut *)
  ]%string.

(** The test of the loop body; [None] stands for the [TypeError] of
    subscripting [None]. *)
Definition in_range (mo dy : Z) (start stop : option (Z * Z)) : option bool :=
  match start with
  | None => Some true
  | Some (sm, sd) =>
    if (mo =? sm) && (sd <=? dy) then Some true
    else match stop with
         | Some (em, ed) => Some ((mo =? em) && (dy <=? ed))
         | None => None
         end
  end.

Fixpoint zodiac_loop (mo dy : Z)
    (ranges : list (option (Z * Z) * option (Z * Z) * string))
    : result (option string) :=
  match ranges with
  | [] => Ok None
  | (start, stop, sign) :: ranges' =>
    match in_range mo dy start stop with
    | Some true => Ok (Some sign)
    | Some false => zodiac_loop mo dy ranges'
    | None => Raise TypeError
    end
  end.

Definition zodiac_sign (birth_date : option date) : result (option string) :=
  match birth_date with
  | None => Ok None
  | Some b => zodiac_loop (month b) (day b) zodiac_ranges
  end.

(** ** parse_height_to_cm *)

Definition Qbetween (lo x hi : Q) : bool := Qle_bool lo x && Qle_bool x hi.

(** \d{lo,hi}(?:\.\d+)? *)
Definition number (lo : nat) (hi : option nat) : Re.regex :=
  Re.Cat (Re.Rep Re.CDigit lo hi)
         (Re.opt (Re.Cat (Re.chr ".") (Re.plus Re.CDigit))).

Definition dquote : ascii := "034".
Definition squote : ascii := "039".

(** (\d{2,3}(?:\.\d+)?)\s*cm\b *)
Definition re_cm : Re.regex :=
  Re.cat [Re.Grp 1 (number 2 (Some 3%nat)); Re.star Re.CSpace; Re.lit "cm"; Re.Bnd].

(** (\d(?:\.\d{1,2})?)\s*m\b *)
Definition re_m : Re.regex :=
  Re.cat [Re.Grp 1 (Re.Cat Re.d (Re.opt (Re.Cat (Re.chr ".") (Re.rng Re.CDigit 1 2))));
          Re.star Re.CSpace; Re.chr "m"; Re.Bnd].

(** (\d{2,3}(?:\.\d+)?)\s*(?:in|inch|inches|DQUOTE)\b, where DQUOTE is the
    double-quote character *)
Definition re_in : Re.regex :=
  Re.cat [Re.Grp 1 (number 2 (Some 3%nat)); Re.star Re.CSpace;
          Re.alt [Re.lit "in"; Re.lit "inch"; Re.lit "inches"; Re.chr dquote];
          Re.Bnd].

(** \bft|foot|feet|\'\b *)
Definition re_feet_token : Re.regex :=
  Re.alt [Re.Cat Re.Bnd (Re.lit "ft"); Re.lit "foot"; Re.lit "feet";
          Re.Cat (Re.chr squote) Re.Bnd].

(** (?:(\d+)\s*(?:ft|foot|feet|\' ))\s*(\d{1,2})? *)
Definition re_ft_in : Re.regex :=
  Re.cat [Re.Grp 1 (Re.plus Re.CDigit); Re.star Re.CSpace;
          Re.alt [Re.lit "ft"; Re.lit "foot"; Re.lit "feet";
                  Re.Cat (Re.chr squote) (Re.chr " ")];
          Re.star Re.CSpace; Re.opt (Re.Grp 2 (Re.rng Re.CDigit 1 2))].

(** (\d+)\s*\'\s*(\d{1,2})? *)
Definition re_ft_in_quote : Re.regex :=
  Re.cat [Re.Grp 1 (Re.plus Re.CDigit); Re.star Re.CSpace; Re.chr squote;
          Re.star Re.CSpace; Re.opt (Re.Grp 2 (Re.rng Re.CDigit 1 2))].

(** (\d{1,3}(?:\.\d+)?) *)
Definition re_num : Re.regex := Re.Grp 1 (number 1 (Some 3%nat)).

(** [float(m.group(i))] *)
Definition float_of_group (g : option string) : result Q :=
  match g with
  | Some s => Py.float s
  | None => Raise TypeError
  end.

(** The rules of the parser, in the order of the function body.  A rule
    that gives [Ok None] lets the next one run. *)

(** Format centimetres (deja dans l'unite cible). *)
Definition height_cm_rule (s : string) : result (option Q) :=
  match Re.search re_cm s with
  | Some m_cm => let* v := float_of_group (Re.group m_cm 1) in Ok (Some v)
  | None => Ok None
  end.

(** Format metres (conversion x 100). *)
Definition height_m_rule (s : string) : result (option Q) :=
  match Re.search re_m s with
  | Some m_m =>
    let* val_m := float_of_group (Re.group m_m 1) in
    (* Validation : taille humaine raisonnable en metres *)
    if Qbetween (13 # 10) val_m (25 # 10)
    then Ok (Some (Py.round1 (val_m * 100)%Q))
    else Ok None
  | None => Ok None
  end.

(** Format pouces seuls, uniquement si pas de mention de pieds. *)
Definition height_in_rule (s : string) : result (option Q) :=
  match Re.search re_in s with
  | Some m_in =>
    match Re.search re_feet_token s with
    | Some _ => Ok None
    | None =>
      let* v := float_of_group (Re.group m_in 1) in
      Ok (Some (Py.round1 (v * (254 # 100))%Q))
    end
  | None => Ok None
  end.

(** Format pieds et pouces. *)
Definition height_ft_in_rule (s : string) : result (option Q) :=
  let m_ft_in :=
    match Re.search re_ft_in s with
    | Some m => Some m
    | None => Re.search re_ft_in_quote s
    end in
  match m_ft_in with
  | Some m =>
    let* ft := int_of_group (Re.group m 1) in
    let* inch :=
      match Re.group m 2 with
      | Some g => if Py.truthy g then Py.int g else Ok 0
      | None => Ok 0
      end in
    (* Conversion : pieds -> pouces -> cm *)
    let* total := Py.float_of_int (ft * 12 + inch) in
    Ok (Some (Py.round1 (total * (254 # 100))%Q))
  | None => Ok None
  end.

(** Format numerique. *)
Definition height_num_rule (s : string) : result (option Q) :=
  match Re.search re_num s with
  | Some m_num =>
    let* val := float_of_group (Re.group m_num 1) in
    (* 50-90 : pouces *)
    if Qbetween 50 val 90 then Ok (Some (Py.round1 (val * (254 # 100))%Q))
    (* 1.4-2.5 : metres *)
    else if Qbetween (14 # 10) val (25 # 10) then Ok (Some (Py.round1 (val * 100)%Q))
    (* 140-230 : centimetres *)
    else if Qbetween 140 val 230 then Ok (Some (Py.round1 val))
    else Ok None
  | None => Ok None
  end.

Definition height_rules : list (string -> result (option Q)) :=
  [height_cm_rule; height_m_rule; height_in_rule; height_ft_in_rule;
   height_num_rule].

Definition parse_height_to_cm (height : cell) : result (option Q) :=
  if absent_or_blank height then Ok None else
  let s := Py.strip (Py.lower (py_str height)) in
  let* r := height_cm_rule s in
  match r with Some v => Ok (Some v) | None =>
  let* r := height_m_rule s in
  match r with Some v => Ok (Some v) | None =>
  let* r := height_in_rule s in
  match r with Some v => Ok (Some v) | None =>
  let* r := height_ft_in_rule s in
  match r with Some v => Ok (Some v) | None =>
  height_num_rule s
  end end end end.

(** ** parse_weight_to_kg *)

(** (\d+(?:\.\d+)?)\s*kg\b *)
Definition re_kg : Re.regex :=
  Re.cat [Re.Grp 1 (number 1 None); Re.star Re.CSpace; Re.lit "kg"; Re.Bnd].

(** (\d+(?:\.\d+)?) *)
Definition re_number : Re.regex := Re.Grp 1 (number 1 None).

Definition Qsum (l : list Q) : Q := fold_left Qplus l 0%Q.
Definition Qmin_list (x : Q) (l : list Q) : Q :=
  fold_left (fun a b => if Qle_bool a b then a else b) l x.
Definition Qmax_list (x : Q) (l : list Q) : Q :=
  fold_left (fun a b => if Qle_bool b a then a else b) l x.

Definition parse_weight_to_kg (weight : cell) : result (option Q) :=
  if absent_or_blank weight then Ok None else
  let s := Py.lower (py_str weight) in
  (* Format kg *)
  match Re.findall re_kg s with
  | (_ :: _) as m_kg =>
    let* vals := map_result Py.float m_kg in
    Ok (Some (Py.round1 (Qsum vals / inject_Z (Z.of_nat (List.length vals)))%Q))
  | [] =>
    (* Format livres *)
    match Re.findall re_number s with
    | (_ :: _) as nums =>
      let* vals := map_result Py.float nums in
      match vals with
      | v0 :: rest =>
        let val_lb :=
          match rest with
          | _ :: _ => ((Qmin_list v0 rest + Qmax_list v0 rest) / 2)%Q
          | [] => v0
          end in
        Ok (Some (Py.round1 (val_lb * (45359237 # 100000000))%Q))
      | [] => Ok None
      end
    | [] => Ok None
    end
  end.

(** ** categorize_occupation *)

(** The inner loop: does some keyword of the list occur in the text? *)
Fixpoint keyword_loop (text_lower : string) (keywords : list string) : bool :=
  match keywords with
  | [] => false
  | keyword :: keywords' =>
    if Py.contains (Py.lower keyword) text_lower then true
    else keyword_loop text_lower keywords'
  end.

(** The outer loop, over the items of the dictionary. *)
Fixpoint category_loop (text_lower : string)
    (items : list (string * list string)) : string :=
  match items with
  | [] => "Other"
  | (category, keywords) :: items' =>
    if keyword_loop text_lower keywords then category
    else category_loop text_lower items'
  end.

Definition categorize_occupation (text : cell) : string :=
  if absent_or_blank text then "Unknown" else
  let text_lower := Py.lower (py_str text) in
  category_loop text_lower OCCUPATION_KEYWORDS.

(** ** extract_country_from_birth_place *)

Definition extract_country_from_birth_place (place : cell)
    : option string * option string :=
  if absent_or_blank place then (None, None) else
  let place := Py.strip (py_str place) in
  match BIRTH_PLACE_MAPPING !! place with
  | Some v => v
  | None => (Some place, None)
  end.

(** ** split_languages *)

(** [,;/]|\s+and\s+, re.IGNORECASE *)
Definition language_delimiters : Re.regex :=
  Re.Alt (Re.One (Re.COr (Re.CChar ",") (Re.COr (Re.CChar ";") (Re.CChar "/"))))
         (Re.cat [Re.plus Re.CSpace; Re.ilit "and"; Re.plus Re.CSpace]).

Definition split_languages (text : cell)
    : option string * option string * option string :=
  if absent_or_blank text then (None, None, None) else
  let text := Py.strip (py_str text) in
  let languages := Re.split language_delimiters text in
  let languages := map Py.strip (List.filter (fun l => Py.truthy (Py.strip l)) languages) in
  (nth_error languages 0, nth_error languages 1, nth_error languages 2).

(** ** extract_first_hair_color *)

(** [/\(]|\s+and\s+, re.IGNORECASE *)
Definition hair_delimiters : Re.regex :=
  Re.Alt (Re.One (Re.COr (Re.CChar "/") (Re.CChar "(")))
         (Re.cat [Re.plus Re.CSpace; Re.ilit "and"; Re.plus Re.CSpace]).

Definition extract_first_hair_color (hair : cell) : option string :=
  if absent_or_blank hair then None else
  let hair := Py.strip (py_str hair) in
  let hair_clean := Py.strip (hd EmptyString (Re.split hair_delimiters hair)) in
  if Py.truthy hair_clean then Some hair_clean else None.

(** ** detect_scars_marks *)

Definition scar_keywords : list Re.regex :=
  [ (* \btattoo|ink\b *)
    Re.Alt (Re.Cat Re.Bnd (Re.lit "tattoo")) (Re.Cat (Re.lit "ink") Re.Bnd);
    (* \bscar(s)?\b *)
    Re.cat [Re.Bnd; Re.lit "scar"; Re.opt (Re.Grp 1 (Re.chr "s")); Re.Bnd];
    (* \bpierc(ed|ing|ings)\b *)
    Re.cat [Re.Bnd; Re.lit "pierc";
            Re.Grp 1 (Re.alt [Re.lit "ed"; Re.lit "ing"; Re.lit "ings"]); Re.Bnd];
    (* \bburn(ed|s| mark)\b *)
    Re.cat [Re.Bnd; Re.lit "burn";
            Re.Grp 1 (Re.alt [Re.lit "ed"; Re.lit "s"; Re.lit " mark"]); Re.Bnd];
    (* \bmissing\s+finger(s)?\b *)
    Re.cat [Re.Bnd; Re.lit "missing"; Re.plus Re.CSpace; Re.lit "finger";
            Re.opt (Re.Grp 1 (Re.chr "s")); Re.Bnd];
    (* \bfreckle(s)?\b *)
    Re.cat [Re.Bnd; Re.lit "freckle"; Re.opt (Re.Grp 1 (Re.chr "s")); Re.Bnd];
    (* \bmole\b *)
    Re.cat [Re.Bnd; Re.lit "mole"; Re.Bnd];
    (* \bbirthmark\b *)
    Re.cat [Re.Bnd; Re.lit "birthmark"; Re.Bnd] ].

Fixpoint pattern_loop (s : string) (patterns : list Re.regex) : bool :=
  match patterns with
  | [] => false
  | pat :: patterns' =>
    match Re.search pat s with
    | Some _ => true
    | None => pattern_loop s patterns'
    end
  end.

Definition detect_scars_marks (text : cell) : bool :=
  if absent_or_blank text then false else
  let s := Py.lower (py_str text) in
  pattern_loop s scar_keywords.

(** ** detect_dollar_amounts *)

(** \$\s*[\d,]+(?:\.\d{1,2})? *)
Definition re_dollars : Re.regex :=
  Re.cat [Re.chr "$"; Re.star Re.CSpace;
          Re.plus (Re.COr Re.CDigit (Re.CChar ","));
          Re.opt (Re.Cat (Re.chr ".") (Re.rng Re.CDigit 1 2))].

Definition detect_dollar_amounts (text : cell) : bool :=
  if absent_or_blank text then false else
  match Re.search re_dollars (py_str text) with
  | Some _ => true
  | None => false
  end.

(* ====================================================================== *)
(** * DataFrames

    A frame is the ordered list of its columns, each a label with the cells
    of that column, one per row. *)

Definition column := list cell.
Definition DataFrame := list (string * column).

(** [df.columns] *)
Definition columns (df : DataFrame) : list string := map fst df.

(** [name in l] on labels. *)
Definition mem (name : string) (l : list string) : bool :=
  existsb (String.eqb name) l.

(** [name in df.columns] *)
Definition has_column (name : string) (df : DataFrame) : bool :=
  mem name (columns df).

(** [df[name]], for a label the frame has. *)
Fixpoint get_column (name : string) (df : DataFrame) : column :=
  match df with
  | [] => []
  | (n, c) :: df' => if String.eqb n name then c else get_column name df'
  end.

(** [df[name] = values]: an existing column is replaced where it stands, a
    new one is added after the others. *)
Fixpoint set_column (name : string) (values : column) (df : DataFrame)
    : DataFrame :=
  match df with
  | [] => [(name, values)]
  | (n, c) :: df' =>
    if String.eqb n name then (n, values) :: df'
    else (n, c) :: set_column name values df'
  end.

(** [df.drop(columns=[name], inplace=True)] *)
Definition drop_column (name : string) (df : DataFrame) : DataFrame :=
  List.filter (fun nc => negb (String.eqb (fst nc) name)) df.

Fixpoint rename_label (rename_map : list (string * string)) (n : string)
    : string :=
  match rename_map with
  | [] => n
  | (old, new) :: rename_map' =>
    if String.eqb n old then new else rename_label rename_map' n
  end.

(** [df.rename(columns=rename_map)] *)
Definition rename (rename_map : list (string * string)) (df : DataFrame)
    : DataFrame :=
  map (fun nc => (rename_label rename_map (fst nc), snd nc)) df.

(** [df[labels]]: the columns under each label, label after label. *)
Definition select (labels : list string) (df : DataFrame) : DataFrame :=
  flat_map (fun n => List.filter (fun nc => String.eqb (fst nc) n) df) labels.

(** [len(df)], for a frame with at least one column. *)
Definition n_rows (df : DataFrame) : nat :=
  match df with
  | [] => 0
  | (_, c) :: _ => List.length c
  end.

(** [series.apply(f)] for a function that may raise. *)
Definition series_apply {A} (f : cell -> result A) (c : column)
    : result (list A) :=
  map_result f c.

(* ====================================================================== *)
(** * The stages of the cleaning pipeline *)

(** Compte le nombre d'alias. *)
Definition process_aliases (df : DataFrame) : DataFrame :=
  if has_column "alias" df then
    set_column "alias_count"
      (map (fun c => Int (count_aliases c)) (get_column "alias" df)) df
  else df.

Definition dob_labels : list string :=
  ["Date(s) of Birth Used"; "Date of Birth"; "DOB"]%string.

(** A cell of the birth-date column once parsed: a date or nothing. *)
Definition as_date (c : cell) : option date :=
  match c with DateV d => Some d | _ => None end.

(** Traite les dates de naissance, calcule l'age et le signe astrologique. *)
Definition process_dates_and_ages (df : DataFrame) : result DataFrame :=
  match find (fun c => has_column c df) dob_labels with
  | Some dob_col =>
    (* Nettoyer et extraire la premiere date *)
    let* dates := series_apply parse_date (get_column dob_col df) in
    let df := set_column dob_col (map (opt_cell DateV) dates) df in
    (* Calculer l'age *)
    let df :=
      set_column "age_years"
        (map (fun c => opt_cell Int (compute_age (as_date c) TODAY))
             (get_column dob_col df)) df in
    (* Calculer le signe astrologique *)
    let* signs := series_apply (fun c => zodiac_sign (as_date c)) (get_column dob_col df) in
    Ok (set_column "zodiac_sign" (map (opt_cell Str) signs) df)
  | None => Ok df
  end.

(** Categorise les occupations. *)
Definition process_occupations (df : DataFrame) : DataFrame :=
  if has_column "Occupation" df then
    set_column "occupation_category"
      (map (fun c => Str (categorize_occupation c)) (get_column "Occupation" df)) df
  else df.

(** Extraire les pays de naissance. *)
Definition process_birth_places (df : DataFrame) : DataFrame :=
  if has_column "Place of Birth" df then
    let country_data :=
      map extract_country_from_birth_place (get_column "Place of Birth" df) in
    let df := set_column "birth_country"
                (map (fun x => opt_cell Str (fst x)) country_data) df in
    set_column "birth_country_code"
      (map (fun x => opt_cell Str (snd x)) country_data) df
  else df.

(** Split les langues en 3 colonnes. *)
Definition process_languages (df : DataFrame) : DataFrame :=
  if has_column "Languages" df then
    let lang_split := map split_languages (get_column "Languages" df) in
    let df := set_column "Language_1"
                (map (fun x => opt_cell Str (fst (fst x))) lang_split) df in
    let df := set_column "Language_2"
                (map (fun x => opt_cell Str (snd (fst x))) lang_split) df in
    set_column "Language_3" (map (fun x => opt_cell Str (snd x)) lang_split) df
  else df.

(** Extrait la premiere couleur de cheveux. *)
Definition process_hair_color (df : DataFrame) : DataFrame :=
  if has_column "Hair" df then
    set_column "hair_color"
      (map (fun c => opt_cell Str (extract_first_hair_color c)) (get_column "Hair" df)) df
  else df.

(** Traite les caracteristiques physiques - height et weight. *)
Definition process_physical_measurements (df : DataFrame) : result DataFrame :=
  let* df :=
    if has_column "Height" df then
      let* heights := series_apply parse_height_to_cm (get_column "Height" df) in
      Ok (set_column "height_cm" (map (opt_cell Float) heights) df)
    else Ok df in
  if has_column "Weight" df then
    let* weights := series_apply parse_weight_to_kg (get_column "Weight" df) in
    Ok (set_column "weight_kg" (map (opt_cell Float) weights) df)
  else Ok df.

(** Traite les marques et caution en booleens. *)
Definition process_marks_and_caution (df : DataFrame) : DataFrame :=
  let df :=
    if has_column "Scars and Marks" df then
      set_column "has_mark"
        (map (fun c => Bool (detect_scars_marks c)) (get_column "Scars and Marks" df)) df
    else df in
  if has_column "caution" df then
    set_column "has_caution"
      (map (fun c => Bool (detect_dollar_amounts c)) (get_column "caution" df)) df
  else df.

Definition cols_to_drop : list string :=
  ["image_url"; "remarks"; "race"; "Race"; "caution";
   "Height"; "Weight"; "Scars and Marks"; "Build";
   "Citizenship"; "Complexion"; "Age";
   "Languages"; "Occupation"; "Place of Birth"; "Hair"]%string.

(** Supprime les colonnes inutiles/redondantes. *)
Definition remove_unused_columns (df : DataFrame) : DataFrame :=
  fold_left (fun df col => if has_column col df then drop_column col df else df)
            cols_to_drop df.

Definition rename_map : list (string * string) :=
  [("Date(s) of Birth Used", "date_of_birth");
   ("Eyes", "eye_color");
   ("Sex", "sex");
   ("Nationality", "nationality");
   ("NCIC", "ncic_number");
   ("alias", "alias_text");
   ("field_office", "fbi_field_office");
   ("Language_1", "language_primary");
   ("Language_2", "language_secondary");
   ("Language_3", "language_tertiary")]%string.

Definition column_order : list string :=
  [ (* Identification *)
    "url"; "name"; "alias_text"; "alias_count"; "ncic_number"; "category";
    (* Demographie *)
    "date_of_birth"; "age_years"; "zodiac_sign"; "sex"; "nationality";
    "birth_country"; "birth_country_code";
    (* Description physique *)
    "height_cm"; "weight_kg"; "eye_color"; "hair_color"; "has_mark";
    (* Langues *)
    "language_primary"; "language_secondary"; "language_tertiary";
    (* Profession *)
    "occupation_category";
    (* FBI *)
    "fbi_field_office"; "has_caution" ]%string.

(** Ajouter les colonnes manquantes a la fin. *)
Definition append_missing (cols order : list string) : list string :=
  fold_left (fun order col => if mem col order then order else order ++ [col])
            cols order.

(** Renomme et reorganise les colonnes. *)
Definition rename_and_reorganize_columns (df : DataFrame) : DataFrame :=
  let df := rename rename_map df in
  (* Garder seulement les colonnes qui existent *)
  let order := List.filter (fun col => has_column col df) column_order in
  let order := append_missing (columns df) order in
  select order df.

(** Nettoie le df. *)
Definition clean_dataframe (df : DataFrame) : result DataFrame :=
  let out := df in
  let out := process_aliases out in
  let* out := process_dates_and_ages out in
  let out := process_occupations out in
  let out := process_birth_places out in
  let out := process_languages out in
  let out := process_hair_color out in
  let* out := process_physical_measurements out in
  let out := process_marks_and_caution out in
  let out := remove_unused_columns out in
  let out := rename_and_reorganize_columns out in
  Ok out.

(* ====================================================================== *)
(** * Notions used to state the properties *)

Local Open Scope string_scope.

Definition nonspace (c : ascii) : bool := negb (Py.isspace c).

(** Texts of the form digits or digits.digits *)
Inductive decimal_text : list ascii -> Prop :=
| decimal_int ip :
    forallb Py.isdigit ip = true -> (1 <= List.length ip)%nat -> decimal_text ip
| decimal_point ip fp :
    forallb Py.isdigit ip = true -> (1 <= List.length ip)%nat ->
    forallb Py.isdigit fp = true -> (1 <= List.length fp)%nat ->
    decimal_text (ip ++ "."%char :: fp).


Definition rows_are (n : nat) (df : DataFrame) : Prop :=
  Forall (fun nc => List.length (snd nc) = n) df.

(** Labels distinct, columns of one length. *)
Definition well_formed (df : DataFrame) : Prop :=
  NoDup (columns df) /\ rows_are (n_rows df) df.

(** [df'] differs from [df] at most in the columns labelled in [W]. *)
Definition untouched (W : list string) (df df' : DataFrame) : Prop :=
  forall m, mem m W = false ->
    get_column m df' = get_column m df /\ has_column m df' = has_column m df.

(** A label the renaming neither consumes nor produces. *)
Definition stable (m : string) (M : list (string * string)) : bool :=
  negb (mem m (map fst M)) && negb (mem m (map snd M)).

Definition dates_written : list string :=
  (dob_labels ++ ["age_years"; "zodiac_sign"])%list.

Definition drop_labels (L : list string) (df : DataFrame) : DataFrame :=
  fold_left (fun df col => if has_column col df then drop_column col df else df) L df.

(** The labels the stages write. *)
Definition derived_labels : list string :=
  (["alias_count"] ++ dates_written ++
   ["occupation_category"; "birth_country"; "birth_country_code";
    "Language_1"; "Language_2"; "Language_3"; "hair_color";
    "height_cm"; "weight_kg"; "has_mark"; "has_caution"])%list.

Fixpoint distinct (l : list string) : bool :=
  match l with
  | [] => true
  | x :: l' => negb (mem x l') && distinct l'
  end.

Definition well_formedb (df : DataFrame) : bool :=
  distinct (columns df) && forallb (fun nc => Nat.eqb (List.length (snd nc)) (n_rows df)) df.

(** The parser returns the height [q] (up to equality of rationals). *)
Definition returns_height (r : result (option Q)) (q : Q) : Prop :=
  match r with
  | Ok (Some v) => Qeq v q
  | _ => False
  end.

Definition sign_names : list string :=
  ["Aquarius"; "Pisces"; "Aries"; "Taurus"; "Gemini"; "Cancer"; "Leo";
   "Virgo"; "Libra"; "Scorpio"; "Sagittarius"; "Capricorn"].

(** A small record set: two subjects, with both birth-date labels. *)
Definition sample_frame : DataFrame :=
  [("url", [Str "https://www.fbi.gov/wanted/cyber/a"; Str "https://www.fbi.gov/wanted/murders/b"]);
   ("category", [Str "cyber"; Str "murders"]);
   ("name", [Str "A"; Str "B"]);
   ("alias", [Str "John Doe a/k/a Johnny, JD"; NA]);
   ("caution", [Str "reward of up to $5,000"; NA]);
   ("Date(s) of Birth Used", [Str "April 13, 1961"; NA]);
   ("Height", [Str "5'11"; Str "180 cm"]);
   ("Weight", [Str "160 lbs"; NA]);
   ("Occupation", [Str "Software engineer"; NA]);
   ("Date of Birth", [NA; Str "May 1, 1990"]);
   ("Eyes", [Str "Brown"; NA])].

Definition sample_clean : DataFrame :=
  Eval vm_compute in
    match clean_dataframe sample_frame with Ok out => out | Raise _ => [] end.

(** A height in feet with 401 digits: 1 followed by 400 zeros. *)
Definition huge_feet : string :=
  Py.str ("1"%char :: repeat "0"%char 400 ++ Py.chars " ft").

(** A height in feet with 4301 digits, one more than [int] reads: 1 followed
    by 4300 zeros. *)
Definition endless_feet : string :=
  Py.str ("1"%char :: repeat "0"%char 4300 ++ Py.chars " ft").

(** Two subjects; the second has the oversized height. *)
Definition overflow_frame : DataFrame :=
  [("url", [Str "https://www.fbi.gov/wanted/cyber/a"; Str "https://www.fbi.gov/wanted/murders/b"]);
   ("Height", [Str "180 cm"; Str huge_feet]);
   ("alias", [Str "Johnny"; NA])].

(** The fixed category set: the categories of the table, and "Other". *)
Definition occupation_categories : list string :=
  (map fst OCCUPATION_KEYWORDS ++ ["Other"])%list.

(** The labels written after [process_aliases], and after
    [process_occupations]. *)
Definition labels_after_occupations : list string :=
  ["birth_country"; "birth_country_code"; "Language_1"; "Language_2";
   "Language_3"; "hair_color"; "height_cm"; "weight_kg"; "has_mark";
   "has_caution"].

Definition labels_after_aliases : list string :=
  (dates_written ++ "occupation_category" :: labels_after_occupations)%list.

(** A record set with none of the source columns. *)
Definition bare_frame : DataFrame :=
  [("url", [Str "https://www.fbi.gov/wanted/cyber/a"]); ("name", [Str "A"])].

(** The occupation classifier in the words of the specification: some
    keyword of the list occurs, whatever the case, in the text ... *)
Definition has_keyword (text_lower : string) (keywords : list string) : bool :=
  existsb (fun keyword => Py.contains (Py.lower keyword) text_lower) keywords.

(** ... and the category is the first one of the table with such a
    keyword. *)
Definition first_matching_category (text_lower : string)
    (table : list (string * list string)) : option string :=
  option_map fst (find (fun item => has_keyword text_lower (snd item)) table).

(** The keywords the table lists under a category. *)
Definition keywords_of (category : string) : list string :=
  match find (fun item => String.eqb (fst item) category) OCCUPATION_KEYWORDS with
  | Some item => snd item
  | None => []
  end.





(** [a < b] on dates. *)
Definition date_ltb (a b : date) : bool :=
  ((year a <? year b)
   || ((year a =? year b)
       && ((month a <? month b) || ((month a =? month b) && (day a <? day b)))))%Z.

(** The labels written by the stages that run before the marks. *)
Definition labels_before_marks : list string :=
  (["alias_count"] ++ dates_written ++
   ["occupation_category"; "birth_country"; "birth_country_code";
    "Language_1"; "Language_2"; "Language_3"; "hair_color";
    "height_cm"; "weight_kg"])%list.

(** A record set that already carries a count of aliases, but no alias
    column to derive one from. *)
Definition preset_frame : DataFrame :=
  [("url", [Str "https://www.fbi.gov/wanted/cyber/a"]);
   ("alias_count", [Int 7])].

Definition preset_clean : DataFrame :=
  Eval vm_compute in
    match clean_dataframe preset_frame with Ok out => out | Raise _ => [] end.

(** [(a, b) <= (c, d)] on tuples. *)
Definition pair_leb (a b c d : Z) : bool := (a <? c)%Z || ((a =? c)%Z && (b <=? d)%Z).

(** A day of the year lies in a range of the table: not before its start
    and not after its end.  The last entry, without bounds, takes every
    day. *)
Definition within (mo dy : Z) (range : option (Z * Z) * option (Z * Z) * string)
    : bool :=
  match range with
  | (Some (sm, sd), Some (em, ed), _) => pair_leb sm sd mo dy && pair_leb mo dy em ed
  | _ => true
  end.

(** The sign of a day, read off the table as intervals of the year. *)
Definition sign_of_day (mo dy : Z) : option string :=
  option_map snd (find (within mo dy) zodiac_ranges).

(** ** The listing URLs (first part of the script) *)

(** [s.split(sep)] for a separator of one character. *)
Fixpoint split_on (sep : ascii) (l : list ascii) : list (list ascii) :=
  match l with
  | [] => [[]]
  | c :: l' =>
    if Ascii.eqb c sep then [] :: split_on sep l'
    else match split_on sep l' with
         | p :: ps => (c :: p) :: ps
         | [] => [[c]]
         end
  end.

Definition str_split (sep : ascii) (s : string) : list string :=
  map Py.str (split_on sep (Py.chars s)).

(** [parts.index(x)] *)
Fixpoint list_index (x : string) (parts : list string) : option nat :=
  match parts with
  | [] => None
  | y :: parts' =>
    if String.eqb y x then Some O else option_map S (list_index x parts')
  end.

(** Extrait la categorie du crime depuis l'URL du profil.  On anything but
    a text, [url.split] raises an AttributeError, which the handler of the
    function turns into [None]. *)
Definition extract_category_from_url (url : cell) : option string :=
  match url with
  | Str url =>
    let parts := str_split "/" url in
    if existsb (String.eqb "wanted") parts then
      match list_index "wanted" parts with
      | Some wanted_index =>
        (* La categorie est l'element suivant "wanted" dans l'URL *)
        if (wanted_index + 1 <? List.length parts)%nat
        then nth_error parts (wanted_index + 1)
        else None
      | None => None
      end
    else None
  | _ => None
  end.

(** [range(a, b)] *)
Definition range (a b : Z) : list Z :=
  map (fun i => (a + Z.of_nat i)%Z) (seq 0 (Z.to_nat (b - a))).

Definition first_page_url : string := "https://www.fbi.gov/wanted/fugitives".

(** The URL of the pages after the first, up to the page number. *)
Definition next_page_prefix : string :=
  "https://www.fbi.gov/wanted/fugitives/@@castle.cms.querylisting/f7f80a1681ac41a08266bd0920c9d9d8?display_fields=%28%27image%27%2C%29&sort_on=modified&available_tags=%28u%27Crimes+Against+Children%27%2C+u%22Cyber%27s+Most+Wanted%22%2C+u%27White-Collar+Crime%27%2C+u%27Counterintelligence%27%2C+u%27Human+Trafficking%27%2C+u%27Criminal+Enterprise+Investigations%27%2C+u%27Violent+Crime+-+Murders%27%2C+u%27Additional+Violent+Crimes%27%29&query.v%3Arecords=%5Bu%27published%27%5D&query.o%3Arecords=plone.app.querystring.operation.selection.any&limit=40&_layouteditor=true&display_type=wanted-feature-grid&query.i%3Arecords=review_state&page=".

Definition page_url (page_num : Z) : string :=
  if (page_num =? 1)%Z
  then first_page_url                               (* sans parametres *)
  else next_page_prefix ++ Py.str_of_int page_num.  (* avec pagination *)

Definition generate_page_urls (num_pages : Z) : list string :=
  map page_url (range 1 (num_pages + 1)).

(** ** What a successful match does *)

Module ReSem.
Import Re.

(** What one successful traversal of a pattern does to the matcher state. *)
Inductive steps : regex -> mstate -> mstate -> Prop :=
| steps_eps st : steps Eps st st
| steps_one cs c s' st :
    suf st = c :: s' -> cset_mem cs c = true ->
    steps (One cs) st (MState (c :: pre st) s' (caps st))
| steps_cat r1 r2 st st1 st2 :
    steps r1 st st1 -> steps r2 st1 st2 -> steps (Cat r1 r2) st st2
| steps_alt_l r1 r2 st st' : steps r1 st st' -> steps (Alt r1 r2) st st'
| steps_alt_r r1 r2 st st' : steps r2 st st' -> steps (Alt r1 r2) st st'
| steps_rep cs lo hi st w s' :
    suf st = (w ++ s')%list -> forallb (cset_mem cs) w = true ->
    (lo <= List.length w)%nat ->
    (forall h, hi = Some h -> (List.length w <= h)%nat) ->
    steps (Rep cs lo hi) st (MState (rev w ++ pre st) s' (caps st))
| steps_grp i r st st' :
    steps r st st' -> steps (Grp i r) st (set_cap i (consumed st st') st')
| steps_bnd st :
    xorb (word_before st) (word_after st) = true -> steps Bnd st st.

Fixpoint no_groups (r : regex) : bool :=
  match r with
  | Grp _ _ => false
  | Cat a b | Alt a b => no_groups a && no_groups b
  | _ => true
  end.

(** Sub-patterns that consume a decimal text and capture nothing. *)
Definition reads_decimal (g : regex) : Prop :=
  forall a b, steps g a b ->
    caps b = caps a /\ exists w, decimal_text w /\ pre b = (rev w ++ pre a)%list.

End ReSem.

(* ====================================================================== *)
(** * Numbers read from text are never negative *)

Lemma digit_val_nonneg c : Py.isdigit c = true -> 0 <= Py.digit_val c.
Proof.
  unfold Py.isdigit, Py.between, Py.digit_val. intros H.
  apply andb_prop in H as [H _]. apply Nat.leb_le in H. lia.
Qed.

Lemma digits_val_nonneg l : forall acc,
  forallb Py.isdigit l = true -> 0 <= acc -> 0 <= Py.digits_val acc l.
Proof.
  induction l as [|c l IH]; intros acc H Hacc; cbn in *; [assumption|].
  apply andb_prop in H as [Hc Hl]. apply IH; [assumption|].
  pose proof (digit_val_nonneg c Hc). lia.
Qed.

Lemma all_digits_forallb l : Py.all_digits l = true -> forallb Py.isdigit l = true.
Proof. destruct l; cbn; [discriminate|auto]. Qed.

Lemma int_nonneg s z : Py.int s = Ok z -> 0 <= z.
Proof.
  unfold Py.int. destruct (Py.all_digits _) eqn:E; [|discriminate].
  destruct (Nat.leb _ _); [|discriminate]. cbn [andb].
  intros [= <-]. apply digits_val_nonneg; [now apply all_digits_forallb|lia].
Qed.

Lemma float_nonneg s q : Py.float s = Ok q -> (0 <= q)%Q.
Proof.
  unfold Py.float. destruct (Py.split_dot _) as [ip [fp|]].
  - destruct (Py.all_digits ip) eqn:E1; [|discriminate].
    destruct (Py.all_digits fp) eqn:E2; [|discriminate].
    cbn [andb]. intros [= <-].
    assert (0 <= Py.digits_val 0 (ip ++ fp)).
    { apply digits_val_nonneg; [|lia].
      rewrite forallb_app. now rewrite !all_digits_forallb. }
    unfold Qle; cbn [Qnum Qden]. lia.
  - destruct (Py.all_digits ip) eqn:E1; [|discriminate].
    intros [= <-].
    assert (0 <= Py.digits_val 0 ip)
      by (apply digits_val_nonneg; [now apply all_digits_forallb|lia]).
    unfold Qle; cbn [Qnum Qden inject_Z]. lia.
Qed.

Lemma round_half_even_nonneg q : (0 <= q)%Q -> 0 <= Py.round_half_even q.
Proof.
  intros H. unfold Py.round_half_even.
  assert (0 <= Qfloor q) by (change 0 with (Qfloor 0); now apply Qfloor_resp_le).
  destruct (Qcompare _ _); [destruct (Z.even _)| |]; lia.
Qed.

Lemma round1_nonneg q : (0 <= q)%Q -> (0 <= Py.round1 q)%Q.
Proof.
  intros H. unfold Py.round1.
  assert (0 <= Py.round_half_even (q * 10)).
  { apply round_half_even_nonneg. apply Qmult_le_0_compat; [assumption|discriminate]. }
  unfold Qle; cbn. lia.
Qed.

Lemma float_of_group_nonneg g q : float_of_group g = Ok q -> (0 <= q)%Q.
Proof. destruct g; cbn; [apply float_nonneg|discriminate]. Qed.

Lemma int_of_group_nonneg g z : int_of_group g = Ok z -> 0 <= z.
Proof. destruct g; cbn; [apply int_nonneg|discriminate]. Qed.

Ltac bind_inv H :=
  match type of H with
  | bind ?r _ = Ok _ => let E := fresh "E" in destruct r eqn:E; cbn [bind] in H; [|discriminate H]
  end.

Lemma scaled_nonneg q c : (0 <= q)%Q -> (0 <= c)%Q -> (0 <= Py.round1 (q * c))%Q.
Proof. intros. apply round1_nonneg. now apply Qmult_le_0_compat. Qed.

Lemma height_cm_rule_nonneg s v : height_cm_rule s = Ok (Some v) -> (0 <= v)%Q.
Proof.
  unfold height_cm_rule. destruct (Re.search _ _); [|discriminate].
  intros H. bind_inv H. injection H as <-. eauto using float_of_group_nonneg.
Qed.

Lemma height_m_rule_nonneg s v : height_m_rule s = Ok (Some v) -> (0 <= v)%Q.
Proof.
  unfold height_m_rule. destruct (Re.search _ _); [|discriminate].
  intros H. bind_inv H. destruct (Qbetween _ _ _); [|discriminate].
  injection H as <-. apply scaled_nonneg; [eauto using float_of_group_nonneg|discriminate].
Qed.

Lemma height_in_rule_nonneg s v : height_in_rule s = Ok (Some v) -> (0 <= v)%Q.
Proof.
  unfold height_in_rule. destruct (Re.search re_in _); [|discriminate].
  destruct (Re.search _ _); [discriminate|].
  intros H. bind_inv H. injection H as <-.
  apply scaled_nonneg; [eauto using float_of_group_nonneg|discriminate].
Qed.

Lemma float_of_int_nonneg z q : Py.float_of_int z = Ok q -> 0 <= z -> (0 <= q)%Q.
Proof.
  unfold Py.float_of_int. destruct (Z.ltb _ _); [|discriminate]. intros [= <-] H.
  unfold Qle; cbn. lia.
Qed.

Lemma height_ft_in_rule_nonneg s v : height_ft_in_rule s = Ok (Some v) -> (0 <= v)%Q.
Proof.
  unfold height_ft_in_rule.
  destruct (match Re.search re_ft_in s with Some m => Some m | None => Re.search re_ft_in_quote s end) as [m|];
    [|discriminate].
  intros H. bind_inv H. bind_inv H. bind_inv H. injection H as <-.
  apply scaled_nonneg; [|discriminate].
  eapply float_of_int_nonneg; [eassumption|].
  apply int_of_group_nonneg in E.
  assert (0 <= a0).
  { destruct (Re.group m 2) as [g|]; [destruct (Py.truthy g)|].
    - eauto using int_nonneg.
    - injection E0 as <-. lia.
    - injection E0 as <-. lia. }
  lia.
Qed.

Lemma height_num_rule_nonneg s v : height_num_rule s = Ok (Some v) -> (0 <= v)%Q.
Proof.
  unfold height_num_rule. destruct (Re.search _ _); [|discriminate].
  intros H. bind_inv H. apply float_of_group_nonneg in E.
  destruct (Qbetween 50 _ _); [injection H as <-; apply scaled_nonneg; [assumption|discriminate]|].
  destruct (Qbetween _ _ _); [injection H as <-; apply scaled_nonneg; [assumption|discriminate]|].
  destruct (Qbetween _ _ _); [injection H as <-; now apply round1_nonneg|discriminate].
Qed.

Lemma parse_height_nonneg h v : parse_height_to_cm h = Ok (Some v) -> (0 <= v)%Q.
Proof.
  unfold parse_height_to_cm. destruct (absent_or_blank h); [discriminate|].
  set (s := Py.strip (Py.lower (py_str h))).
  intros H.
  bind_inv H. destruct a; [injection H as <-; eauto using height_cm_rule_nonneg|].
  bind_inv H. destruct a; [injection H as <-; eauto using height_m_rule_nonneg|].
  bind_inv H. destruct a; [injection H as <-; eauto using height_in_rule_nonneg|].
  bind_inv H. destruct a; [injection H as <-; eauto using height_ft_in_rule_nonneg|].
  eauto using height_num_rule_nonneg.
Qed.

Lemma compute_age_nonneg b r : compute_age b r = None \/ exists n, compute_age b r = Some n /\ 0 <= n.
Proof.
  unfold compute_age. destruct b as [b|]; [|now left].
  cbv zeta.
  match goal with |- context [if Z.leb 0 ?y then _ else _] => destruct (Z.leb_spec 0 y) end.
  - right. eauto.
  - now left.
Qed.


(* ====================================================================== *)
(** * Texts the conversions accept *)

Lemma chars_str l : Py.chars (Py.str l) = l.
Proof. apply list_ascii_of_string_of_list_ascii. Qed.

Lemma str_chars s : Py.str (Py.chars s) = s.
Proof. apply string_of_list_ascii_of_string. Qed.

Lemma lstrip_nonspace l : forallb nonspace l = true -> Py.lstrip_chars l = l.
Proof.
  destruct l as [|c l]; cbn; [reflexivity|]. unfold nonspace at 1.
  destruct (Py.isspace c); [discriminate|reflexivity].
Qed.

Lemma forallb_rev {A} (f : A -> bool) l : forallb f (rev l) = forallb f l.
Proof.
  induction l as [|x l IH]; cbn; [reflexivity|].
  rewrite forallb_app, IH. cbn. rewrite andb_true_r. apply andb_comm.
Qed.

Lemma strip_nonspace l : forallb nonspace l = true -> Py.strip (Py.str l) = Py.str l.
Proof.
  intros H. unfold Py.strip. rewrite chars_str, (lstrip_nonspace l H).
  rewrite lstrip_nonspace by now rewrite forallb_rev. now rewrite rev_involutive.
Qed.

Lemma digit_nonspace c : Py.isdigit c = true -> nonspace c = true.
Proof.
  unfold nonspace, Py.isdigit, Py.isspace, Py.between. intros H.
  apply andb_prop in H as [H1 H2]. apply Nat.leb_le in H1, H2.
  apply negb_true_iff. repeat (apply orb_false_iff; split).
  - apply andb_false_iff. right. apply Nat.leb_gt. lia.
  - apply andb_false_iff. right. apply Nat.leb_gt. lia.
  - apply Nat.eqb_neq. lia.
  - apply Nat.eqb_neq. lia.
Qed.

Lemma digit_not_dot c : Py.isdigit c = true -> Ascii.eqb c "." = false.
Proof.
  intros H. destruct (Ascii.eqb_spec c "."); [subst; discriminate H|reflexivity].
Qed.

Lemma digits_nonspace l : forallb Py.isdigit l = true -> forallb nonspace l = true.
Proof.
  intros H. apply forallb_forall. intros c Hc.
  apply digit_nonspace. now apply (proj1 (forallb_forall _ _) H).
Qed.

Lemma split_dot_digits l : forallb Py.isdigit l = true -> Py.split_dot l = (l, None).
Proof.
  induction l as [|c l IH]; cbn; [reflexivity|]. intros H.
  apply andb_prop in H as [Hc Hl]. now rewrite (digit_not_dot c Hc), (IH Hl).
Qed.

Lemma split_dot_point ip fp :
  forallb Py.isdigit ip = true -> Py.split_dot (ip ++ "."%char :: fp) = (ip, Some fp).
Proof.
  induction ip as [|c l IH]; cbn; [reflexivity|]. intros H.
  apply andb_prop in H as [Hc Hl]. now rewrite (digit_not_dot c Hc), (IH Hl).
Qed.

Lemma all_digits_intro l : forallb Py.isdigit l = true -> (1 <= List.length l)%nat -> Py.all_digits l = true.
Proof. destruct l; cbn; [lia|auto]. Qed.

Lemma int_digits w :
  forallb Py.isdigit w = true -> (1 <= List.length w)%nat ->
  Py.int (Py.str w)
  = if (List.length w <=? Py.int_max_str_digits)%nat
    then Ok (Py.digits_val 0 w) else Raise ValueError.
Proof.
  intros H1 H2. unfold Py.int.
  rewrite strip_nonspace, chars_str by now apply digits_nonspace.
  rewrite all_digits_intro by assumption. reflexivity.
Qed.

Lemma int_raises s e : Py.int s = Raise e -> e = ValueError.
Proof.
  unfold Py.int. destruct (_ && _); [discriminate|]. now intros [= <-].
Qed.

Lemma float_decimal w : decimal_text w -> exists q, Py.float (Py.str w) = Ok q.
Proof.
  intros [ip H1 H2 | ip fp H1 H2 H3 H4]; unfold Py.float.
  - rewrite strip_nonspace, chars_str by now apply digits_nonspace.
    rewrite split_dot_digits, all_digits_intro by assumption. eauto.
  - rewrite strip_nonspace, chars_str.
    + rewrite split_dot_point, !all_digits_intro by assumption. cbn. eauto.
    + rewrite forallb_app. cbn. now rewrite !digits_nonspace.
Qed.

(* ====================================================================== *)
(** * Soundness of the matcher, and what the patterns capture *)

Module ReFacts.
Import Re.
Import ReSem.

Lemma rep_sound cs k fin : forall s lo hi p cp,
  rep cs lo hi p s cp k = Some fin ->
  exists w s', s = (w ++ s')%list /\ forallb (cset_mem cs) w = true /\
    (lo <= List.length w)%nat /\
    (forall h, hi = Some h -> (List.length w <= h)%nat) /\
    k (MState (rev w ++ p) s' cp) = Some fin.
Proof.
  assert (Hstop : forall s lo hi p cp,
    match lo with O => k (MState p s cp) | S _ => None end = Some fin ->
    exists w s', s = (w ++ s')%list /\ forallb (cset_mem cs) w = true /\
      (lo <= List.length w)%nat /\
      (forall h, hi = Some h -> (List.length w <= h)%nat) /\
      k (MState (rev w ++ p) s' cp) = Some fin).
  { intros s lo hi p cp H. destruct lo; [|discriminate].
    exists [], s. cbn. repeat split; auto; intros; lia. }
  induction s as [|c s IH]; intros lo hi p cp H.
  - cbn [rep] in H. unfold rep_stop in H. apply Hstop.
    destruct hi as [[|h]|]; exact H.
  - cbn [rep] in H. unfold rep_stop in H.
    assert (Hrec : match rep cs (Nat.pred lo) (option_map Nat.pred hi) (c :: p) s cp k with
                   | Some st => Some st
                   | None => match lo with O => k (MState p (c :: s) cp) | S _ => None end
                   end = Some fin -> cset_mem cs c = true -> hi <> Some O ->
      exists w s', (c :: s) = (w ++ s')%list /\ forallb (cset_mem cs) w = true /\
        (lo <= List.length w)%nat /\
        (forall h, hi = Some h -> (List.length w <= h)%nat) /\
        k (MState (rev w ++ p) s' cp) = Some fin).
    { intros H' Hc Hhi.
      destruct (rep cs (Nat.pred lo) (option_map Nat.pred hi) (c :: p) s cp k) eqn:E.
      - injection H' as ->. apply IH in E as (w & s' & -> & Hw & Hlo & Hh & Hk).
        exists (c :: w), s'. cbn [forallb List.length rev]. rewrite Hc, Hw.
        rewrite <- app_assoc. cbn. repeat split; auto; [lia|].
        intros h ->. destruct h; [congruence|]. specialize (Hh h eq_refl). lia.
      - now apply Hstop. }
    destruct hi as [[|h]|].
    + now apply Hstop.
    + destruct (cset_mem cs c) eqn:Hc; [apply Hrec; auto; discriminate | now apply Hstop].
    + destruct (cset_mem cs c) eqn:Hc; [apply Hrec; auto; discriminate | now apply Hstop].
Qed.

Lemma run_sound r : forall st k fin,
  run r st k = Some fin -> exists st', steps r st st' /\ k st' = Some fin.
Proof.
  induction r; intros st k fin H; cbn [run] in H.
  - eauto using steps.
  - destruct (suf st) as [|c s'] eqn:E; [discriminate|].
    destruct (cset_mem cs c) eqn:Hc; [|discriminate].
    eauto using steps.
  - apply IHr1 in H as (st1 & H1 & H). apply IHr2 in H as (st2 & H2 & H).
    eauto using steps.
  - destruct (run r1 st k) eqn:E.
    + injection H as ->. apply IHr1 in E as (st' & H1 & H). eauto using steps.
    + apply IHr2 in H as (st' & H1 & H). eauto using steps.
  - apply rep_sound in H as (w & s' & Hs & Hw & Hlo & Hhi & Hk).
    eexists. split; [|exact Hk]. now apply steps_rep.
  - apply IHr in H as (st' & H1 & H). eauto using steps.
  - destruct (xorb _ _) eqn:E; [|discriminate]. eauto using steps.
Qed.

Lemma match_at_sound r p s m :
  match_at r p s = Some m ->
  exists st', steps r (MState p s []) st' /\ m_caps m = caps st'.
Proof.
  unfold match_at. destruct (run _ _ _) eqn:E; [|discriminate].
  intros [= <-]. apply run_sound in E as (st' & H & [= ->]). eauto.
Qed.

Lemma search_at_sound r m : forall s p,
  search_at r p s = Some m -> exists p' s', match_at r p' s' = Some m.
Proof.
  induction s as [|c s IH]; intros p H; cbn [search_at] in H.
  - destruct (match_at r p []) eqn:E; [|discriminate]. injection H as ->. eauto.
  - destruct (match_at r p (c :: s)) eqn:E; [injection H as ->; eauto|]. eauto.
Qed.

Lemma search_sound r s m :
  search r s = Some m ->
  exists st st', steps r st st' /\ caps st = [] /\ m_caps m = caps st'.
Proof.
  intros H. apply search_at_sound in H as (p' & s' & H).
  apply match_at_sound in H as (st' & H & Hc). eauto.
Qed.

Lemma finditer_at_sound r m : forall s p skip,
  In m (finditer_at r p s skip) -> exists p' s', match_at r p' s' = Some m.
Proof.
  induction s as [|c s IH]; intros p skip H.
  - destruct skip; cbn in H; [|contradiction].
    destruct (match_at r p []) eqn:E; [|contradiction].
    destruct H as [<-|[]]. eauto.
  - destruct skip; cbn [finditer_at] in H; [|eauto].
    destruct (match_at r p (c :: s)) eqn:E; [|eauto].
    destruct H as [<-|H]; eauto.
Qed.


Lemma consumed_app st st' x :
  pre st' = (x ++ pre st)%list -> consumed st st' = Py.str (rev x).
Proof.
  intros H. unfold consumed. rewrite H, length_app.
  replace (List.length x + List.length (pre st) - List.length (pre st))%nat
    with (List.length x + 0)%nat by lia.
  rewrite firstn_app_2. cbn. now rewrite app_nil_r.
Qed.

Ltac inv_steps :=
  repeat match goal with
  | H : steps (Cat _ _) _ _ |- _ => inversion H; subst; clear H
  | H : steps (Alt _ _) _ _ |- _ => inversion H; subst; clear H
  | H : steps (Grp _ _) _ _ |- _ => inversion H; subst; clear H
  | H : steps Eps _ _ |- _ => inversion H; subst; clear H
  | H : steps Bnd _ _ |- _ => inversion H; subst; clear H
  | H : steps (One _) _ _ |- _ => inversion H; subst; clear H
  | H : steps (Rep _ _ _) _ _ |- _ => inversion H; subst; clear H
  end.

Ltac char_eq :=
  repeat match goal with
  | H : cset_mem (CChar _) ?c = true |- _ =>
    cbn [cset_mem] in H; apply Ascii.eqb_eq in H; subst c
  end.

Lemma steps_number lo hi st st' :
  (1 <= lo)%nat -> steps (number lo hi) st st' ->
  caps st' = caps st /\
  exists w, decimal_text w /\ pre st' = (rev w ++ pre st)%list.
Proof.
  intros Hlo H. unfold number, opt, plus, chr in H. inv_steps; char_eq;
    cbn [caps pre suf cset_mem] in *; (split; [reflexivity|]).
  - match goal with
    | Hs : suf _ = (?a ++ _)%list, Hf : _ = (?b ++ _)%list |- _ =>
      tryif constr_eq a b then fail else exists (a ++ "."%char :: b)%list
    end.
    split.
    + apply decimal_point; auto; lia.
    + rewrite rev_app_distr. cbn. now rewrite <- !app_assoc.
  - eexists. split; [apply decimal_int; eauto; lia|reflexivity].
Qed.

(** The group of the metre pattern: \d(?:\.\d{1,2})? *)
Lemma steps_metres st st' :
  steps (Cat d (opt (Cat (chr ".") (rng CDigit 1 2)))) st st' ->
  caps st' = caps st /\
  exists w, decimal_text w /\ pre st' = (rev w ++ pre st)%list.
Proof.
  intros H. unfold d, opt, rng, chr in H. inv_steps; char_eq;
    cbn [caps pre suf cset_mem] in *; (split; [reflexivity|]).
  - match goal with
    | Hs : suf _ = ?c :: _, Hf : _ = (?b ++ _)%list |- _ =>
      exists ([c] ++ "."%char :: b)%list
    end.
    split.
    + apply decimal_point; cbn; auto; try lia. now rewrite andb_true_r.
    + rewrite rev_app_distr. cbn. now rewrite <- !app_assoc.
  - match goal with Hs : suf _ = ?c :: _ |- _ => exists [c] end.
    split; [apply decimal_int; cbn; auto; now rewrite andb_true_r|reflexivity].
Qed.

Lemma group_float st st' :
  (exists w, decimal_text w /\ pre st' = (rev w ++ pre st)%list) ->
  exists q, Py.float (consumed st st') = Ok q.
Proof.
  intros (w & Hw & Hp). rewrite (consumed_app _ _ _ Hp), rev_involutive.
  now apply float_decimal.
Qed.


Lemma steps_no_groups r st st' :
  steps r st st' -> no_groups r = true -> caps st' = caps st.
Proof.
  induction 1; cbn [no_groups]; intros Hn; try reflexivity;
    try (apply andb_prop in Hn as [Hn1 Hn2]); try discriminate; auto.
  rewrite IHsteps2, IHsteps1; auto.
Qed.

Lemma number_reads_decimal lo hi : (1 <= lo)%nat -> reads_decimal (number lo hi).
Proof. intros H a b. now apply steps_number. Qed.

Lemma group1_decimal g st st' :
  reads_decimal g -> steps (Grp 1 g) st st' ->
  exists t q, caps st' = (1%nat, t) :: caps st /\ Py.float t = Ok q.
Proof.
  intros Hg H. inversion H; subst; clear H.
  match goal with H : steps g _ _ |- _ => apply Hg in H as (Hc & Hw) end.
  apply group_float in Hw as (q & Hq).
  cbn [caps set_cap]. rewrite Hc. eauto.
Qed.

Lemma search_group1_decimal g rest s m :
  reads_decimal g -> no_groups rest = true ->
  search (Cat (Grp 1 g) rest) s = Some m ->
  exists t q, group m 1 = Some t /\ Py.float t = Ok q.
Proof.
  intros Hg Hn H. apply search_sound in H as (st & st' & H & Hc & Hm).
  inversion H; subst; clear H.
  match goal with H : steps (Grp _ _) _ _ |- _ =>
    apply (group1_decimal _ _ _ Hg) in H as (t & q & Ht & Hq) end.
  match goal with H : steps rest _ _ |- _ =>
    apply steps_no_groups in H; [|assumption] end.
  exists t, q. split; [|assumption].
  unfold group. rewrite Hm. 
  match goal with H : caps st' = _ |- _ => rewrite H end.
  rewrite Ht. reflexivity.
Qed.

Lemma match_at_group1_decimal g rest p s m :
  reads_decimal g -> no_groups rest = true ->
  match_at (Cat (Grp 1 g) rest) p s = Some m ->
  exists t q, group m 1 = Some t /\ Py.float t = Ok q.
Proof.
  intros Hg Hn H. apply match_at_sound in H as (st' & H & Hm).
  inversion H; subst; clear H.
  match goal with H : steps (Grp _ _) _ _ |- _ =>
    apply (group1_decimal _ _ _ Hg) in H as (t & q & Ht & Hq) end.
  match goal with H : steps rest _ _ |- _ =>
    apply steps_no_groups in H; [|assumption] end.
  exists t, q. split; [|assumption].
  unfold group. rewrite Hm.
  match goal with H : caps st' = _ |- _ => rewrite H end.
  rewrite Ht. reflexivity.
Qed.

Lemma cat_eps r p s : match_at r p s = match_at (Cat r Eps) p s.
Proof. reflexivity. Qed.

Lemma search_at_cat_eps r : forall s p, search_at r p s = search_at (Cat r Eps) p s.
Proof.
  induction s as [|c s IH]; intros p; cbn [search_at]; rewrite <- (cat_eps r).
  - reflexivity.
  - destruct (match_at r p (c :: s)); [reflexivity|apply IH].
Qed.

Lemma height_cm_rule_ok s : exists o, height_cm_rule s = Ok o.
Proof.
  unfold height_cm_rule. destruct (search re_cm s) as [m|] eqn:E; [|eauto].
  apply search_group1_decimal in E as (t & q & -> & Hq);
    [|apply number_reads_decimal; lia|reflexivity].
  cbn [float_of_group]. rewrite Hq. cbn. eauto.
Qed.

Lemma height_m_rule_ok s : exists o, height_m_rule s = Ok o.
Proof.
  unfold height_m_rule. destruct (search re_m s) as [m|] eqn:E; [|eauto].
  apply search_group1_decimal in E as (t & q & -> & Hq);
    [|intros a b; apply steps_metres|reflexivity].
  cbn [float_of_group]. rewrite Hq. cbn. destruct (Qbetween _ _ _); eauto.
Qed.

Lemma height_in_rule_ok s : exists o, height_in_rule s = Ok o.
Proof.
  unfold height_in_rule. destruct (search re_in s) as [m|] eqn:E; [|eauto].
  destruct (search re_feet_token s); [eauto|].
  apply search_group1_decimal in E as (t & q & -> & Hq);
    [|apply number_reads_decimal; lia|reflexivity].
  cbn [float_of_group]. rewrite Hq. cbn. eauto.
Qed.

Lemma height_num_rule_ok s : exists o, height_num_rule s = Ok o.
Proof.
  unfold height_num_rule. destruct (search re_num s) as [m|] eqn:E; [|eauto].
  unfold search, re_num in E. rewrite search_at_cat_eps in E.
  apply search_group1_decimal in E as (t & q & -> & Hq);
    [|apply number_reads_decimal; lia|reflexivity].
  cbn [float_of_group]. rewrite Hq. cbn.
  repeat (destruct (Qbetween _ _ _); eauto).
Qed.


Ltac inv_outer :=
  repeat match goal with
  | H : steps (Cat _ _) _ _ |- _ => inversion H; subst; clear H
  | H : steps (Alt _ _) _ _ |- _ => inversion H; subst; clear H
  | H : steps Eps _ _ |- _ => inversion H; subst; clear H
  | H : steps Bnd _ _ |- _ => inversion H; subst; clear H
  | H : steps (One _) _ _ |- _ => inversion H; subst; clear H
  | H : steps (Rep _ _ _) _ _ |- _ => inversion H; subst; clear H
  end.

Lemma digits_group i lo hi st st' :
  (1 <= lo)%nat -> steps (Grp i (Rep CDigit lo hi)) st st' ->
  exists w, caps st' = (i, Py.str w) :: caps st /\
    forallb Py.isdigit w = true /\ (1 <= List.length w)%nat /\
    (forall h, hi = Some h -> (List.length w <= h)%nat).
Proof.
  intros Hlo H. inv_steps. cbn [caps set_cap pre cset_mem] in *.
  rewrite (consumed_app _ _ (rev w)) by reflexivity. rewrite rev_involutive.
  exists w. repeat split; auto. lia.
Qed.

(** A run of at most two digits is always read by [int]. *)
Lemma int_two_digits w :
  forallb Py.isdigit w = true -> (1 <= List.length w)%nat ->
  (List.length w <= 2)%nat -> exists z, Py.int (Py.str w) = Ok z.
Proof.
  intros H1 H2 H3. rewrite int_digits by assumption.
  destruct (Nat.leb_spec (List.length w) Py.int_max_str_digits) as [_|Hgt];
    [eauto|].
  unfold Py.int_max_str_digits in Hgt. lia.
Qed.

Lemma ft_groups r s m :
  r = re_ft_in \/ r = re_ft_in_quote -> search r s = Some m ->
  (exists w, group m 1 = Some (Py.str w) /\
     forallb Py.isdigit w = true /\ (1 <= List.length w)%nat) /\
  (group m 2 = None \/ exists t z, group m 2 = Some t /\ Py.int t = Ok z).
Proof.
  intros Hr H. apply search_sound in H as (st & st' & H & Hc & Hm).
  unfold group. rewrite Hm. clear Hm m.
  destruct Hr as [-> | ->];
    cbv [re_ft_in re_ft_in_quote cat alt opt plus star rng chr lit lit_chars
         Py.chars list_ascii_of_string] in H;
    inv_outer;
    repeat match goal with
    | H : steps (Grp _ (Rep CDigit _ _)) _ _ |- _ =>
      apply digits_group in H as (? & ? & ? & ? & ?); [|lia]
    end;
    cbn [caps] in *;
    repeat match goal with H : caps _ = _ |- _ => rewrite H; clear H end;
    rewrite ?Hc; cbn [lookup_cap Nat.eqb];
    (split; [eauto 10|]);
    first
      [ now left
      | right;
        match goal with
        | |- context [Py.str ?w] =>
          destruct (int_two_digits w) as (z & Hz);
          [ assumption | assumption
          | match goal with
            | Hb : forall h, Some _ = Some h -> (List.length w <= h)%nat |- _ =>
              apply (Hb _ eq_refl)
            end
          | eauto ]
        end ].
Qed.

(** What the feet-and-inches rule does once a pattern has matched: the feet
    count is a run of digits, read by [int] unless it is longer than
    [Py.int_max_str_digits]; the inches, of two digits at most, are always
    read. *)
Lemma feet_conversion_raises (m : match_obj) w e :
  group m 1 = Some (Py.str w) ->
  forallb Py.isdigit w = true -> (1 <= List.length w)%nat ->
  (group m 2 = None \/ exists t z, group m 2 = Some t /\ Py.int t = Ok z) ->
  (let* ft := int_of_group (group m 1) in
   let* inch :=
     match group m 2 with
     | Some g => if Py.truthy g then Py.int g else Ok 0
     | None => Ok 0
     end in
   let* total := Py.float_of_int (ft * 12 + inch) in
   Ok (Some (Py.round1 (total * (254 # 100))%Q))) = Raise e ->
  (e = ValueError /\ (Py.int_max_str_digits < List.length w)%nat) \/
  (e = OverflowError /\ (List.length w <= Py.int_max_str_digits)%nat).
Proof.
  intros -> Hw Hl H2. cbn [int_of_group]. rewrite int_digits by assumption.
  destruct (Nat.leb_spec (List.length w) Py.int_max_str_digits) as [Hle|Hgt].
  - cbn [bind].
    destruct H2 as [-> | (t2 & z2 & -> & Hz2)];
      [|rewrite Hz2; destruct (Py.truthy t2)];
      cbn [bind]; unfold Py.float_of_int; destruct (Z.ltb _ _); cbn [bind];
      intros H; right; (split; [congruence|assumption]).
  - cbn [bind]. intros [= <-]. left. split; [reflexivity|assumption].
Qed.

Lemma height_ft_in_rule_fault s e :
  height_ft_in_rule s = Raise e ->
  exists m w,
    (search re_ft_in s = Some m \/ search re_ft_in_quote s = Some m) /\
    group m 1 = Some (Py.str w) /\ forallb Py.isdigit w = true /\
    ((e = ValueError /\ (Py.int_max_str_digits < List.length w)%nat) \/
     (e = OverflowError /\ (List.length w <= Py.int_max_str_digits)%nat)).
Proof.
  unfold height_ft_in_rule.
  destruct (search re_ft_in s) as [m|] eqn:E1.
  - destruct (ft_groups _ _ _ (or_introl eq_refl) E1) as ((w & Hg & Hw & Hl) & H2).
    intros H. exists m, w. repeat split; auto.
    exact (feet_conversion_raises m w e Hg Hw Hl H2 H).
  - destruct (search re_ft_in_quote s) as [m|] eqn:E2; [|discriminate].
    destruct (ft_groups _ _ _ (or_intror eq_refl) E2) as ((w & Hg & Hw & Hl) & H2).
    intros H. exists m, w. repeat split; auto.
    exact (feet_conversion_raises m w e Hg Hw Hl H2 H).
Qed.

Lemma height_ft_in_rule_raises s e :
  height_ft_in_rule s = Raise e -> e = ValueError \/ e = OverflowError.
Proof.
  intros H. apply height_ft_in_rule_fault in H as (m & w & _ & _ & _ & H).
  destruct H as [[-> _]|[-> _]]; auto.
Qed.

Lemma parse_height_raises h e :
  parse_height_to_cm h = Raise e -> e = ValueError \/ e = OverflowError.
Proof.
  unfold parse_height_to_cm. destruct (absent_or_blank h); [discriminate|].
  set (s := Py.strip (Py.lower (py_str h))).
  destruct (height_cm_rule_ok s) as ([v|] & ->); cbn [bind]; [discriminate|].
  destruct (height_m_rule_ok s) as ([v|] & ->); cbn [bind]; [discriminate|].
  destruct (height_in_rule_ok s) as ([v|] & ->); cbn [bind]; [discriminate|].
  destruct (height_ft_in_rule s) as [[v|]|e'] eqn:E; cbn [bind].
  - discriminate.
  - destruct (height_num_rule_ok s) as (o & ->). discriminate.
  - intros [= <-]. eauto using height_ft_in_rule_raises.
Qed.

(** parse_weight_to_kg never raises *)
Lemma map_result_ok {A B} (f : A -> result B) l :
  (forall x, In x l -> exists y, f x = Ok y) -> exists ys, map_result f l = Ok ys /\ List.length ys = List.length l.
Proof.
  induction l as [|x l IH]; intros H; cbn [map_result]; [exists []; auto|].
  destruct (H x (or_introl eq_refl)) as (y & ->).
  destruct IH as (ys & -> & Hl); [intros; apply H; now right|].
  cbn. eexists; split; [reflexivity|]. cbn. now rewrite Hl.
Qed.

Lemma findall_decimal g rest s t :
  reads_decimal g -> no_groups rest = true ->
  In t (findall (Cat (Grp 1 g) rest) s) -> exists q, Py.float t = Ok q.
Proof.
  intros Hg Hn H. unfold findall in H. apply in_map_iff in H as (m & <- & Hm).
  unfold finditer in Hm. apply finditer_at_sound in Hm as (p' & s' & Hm).
  apply match_at_group1_decimal in Hm as (t & q & -> & Hq); eauto.
Qed.

Lemma finditer_at_cat_eps r : forall s p k, finditer_at r p s k = finditer_at (Cat r Eps) p s k.
Proof.
  induction s as [|c s IH]; intros p k; destruct k; cbn [finditer_at];
    rewrite <- ?(cat_eps r); try reflexivity.
  - destruct (match_at r p (c :: s)); [f_equal|]; apply IH.
  - apply IH.
Qed.

Lemma parse_weight_ok w : exists o, parse_weight_to_kg w = Ok o.
Proof.
  unfold parse_weight_to_kg. destruct (absent_or_blank w); [eauto|].
  set (s := Py.lower (py_str w)).
  destruct (findall re_kg s) as [|g gs] eqn:E1.
  - destruct (findall re_number s) as [|g gs] eqn:E2; [eauto|].
    destruct (map_result_ok Py.float (g :: gs)) as (vals & -> & Hl).
    { intros t Ht. rewrite <- E2 in Ht. unfold findall, finditer, re_number in Ht.
      rewrite finditer_at_cat_eps in Ht.
      eapply (findall_decimal _ Eps); [| |exact Ht]; [apply number_reads_decimal; lia|reflexivity]. }
    cbn [bind]. destruct vals; eauto.
  - destruct (map_result_ok Py.float (g :: gs)) as (vals & -> & Hl).
    { intros t Ht. rewrite <- E1 in Ht.
      eapply findall_decimal; [| |exact Ht]; [apply number_reads_decimal; lia|reflexivity]. }
    cbn [bind]. eauto.
Qed.




End ReFacts.
Import ReFacts.

(* ====================================================================== *)
(** * The date parser and the zodiac classifier never raise *)
















(* ====================================================================== *)
(** * Columns of a frame *)

Lemma mem_In n l : mem n l = true <-> In n l.
Proof.
  unfold mem. rewrite existsb_exists. split.
  - intros (x & Hx & E). apply String.eqb_eq in E. now subst.
  - intros H. exists n. split; [assumption|apply String.eqb_refl].
Qed.

Lemma mem_app n l1 l2 : mem n (l1 ++ l2) = mem n l1 || mem n l2.
Proof. apply existsb_app. Qed.

Lemma eqb_sym_false a b : String.eqb a b = false -> String.eqb b a = false.
Proof. now rewrite String.eqb_sym. Qed.

Lemma get_set_eq n v df : get_column n (set_column n v df) = v.
Proof.
  induction df as [|[l c] df IH]; cbn.
  - now rewrite String.eqb_refl.
  - destruct (String.eqb l n) eqn:E; cbn; rewrite E; auto.
Qed.

Lemma get_set_ne n m v df :
  String.eqb n m = false -> get_column m (set_column n v df) = get_column m df.
Proof.
  intros Hnm. induction df as [|[l c] df IH]; cbn.
  - now rewrite Hnm.
  - destruct (String.eqb l n) eqn:E; cbn.
    + apply String.eqb_eq in E. subst l. now rewrite Hnm.
    + now rewrite IH.
Qed.

Lemma has_set n m v df :
  has_column m (set_column n v df) = has_column m df || String.eqb m n.
Proof.
  unfold has_column, columns, mem. induction df as [|[l c] df IH]; cbn.
  - now rewrite orb_false_r.
  - destruct (String.eqb l n) eqn:E; cbn.
    + apply String.eqb_eq in E. subst l.
      destruct (String.eqb m n); cbn; [reflexivity|]. now rewrite orb_false_r.
    + rewrite IH. now rewrite orb_assoc.
Qed.

Lemma has_set_ne n m v df :
  String.eqb n m = false -> has_column m (set_column n v df) = has_column m df.
Proof. intros H. rewrite has_set, (eqb_sym_false _ _ H). apply orb_false_r. Qed.

Lemma rows_are_set N n v df :
  rows_are N df -> List.length v = N -> rows_are N (set_column n v df).
Proof.
  intros H Hv. induction H as [|[l c] df Hc H IH]; cbn.
  - constructor; [assumption|constructor].
  - destruct (String.eqb l n); constructor; auto.
Qed.

Lemma get_column_missing m df : has_column m df = false -> get_column m df = [].
Proof.
  unfold has_column, columns, mem. induction df as [|[l c] df IH]; cbn; [reflexivity|].
  intros H. apply orb_false_iff in H as [H1 H2].
  rewrite String.eqb_sym, H1. auto.
Qed.

Lemma rows_get N m df :
  rows_are N df -> has_column m df = true -> List.length (get_column m df) = N.
Proof.
  unfold has_column, columns, mem. induction 1 as [|[l c] df Hc H IH]; cbn; [discriminate|].
  rewrite (String.eqb_sym m l). destruct (String.eqb l m); cbn; auto.
Qed.

Lemma get_drop n m df :
  String.eqb n m = false -> get_column m (drop_column n df) = get_column m df.
Proof.
  intros Hnm. unfold drop_column. induction df as [|[l c] df IH]; cbn; [reflexivity|].
  destruct (String.eqb l n) eqn:E; cbn.
  - apply String.eqb_eq in E. subst l. rewrite Hnm. exact IH.
  - now rewrite IH.
Qed.

Lemma has_drop n m df :
  has_column m (drop_column n df) = has_column m df && negb (String.eqb m n).
Proof.
  unfold has_column, columns, mem, drop_column.
  induction df as [|[l c] df IH]; cbn; [reflexivity|].
  destruct (String.eqb l n) eqn:E; cbn.
  - apply String.eqb_eq in E. subst l. rewrite IH.
    destruct (String.eqb m n); cbn; [now rewrite andb_false_r|reflexivity].
  - rewrite IH. destruct (String.eqb m l) eqn:E2; cbn; [|reflexivity].
    apply String.eqb_eq in E2. subst m. now rewrite E.
Qed.

Lemma rows_are_drop N n df : rows_are N df -> rows_are N (drop_column n df).
Proof. unfold rows_are, drop_column. rewrite !List.Forall_forall. intros H x Hx. apply filter_In in Hx as [Hx _]. auto. Qed.

Lemma rename_label_stable m M l :
  stable m M = true -> String.eqb (rename_label M l) m = String.eqb l m.
Proof.
  unfold stable. induction M as [|[old new] M IH]; cbn; [reflexivity|].
  intros H. apply andb_prop in H as [H1 H2].
  apply negb_true_iff, orb_false_iff in H1 as [H1 H1'].
  apply negb_true_iff, orb_false_iff in H2 as [H2 H2'].
  destruct (String.eqb l old) eqn:E.
  - apply String.eqb_eq in E. subst l.
    rewrite (String.eqb_sym new m), H2, (String.eqb_sym old m), H1. reflexivity.
  - apply IH. unfold mem. now rewrite H1', H2'.
Qed.

Lemma get_rename m M df :
  stable m M = true -> get_column m (rename M df) = get_column m df.
Proof.
  intros H. unfold rename. induction df as [|[l c] df IH]; cbn; [reflexivity|].
  now rewrite (rename_label_stable m M l H), IH.
Qed.

Lemma has_rename m M df :
  stable m M = true -> has_column m (rename M df) = has_column m df.
Proof.
  intros H. unfold has_column, columns, mem, rename.
  induction df as [|[l c] df IH]; cbn; [reflexivity|].
  rewrite IH. f_equal. rewrite String.eqb_sym, (rename_label_stable m M l H).
  apply String.eqb_sym.
Qed.

Lemma rows_are_rename N M df : rows_are N df -> rows_are N (rename M df).
Proof. unfold rows_are, rename. intros H. induction H; cbn; constructor; auto. Qed.

Lemma get_filter_ne n m df rest :
  String.eqb n m = false ->
  get_column m (List.filter (fun nc => String.eqb (fst nc) n) df ++ rest)%list
  = get_column m rest.
Proof.
  intros Hnm. induction df as [|[l c] df IH]; cbn; [reflexivity|].
  destruct (String.eqb l n) eqn:E; cbn; [|exact IH].
  apply String.eqb_eq in E. subst l. now rewrite Hnm.
Qed.

Lemma get_filter_eq m df rest :
  has_column m df = true ->
  get_column m (List.filter (fun nc => String.eqb (fst nc) m) df ++ rest)%list
  = get_column m df.
Proof.
  unfold has_column, columns, mem. induction df as [|[l c] df IH]; cbn; [discriminate|].
  rewrite (String.eqb_sym m l). destruct (String.eqb l m) eqn:E; cbn.
  - now rewrite E.
  - exact IH.
Qed.

Lemma get_select m labels df :
  get_column m (select labels df) = if mem m labels then get_column m df else [].
Proof.
  unfold select. induction labels as [|n labels IH]; cbn; [reflexivity|].
  destruct (String.eqb m n) eqn:E; cbn.
  - apply String.eqb_eq in E. subst n.
    destruct (has_column m df) eqn:Hh.
    + now apply get_filter_eq.
    + rewrite (get_column_missing m df Hh).
      assert (Hf : List.filter (fun nc : string * column => String.eqb (fst nc) m) df = []).
      { unfold has_column, columns, mem in Hh. clear IH.
        induction df as [|[l c] df IHd]; cbn in *; [reflexivity|].
        apply orb_false_iff in Hh as [H1 H2]. rewrite String.eqb_sym, H1. auto. }
      rewrite Hf. cbn. rewrite IH. rewrite (get_column_missing m df Hh).
      now destruct (mem m labels).
  - rewrite (get_filter_ne n m df _ (eqb_sym_false _ _ E)). exact IH.
Qed.

Lemma has_select m labels df :
  has_column m (select labels df) = mem m labels && has_column m df.
Proof.
  unfold has_column, columns, select.
  induction labels as [|n labels IH]; [reflexivity|].
  cbn [flat_map]. rewrite map_app, mem_app, IH.
  change (mem m (n :: labels)) with (String.eqb m n || mem m labels).
  assert (Hf : mem m (map fst (List.filter (fun nc : string * column => String.eqb (fst nc) n) df))
               = String.eqb m n && mem m (map fst df)).
  { clear IH. unfold mem. induction df as [|[l c] df IHd]; cbn; [now rewrite andb_false_r|].
    destruct (String.eqb l n) eqn:E; cbn; rewrite IHd.
    - apply String.eqb_eq in E. subst l.
      destruct (String.eqb m n); cbn; [reflexivity|reflexivity].
    - destruct (String.eqb m n) eqn:E2; cbn; [|reflexivity].
      apply String.eqb_eq in E2. subst m. rewrite String.eqb_sym, E. reflexivity. }
  rewrite Hf. now rewrite andb_orb_distrib_l.
Qed.

Lemma rows_are_select N labels df : rows_are N df -> rows_are N (select labels df).
Proof.
  unfold rows_are, select. rewrite !List.Forall_forall. intros H x Hx.
  apply in_flat_map in Hx as (n & _ & Hx). apply filter_In in Hx as [Hx _]. auto.
Qed.

Lemma mem_append_missing m cols : forall order,
  mem m (append_missing cols order) = mem m order || mem m cols.
Proof.
  unfold append_missing. induction cols as [|c cols IH]; intros order.
  - cbn. now rewrite orb_false_r.
  - cbn [fold_left]. rewrite IH.
    change (mem m (c :: cols)) with (String.eqb m c || mem m cols).
    destruct (mem c order) eqn:E.
    + destruct (String.eqb m c) eqn:E2; cbn; [|reflexivity].
      apply String.eqb_eq in E2. subst c. rewrite E. reflexivity.
    + rewrite mem_app. cbn. rewrite orb_false_r. now rewrite orb_assoc.
Qed.


(* ====================================================================== *)
(** * The stages, one by one *)

Lemma untouched_refl W df : untouched W df df.
Proof. intros m _. split; reflexivity. Qed.

Lemma untouched_trans W a b c :
  untouched W a b -> untouched W b c -> untouched W a c.
Proof.
  intros H1 H2 m Hm. destruct (H1 m Hm) as [E1 E2], (H2 m Hm) as [E3 E4].
  split; congruence.
Qed.

Lemma untouched_weaken W W' a b :
  untouched W a b -> (forall m, mem m W' = false -> mem m W = false) -> untouched W' a b.
Proof. intros H Hs m Hm. apply H, Hs, Hm. Qed.

Lemma untouched_set W n v df :
  mem n W = true -> untouched W df (set_column n v df).
Proof.
  intros Hn m Hm.
  assert (E : String.eqb n m = false).
  { destruct (String.eqb n m) eqn:E; [|reflexivity].
    apply String.eqb_eq in E. subst m. congruence. }
  split; [now apply get_set_ne|now apply has_set_ne].
Qed.

Lemma map_result_length {A B} (f : A -> result B) l : forall ys,
  map_result f l = Ok ys -> List.length ys = List.length l.
Proof.
  induction l as [|x l IH]; cbn [map_result]; intros ys H.
  - now injection H as <-.
  - destruct (f x); cbn [bind] in H; [|discriminate].
    destruct (map_result f l) as [zs|]; cbn [bind] in H; [|discriminate].
    injection H as <-. cbn. now rewrite (IH zs eq_refl).
Qed.

(** One column derived from another by a total function. *)
Lemma derive_rows N src dst (f : cell -> cell) df :
  rows_are N df -> has_column src df = true ->
  rows_are N (set_column dst (map f (get_column src df)) df).
Proof.
  intros H Hs. apply rows_are_set; [assumption|].
  rewrite length_map. now apply rows_get.
Qed.

Ltac stage_untouched :=
  repeat first
    [ apply untouched_refl
    | match goal with
      | |- untouched _ _ (if ?b then _ else _) => destruct b eqn:?
      | |- untouched _ ?df (set_column _ _ ?df) => apply untouched_set; reflexivity
      | |- untouched _ ?df (set_column _ _ (set_column ?n ?v ?df')) =>
        apply (untouched_trans _ _ (set_column n v df'))
      end ].

Lemma process_aliases_untouched df :
  untouched ["alias_count"] df (process_aliases df).
Proof. unfold process_aliases. stage_untouched. Qed.

Lemma process_occupations_untouched df :
  untouched ["occupation_category"] df (process_occupations df).
Proof. unfold process_occupations. stage_untouched. Qed.

Lemma process_birth_places_untouched df :
  untouched ["birth_country"; "birth_country_code"] df (process_birth_places df).
Proof. unfold process_birth_places. cbv zeta. stage_untouched. Qed.

Lemma process_languages_untouched df :
  untouched ["Language_1"; "Language_2"; "Language_3"] df (process_languages df).
Proof. unfold process_languages. cbv zeta. stage_untouched. Qed.

Lemma process_hair_color_untouched df :
  untouched ["hair_color"] df (process_hair_color df).
Proof. unfold process_hair_color. stage_untouched. Qed.

Lemma process_marks_and_caution_untouched df :
  untouched ["has_mark"; "has_caution"] df (process_marks_and_caution df).
Proof.
  unfold process_marks_and_caution. cbv zeta.
  destruct (has_column "Scars and Marks" df);
    match goal with |- untouched _ _ (if ?b then _ else _) => destruct b end;
    stage_untouched.
Qed.

Lemma find_dob df dob_col :
  find (fun c => has_column c df) dob_labels = Some dob_col ->
  has_column dob_col df = true /\ mem dob_col dob_labels = true.
Proof.
  intros H. apply find_some in H as [Hin Hh]. split; [assumption|].
  now apply mem_In.
Qed.

Lemma process_dates_and_ages_untouched df df' :
  process_dates_and_ages df = Ok df' -> untouched dates_written df df'.
Proof.
  unfold process_dates_and_ages.
  destruct (find _ dob_labels) as [dob_col|] eqn:E.
  - apply find_dob in E as [Hh Hm].
    destruct (series_apply parse_date _) as [dates|]; cbn [bind]; [|discriminate].
    destruct (series_apply (fun c => zodiac_sign (as_date c)) _) as [signs|];
      cbn [bind]; [|discriminate].
    intros [= <-].
    assert (Hd : mem dob_col dates_written = true).
    { unfold dates_written. rewrite mem_app, Hm. reflexivity. }
    eapply untouched_trans; [|apply untouched_set; reflexivity].
    eapply untouched_trans; [|apply untouched_set; reflexivity].
    now apply untouched_set.
  - intros [= <-]. apply untouched_refl.
Qed.

Lemma process_physical_measurements_untouched df df' :
  process_physical_measurements df = Ok df' ->
  untouched ["height_cm"; "weight_kg"] df df'.
Proof.
  unfold process_physical_measurements.
  destruct (has_column "Height" df).
  - destruct (series_apply parse_height_to_cm _) as [hs|]; cbn [bind]; [|discriminate].
    match goal with |- context [if ?b then _ else _] => destruct b end.
    + destruct (series_apply parse_weight_to_kg _) as [ws|]; cbn [bind]; [|discriminate].
      intros [= <-]. stage_untouched.
    + intros [= <-]. stage_untouched.
  - cbn [bind]. destruct (has_column "Weight" df).
    + destruct (series_apply parse_weight_to_kg _) as [ws|]; cbn [bind]; [|discriminate].
      intros [= <-]. stage_untouched.
    + intros [= <-]. stage_untouched.
Qed.

(** Row counts *)

Lemma process_aliases_rows N df : rows_are N df -> rows_are N (process_aliases df).
Proof.
  intros H. unfold process_aliases.
  destruct (has_column "alias" df) eqn:E; [now apply derive_rows|assumption].
Qed.

Lemma process_occupations_rows N df : rows_are N df -> rows_are N (process_occupations df).
Proof.
  intros H. unfold process_occupations.
  destruct (has_column "Occupation" df) eqn:E; [now apply derive_rows|assumption].
Qed.

Lemma process_hair_color_rows N df : rows_are N df -> rows_are N (process_hair_color df).
Proof.
  intros H. unfold process_hair_color.
  destruct (has_column "Hair" df) eqn:E; [now apply derive_rows|assumption].
Qed.

Lemma process_birth_places_rows N df : rows_are N df -> rows_are N (process_birth_places df).
Proof.
  intros H. unfold process_birth_places.
  destruct (has_column "Place of Birth" df) eqn:E; [|assumption]. cbv zeta.
  repeat (apply rows_are_set; [|rewrite !length_map; now apply rows_get]).
  assumption.
Qed.

Lemma process_languages_rows N df : rows_are N df -> rows_are N (process_languages df).
Proof.
  intros H. unfold process_languages.
  destruct (has_column "Languages" df) eqn:E; [|assumption]. cbv zeta.
  repeat (apply rows_are_set; [|rewrite !length_map; now apply rows_get]).
  assumption.
Qed.

Lemma process_marks_and_caution_rows N df :
  rows_are N df -> rows_are N (process_marks_and_caution df).
Proof.
  intros H. unfold process_marks_and_caution. cbv zeta.
  assert (H1 : rows_are N (if has_column "Scars and Marks" df
    then set_column "has_mark" (map (fun c => Bool (detect_scars_marks c))
           (get_column "Scars and Marks" df)) df else df)).
  { destruct (has_column "Scars and Marks" df) eqn:E; [now apply derive_rows|assumption]. }
  match goal with |- context [if has_column "caution" ?d then _ else _] =>
    destruct (has_column "caution" d) eqn:E2 end; [now apply derive_rows|assumption].
Qed.

Lemma process_dates_and_ages_rows N df df' :
  process_dates_and_ages df = Ok df' -> rows_are N df -> rows_are N df'.
Proof.
  unfold process_dates_and_ages.
  destruct (find _ dob_labels) as [dob_col|] eqn:E; [|now intros [= <-]].
  apply find_dob in E as [Hh Hm].
  destruct (series_apply parse_date _) as [dates|] eqn:Ed; cbn [bind]; [|discriminate].
  destruct (series_apply (fun c => zodiac_sign (as_date c)) _) as [signs|] eqn:Es;
    cbn [bind]; [|discriminate].
  intros Heq H. injection Heq as <-.
  unfold series_apply in Ed, Es.
  apply map_result_length in Ed. apply map_result_length in Es.
  assert (Hl : List.length dates = N) by (rewrite Ed; now apply rows_get).
  assert (Hr1 : rows_are N (set_column dob_col (map (opt_cell DateV) dates) df))
    by (apply rows_are_set; [assumption|now rewrite length_map]).
  assert (Hh1 : has_column dob_col (set_column dob_col (map (opt_cell DateV) dates) df) = true)
    by (rewrite has_set, String.eqb_refl; apply orb_true_r).
  match goal with |- rows_are N (set_column _ _ ?d) =>
    assert (Hr2 : rows_are N d) by (apply rows_are_set; [assumption|];
      rewrite length_map; now apply rows_get);
    assert (Hh2 : has_column dob_col d = true) by (rewrite has_set, Hh1; reflexivity)
  end.
  apply rows_are_set; [assumption|].
  rewrite length_map, Es. now apply rows_get.
Qed.

Lemma process_physical_measurements_rows N df df' :
  process_physical_measurements df = Ok df' -> rows_are N df -> rows_are N df'.
Proof.
  unfold process_physical_measurements. intros H Hr.
  assert (H1 : forall d, (if has_column "Height" df
      then let* heights := series_apply parse_height_to_cm (get_column "Height" df) in
           Ok (set_column "height_cm" (map (opt_cell Float) heights) df)
      else Ok df) = Ok d -> rows_are N d).
  { intros d. destruct (has_column "Height" df) eqn:E; [|now intros [= <-]].
    destruct (series_apply parse_height_to_cm _) as [hs|] eqn:Eh; cbn [bind]; [|discriminate].
    intros [= <-]. apply map_result_length in Eh.
    apply rows_are_set; [assumption|]. rewrite length_map, Eh. now apply rows_get. }
  destruct (if has_column "Height" df then _ else _) as [d|]; cbn [bind] in H; [|discriminate].
  specialize (H1 d eq_refl).
  destruct (has_column "Weight" d) eqn:E; [|now injection H as <-].
  destruct (series_apply parse_weight_to_kg _) as [ws|] eqn:Ew; cbn [bind] in H; [|discriminate].
  injection H as <-. apply map_result_length in Ew.
  apply rows_are_set; [assumption|]. rewrite length_map, Ew. now apply rows_get.
Qed.


(* ====================================================================== *)
(** * The finaliser and the whole pipeline *)

(** ** The finaliser *)

Lemma drop_labels_get m L : forall df,
  mem m L = false -> get_column m (drop_labels L df) = get_column m df.
Proof.
  unfold drop_labels. induction L as [|c L IH]; intros df H; [reflexivity|].
  change (mem m (c :: L)) with (String.eqb m c || mem m L) in H.
  apply orb_false_iff in H as [H1 H2]. cbn [fold_left]. rewrite (IH _ H2).
  destruct (has_column c df); [|reflexivity].
  apply get_drop. now rewrite String.eqb_sym.
Qed.

Lemma drop_labels_has m L : forall df,
  has_column m (drop_labels L df) = has_column m df && negb (mem m L).
Proof.
  unfold drop_labels. induction L as [|c L IH]; intros df.
  - cbn. now rewrite andb_true_r.
  - cbn [fold_left]. rewrite IH.
    change (mem m (c :: L)) with (String.eqb m c || mem m L).
    rewrite negb_orb, andb_assoc. f_equal.
    destruct (has_column c df) eqn:E; [apply has_drop|].
    destruct (String.eqb m c) eqn:E2; cbn; [|now rewrite andb_true_r].
    apply String.eqb_eq in E2. subst c. now rewrite E.
Qed.

Lemma drop_labels_rows N L : forall df, rows_are N df -> rows_are N (drop_labels L df).
Proof.
  unfold drop_labels. induction L as [|c L IH]; intros df H; [assumption|].
  cbn [fold_left]. apply IH. destruct (has_column c df); [apply rows_are_drop|]; assumption.
Qed.

Lemma reorganize_get m df :
  stable m rename_map = true ->
  get_column m (rename_and_reorganize_columns df) = get_column m df.
Proof.
  intros Hs. unfold rename_and_reorganize_columns. cbv zeta.
  rewrite get_select, mem_append_missing.
  change (mem m (columns (rename rename_map df))) with (has_column m (rename rename_map df)).
  rewrite (has_rename _ _ _ Hs).
  destruct (has_column m df) eqn:E.
  - rewrite orb_true_r. now apply get_rename.
  - rewrite (get_rename _ _ _ Hs), (get_column_missing _ _ E). now destruct (_ || _).
Qed.


Lemma reorganize_has_rename m df :
  has_column m (rename_and_reorganize_columns df) = has_column m (rename rename_map df).
Proof.
  unfold rename_and_reorganize_columns. cbv zeta.
  rewrite has_select, mem_append_missing.
  change (mem m (columns (rename rename_map df))) with (has_column m (rename rename_map df)).
  destruct (has_column m (rename rename_map df)); [now rewrite orb_true_r|apply andb_false_r].
Qed.

Lemma reorganize_has m df :
  stable m rename_map = true ->
  has_column m (rename_and_reorganize_columns df) = has_column m df.
Proof. intros Hs. rewrite reorganize_has_rename. now apply has_rename. Qed.

Lemma reorganize_rows N df :
  rows_are N df -> rows_are N (rename_and_reorganize_columns df).
Proof.
  intros H. unfold rename_and_reorganize_columns. cbv zeta.
  now apply rows_are_select, rows_are_rename.
Qed.

(** ** clean_dataframe, stage by stage *)

Lemma clean_dataframe_stages df out :
  clean_dataframe df = Ok out ->
  exists d2 d7,
    process_dates_and_ages (process_aliases df) = Ok d2 /\
    process_physical_measurements
      (process_hair_color (process_languages (process_birth_places
         (process_occupations d2)))) = Ok d7 /\
    out = rename_and_reorganize_columns
            (remove_unused_columns (process_marks_and_caution d7)).
Proof.
  unfold clean_dataframe. cbv zeta.
  destruct (process_dates_and_ages _) as [d2|] eqn:E2; cbn [bind]; [|discriminate].
  destruct (process_physical_measurements _) as [d7|] eqn:E7; cbn [bind]; [|discriminate].
  intros [= <-]. exists d2, d7. auto.
Qed.

Ltac weaken_to H :=
  apply (untouched_weaken _ _ _ _ H);
  let m := fresh "m" in let Hm := fresh "Hm" in
  intros m Hm; unfold mem, derived_labels, dates_written, dob_labels in *;
  cbn [app existsb] in *;
  repeat match goal with
  | H : _ || _ = false |- _ => apply orb_false_iff in H as [? ?]
  end;
  repeat match goal with H : _ = false |- _ => rewrite H; clear H end; reflexivity.

Lemma stages_untouched df d2 d7 :
  process_dates_and_ages (process_aliases df) = Ok d2 ->
  process_physical_measurements
    (process_hair_color (process_languages (process_birth_places
       (process_occupations d2)))) = Ok d7 ->
  untouched derived_labels df (process_marks_and_caution d7).
Proof.
  intros H2 H7.
  apply process_dates_and_ages_untouched in H2.
  apply process_physical_measurements_untouched in H7.
  eapply untouched_trans; [weaken_to (process_aliases_untouched df)|].
  eapply untouched_trans; [weaken_to H2|].
  eapply untouched_trans; [weaken_to (process_occupations_untouched d2)|].
  eapply untouched_trans; [weaken_to (process_birth_places_untouched (process_occupations d2))|].
  eapply untouched_trans; [weaken_to (process_languages_untouched
     (process_birth_places (process_occupations d2)))|].
  eapply untouched_trans; [weaken_to (process_hair_color_untouched
     (process_languages (process_birth_places (process_occupations d2))))|].
  eapply untouched_trans; [weaken_to H7|].
  weaken_to (process_marks_and_caution_untouched d7).
Qed.

Lemma stages_rows N df d2 d7 :
  process_dates_and_ages (process_aliases df) = Ok d2 ->
  process_physical_measurements
    (process_hair_color (process_languages (process_birth_places
       (process_occupations d2)))) = Ok d7 ->
  rows_are N df -> rows_are N (process_marks_and_caution d7).
Proof.
  intros H2 H7 H.
  apply process_marks_and_caution_rows.
  eapply process_physical_measurements_rows; [exact H7|].
  apply process_hair_color_rows, process_languages_rows, process_birth_places_rows,
    process_occupations_rows.
  eapply process_dates_and_ages_rows; [exact H2|].
  now apply process_aliases_rows.
Qed.

Lemma well_formed_rows df : well_formedb df = true -> rows_are (n_rows df) df.
Proof.
  unfold well_formedb, rows_are. intros H. apply andb_prop in H as [_ H].
  apply List.Forall_forall. intros x Hx.
  apply (proj1 (forallb_forall _ _) H) in Hx. now apply Nat.eqb_eq.
Qed.

Ltac by_compute := vm_compute; reflexivity.

Lemma remove_unused_drop_labels df :
  remove_unused_columns df = drop_labels cols_to_drop df.
Proof. unfold remove_unused_columns, drop_labels. reflexivity. Qed.

Lemma remove_unused_get m df :
  mem m cols_to_drop = false ->
  get_column m (remove_unused_columns df) = get_column m df.
Proof. rewrite remove_unused_drop_labels. generalize cols_to_drop. intros L. apply drop_labels_get. Qed.

Lemma remove_unused_has m df :
  has_column m (remove_unused_columns df)
  = has_column m df && negb (mem m cols_to_drop).
Proof. rewrite remove_unused_drop_labels. generalize cols_to_drop. intros L. apply drop_labels_has. Qed.

Lemma remove_unused_rows N df :
  rows_are N df -> rows_are N (remove_unused_columns df).
Proof. rewrite remove_unused_drop_labels. generalize cols_to_drop. intros L. apply drop_labels_rows. Qed.

(** C2: cleaning a well-formed record set that completes keeps every row:
    each column of the output has as many cells as the input has rows, and
    the url column is the input's, cell for cell. *)
Theorem clean_dataframe_preserves_rows df out :
  well_formedb df = true -> clean_dataframe df = Ok out ->
  rows_are (n_rows df) out /\
  get_column "url" out = get_column "url" df /\
  has_column "url" out = has_column "url" df.
Proof.
  intros Hwf H. apply clean_dataframe_stages in H as (d2 & d7 & H2 & H7 & ->).
  assert (Hm : mem "url" derived_labels = false) by by_compute.
  assert (Hd : mem "url" cols_to_drop = false) by by_compute.
  assert (Hs : stable "url" rename_map = true) by by_compute.
  destruct (stages_untouched _ _ _ H2 H7 "url" Hm) as [Hg Hh].
  split; [|split].
  - apply reorganize_rows, remove_unused_rows.
    eapply stages_rows; [exact H2|exact H7|now apply well_formed_rows].
  - now rewrite (reorganize_get _ _ Hs), (remove_unused_get _ _ Hd).
  - now rewrite (reorganize_has _ _ Hs), remove_unused_has, Hd, andb_true_r.
Qed.

(* ====================================================================== *)
(** * The properties claimed of the pipeline *)

(** C1 (the code departs from it): on the text "04/13/61" [parse_date]
    returns 13 April 2061, not 1961: the strptime layout "%m/%d/%y", tried
    before the pattern search, maps the years 00-68 to 2000-2068.  The rule
    "above 25 is 19xx" only runs on the pattern-search path ("born 04/13/61"
    gives 1961), and there a year written 00-09 is left as it is
    ("born 04/13/05" gives the year 5). *)
Theorem parse_date_two_digit_year :
  parse_date (Str "04/13/61") = Ok (Some (Date 2061 4 13)) /\
  parse_date (Str "04/13/05") = Ok (Some (Date 2005 4 13)) /\
  parse_date (Str "born 04/13/61") = Ok (Some (Date 1961 4 13)) /\
  parse_date (Str "born 04/13/05") = Ok (Some (Date 5 4 13)).
Proof. vm_compute. repeat split. Qed.

(** C7: the boundary cases of the height parser, and the order of its rules:
    the result is that of the first rule, in the fixed order, that gives a
    value; later rules do not run. *)
Theorem parse_height_boundary_cases :
  returns_height (parse_height_to_cm (Str "180 cm")) 180 /\
  returns_height (parse_height_to_cm (Str "1.8 m")) 180 /\
  returns_height (parse_height_to_cm (Str "5'11")) (1803 # 10) /\
  returns_height (parse_height_to_cm (Str "71 inches")) (1803 # 10) /\
  returns_height (parse_height_to_cm (Str "70")) (1778 # 10) /\
  returns_height (height_num_rule "70") (1778 # 10) /\
  forall height,
    parse_height_to_cm height =
    if absent_or_blank height then Ok None
    else first_some (fun rule => rule (Py.strip (Py.lower (py_str height))))
                    height_rules.
Proof.
  repeat (split; [vm_compute; reflexivity|]).
  intros height. unfold parse_height_to_cm, height_rules. cbn [first_some].
  destruct (absent_or_blank height); [reflexivity|].
  set (s := Py.strip (Py.lower (py_str height))).
  destruct (height_cm_rule s) as [[v|]|e]; cbn [bind]; try reflexivity.
  destruct (height_m_rule s) as [[v|]|e]; cbn [bind]; try reflexivity.
  destruct (height_in_rule s) as [[v|]|e]; cbn [bind]; try reflexivity.
  destruct (height_ft_in_rule s) as [[v|]|e]; cbn [bind]; try reflexivity.
  destruct (height_num_rule s) as [[v|]|e]; cbn [bind]; reflexivity.
Qed.

(** C10: [zodiac_sign] gives one of the twelve sign names for every date,
    Capricorn when none of the first eleven ranges matches, and nothing only
    for an absent date. *)
Theorem zodiac_sign_total :
  (forall d, exists s, zodiac_sign (Some d) = Ok (Some s) /\ In s sign_names) /\
  (forall d, zodiac_loop (month d) (day d) (removelast zodiac_ranges) = Ok None ->
             zodiac_sign (Some d) = Ok (Some "Capricorn")) /\
  (forall b, zodiac_sign b = Ok None <-> b = None).
Proof.
  assert (H : forall d, exists s, zodiac_sign (Some d) = Ok (Some s) /\ In s sign_names).
  { intros d. unfold zodiac_sign, zodiac_ranges. cbn [zodiac_loop in_range].
    repeat match goal with
    | |- context [if ?b then _ else _] =>
      destruct b; [eexists; split; [reflexivity|cbn; tauto]|]
    end.
    eexists; split; [reflexivity|cbn; tauto]. }
  split; [exact H|split].
  - intros d. unfold zodiac_sign, zodiac_ranges. cbn [removelast zodiac_loop in_range].
    repeat match goal with
    | |- context [if ?b then _ else _] => destruct b; [discriminate|]
    end.
    reflexivity.
  - intros [d|]; split; intros E; try reflexivity; try discriminate.
    destruct (H d) as (s & Hs & _). congruence.
Qed.

Lemma zodiac_sign_total_witness :
  zodiac_sign (Some (Date 1990 1 5)) = Ok (Some "Capricorn").
Proof. apply (proj1 (proj2 zodiac_sign_total)). vm_compute. reflexivity. Defined.

(** C3, as stated, fails: the centimetre rule applies no range check, so
    "999 cm" gives 999.0, above 300. *)
Lemma parse_height_above_300 :
  exists v, parse_height_to_cm (Str "999 cm") = Ok (Some v) /\ ~ (v <= 300)%Q.
Proof. exists 999%Q. split; [vm_compute; reflexivity|]. intros H. now vm_compute in H. Qed.

(** C3, amended: a height is absent or not negative, an age is absent or a
    non-negative integer; nothing negative stands for "unknown". *)
Theorem parse_height_and_age_nonneg :
  (forall h v, parse_height_to_cm h = Ok (Some v) -> (0 <= v)%Q) /\
  (forall b r, compute_age b r = None \/
               exists n, compute_age b r = Some n /\ 0 <= n).
Proof. split; [exact parse_height_nonneg|exact compute_age_nonneg]. Qed.

Lemma parse_height_and_age_nonneg_witness : (0 <= 180)%Q.
Proof.
  apply (proj1 parse_height_and_age_nonneg (Str "180 cm")).
  vm_compute. reflexivity.
Defined.

Lemma clean_dataframe_preserves_rows_witness :
  rows_are (n_rows sample_frame) sample_clean /\
  get_column "url" sample_clean = get_column "url" sample_frame /\
  has_column "url" sample_clean = has_column "url" sample_frame.
Proof. apply clean_dataframe_preserves_rows; vm_compute; reflexivity. Defined.

(** C8, as stated, fails: the lookup and the fallback both use the text
    stripped of surrounding blanks, so " Paris " gives ("Paris", None), and
    " Russia ", not a key as written, gives ("Russia", "RUS"). *)
Lemma birth_place_fallback_is_stripped :
  absent_or_blank (Str " Paris ") = false /\
  BIRTH_PLACE_MAPPING !! " Paris " = None /\
  extract_country_from_birth_place (Str " Paris ") = (Some "Paris", None) /\
  extract_country_from_birth_place (Str " Paris ") <> (Some " Paris ", None) /\
  BIRTH_PLACE_MAPPING !! " Russia " = None /\
  extract_country_from_birth_place (Str " Russia ") = (Some "Russia", Some "RUS").
Proof. repeat split; try (vm_compute; reflexivity). vm_compute. discriminate. Qed.

(** C8, amended: for a place that is not blank and whose text, stripped of
    surrounding blanks, is not a key of the table, the result is that
    stripped text with no ISO code, never (None, None); no other matching is
    tried. *)
Theorem birth_place_fallback place :
  absent_or_blank place = false ->
  BIRTH_PLACE_MAPPING !! Py.strip (py_str place) = None ->
  extract_country_from_birth_place place = (Some (Py.strip (py_str place)), None) /\
  extract_country_from_birth_place place <> (None, None).
Proof.
  intros Hb Hk. unfold extract_country_from_birth_place. rewrite Hb, Hk.
  split; [reflexivity|discriminate].
Qed.

Lemma birth_place_fallback_witness :
  extract_country_from_birth_place (Str " Paris ") = (Some "Paris", None) /\
  extract_country_from_birth_place (Str " Paris ") <> (None, None).
Proof. apply (birth_place_fallback (Str " Paris ")); vm_compute; reflexivity. Defined.









(** C4 (the code departs from it): nothing catches a fault of a parser, and
    [parse_height_to_cm], whose docstring promises a float or None, raises.
    A height in feet too large for a float makes it raise an OverflowError;
    the exception leaves [process_physical_measurements] and
    [clean_dataframe], and the other subject, whose height parses, gets no
    output either. *)
Theorem clean_dataframe_overflow_propagates :
  parse_height_to_cm (Str huge_feet) = Raise OverflowError /\
  (exists v, parse_height_to_cm (Str "180 cm") = Ok (Some v)) /\
  process_physical_measurements overflow_frame = Raise OverflowError /\
  clean_dataframe overflow_frame = Raise OverflowError.
Proof.
  split; [vm_compute; reflexivity|]. split; [eexists; vm_compute; reflexivity|].
  split; vm_compute; reflexivity.
Qed.

Ltac weaken_with H :=
  apply (untouched_weaken _ _ _ _ H);
  let m := fresh "m" in let Hm := fresh "Hm" in
  intros m Hm;
  unfold mem, derived_labels, labels_after_aliases, labels_after_occupations,
    dates_written, dob_labels in *;
  cbn [app existsb] in *;
  repeat match goal with
  | H : _ || _ = false |- _ => apply orb_false_iff in H as [? ?]
  end;
  repeat match goal with H : _ = false |- _ => rewrite H; clear H end; reflexivity.

Lemma late_stages_untouched d2 d7 :
  process_physical_measurements
    (process_hair_color (process_languages (process_birth_places
       (process_occupations d2)))) = Ok d7 ->
  untouched labels_after_occupations (process_occupations d2)
    (process_marks_and_caution d7).
Proof.
  intros H7. apply process_physical_measurements_untouched in H7.
  eapply untouched_trans; [weaken_with (process_birth_places_untouched (process_occupations d2))|].
  eapply untouched_trans; [weaken_with (process_languages_untouched
     (process_birth_places (process_occupations d2)))|].
  eapply untouched_trans; [weaken_with (process_hair_color_untouched
     (process_languages (process_birth_places (process_occupations d2))))|].
  eapply untouched_trans; [weaken_with H7|].
  weaken_with (process_marks_and_caution_untouched d7).
Qed.

Lemma after_aliases_untouched df d2 d7 :
  process_dates_and_ages (process_aliases df) = Ok d2 ->
  process_physical_measurements
    (process_hair_color (process_languages (process_birth_places
       (process_occupations d2)))) = Ok d7 ->
  untouched labels_after_aliases (process_aliases df) (process_marks_and_caution d7).
Proof.
  intros H2 H7. apply process_dates_and_ages_untouched in H2.
  eapply untouched_trans; [weaken_with H2|].
  eapply untouched_trans; [weaken_with (process_occupations_untouched d2)|].
  weaken_with (late_stages_untouched _ _ H7).
Qed.

Lemma before_marks_untouched df d2 d7 :
  process_dates_and_ages (process_aliases df) = Ok d2 ->
  process_physical_measurements
    (process_hair_color (process_languages (process_birth_places
       (process_occupations d2)))) = Ok d7 ->
  untouched derived_labels df d7.
Proof.
  intros H2 H7.
  apply process_dates_and_ages_untouched in H2.
  apply process_physical_measurements_untouched in H7.
  eapply untouched_trans; [weaken_with (process_aliases_untouched df)|].
  eapply untouched_trans; [weaken_with H2|].
  eapply untouched_trans; [weaken_with (process_occupations_untouched d2)|].
  eapply untouched_trans; [weaken_with (process_birth_places_untouched (process_occupations d2))|].
  eapply untouched_trans; [weaken_with (process_languages_untouched
     (process_birth_places (process_occupations d2)))|].
  eapply untouched_trans; [weaken_with (process_hair_color_untouched
     (process_languages (process_birth_places (process_occupations d2))))|].
  weaken_with H7.
Qed.

(** A derived column that the finaliser neither drops nor renames. *)
Lemma finaliser_keeps m df :
  mem m cols_to_drop = false -> stable m rename_map = true ->
  get_column m (rename_and_reorganize_columns (remove_unused_columns df))
  = get_column m df /\
  has_column m (rename_and_reorganize_columns (remove_unused_columns df))
  = has_column m df.
Proof.
  intros Hd Hs. split.
  - now rewrite (reorganize_get _ _ Hs), (remove_unused_get _ _ Hd).
  - now rewrite (reorganize_has _ _ Hs), remove_unused_has, Hd, andb_true_r.
Qed.

Lemma count_aliases_nonneg c : 0 <= count_aliases c.
Proof. unfold count_aliases. destruct (absent_or_blank c); lia. Qed.

Lemma keyword_loop_category text : forall items,
  In (category_loop text items) (map fst items ++ ["Other"])%list.
Proof.
  induction items as [|[cat kws] items IH]; cbn; [now left|].
  destruct (keyword_loop text kws); [now left|now right].
Qed.

Lemma categorize_occupation_in_set c : In (categorize_occupation c) occupation_categories.
Proof.
  unfold categorize_occupation, occupation_categories.
  destruct (absent_or_blank c); [|apply keyword_loop_category].
  vm_compute. tauto.
Qed.

(** C5, as stated, fails: a record set without the source columns gets none
    of the four fields. *)
Lemma derived_fields_absent_without_source :
  clean_dataframe bare_frame = Ok bare_frame /\
  has_column "alias_count" bare_frame = false /\
  has_column "has_mark" bare_frame = false /\
  has_column "has_caution" bare_frame = false /\
  has_column "occupation_category" bare_frame = false.
Proof. repeat split; vm_compute; reflexivity. Qed.

(** C5, amended: when the record set has the source column (alias, Scars and
    Marks, caution, Occupation), the derived field is there for every
    record, computed from that record's source cell: a count that is never
    negative, a boolean, a category of the fixed set; on an absent or blank
    cell they are 0, false, false and "Unknown".  Without the source column
    the field is not created. *)
Theorem derived_fields_total_with_source df out :
  clean_dataframe df = Ok out ->
  (has_column "alias" df = true ->
     has_column "alias_count" out = true /\
     get_column "alias_count" out
     = map (fun c => Int (count_aliases c)) (get_column "alias" df)) /\
  (has_column "Scars and Marks" df = true ->
     has_column "has_mark" out = true /\
     get_column "has_mark" out
     = map (fun c => Bool (detect_scars_marks c)) (get_column "Scars and Marks" df)) /\
  (has_column "caution" df = true ->
     has_column "has_caution" out = true /\
     get_column "has_caution" out
     = map (fun c => Bool (detect_dollar_amounts c)) (get_column "caution" df)) /\
  (has_column "Occupation" df = true ->
     has_column "occupation_category" out = true /\
     get_column "occupation_category" out
     = map (fun c => Str (categorize_occupation c)) (get_column "Occupation" df)) /\
  (forall c, 0 <= count_aliases c /\
             In (categorize_occupation c) occupation_categories) /\
  (forall c, absent_or_blank c = true ->
             count_aliases c = 0 /\ detect_scars_marks c = false /\
             detect_dollar_amounts c = false /\
             categorize_occupation c = "Unknown").
Proof.
  intros H. apply clean_dataframe_stages in H as (d2 & d7 & H2 & H7 & ->).
  pose proof (before_marks_untouched _ _ _ H2 H7) as U7.
  repeat apply conj.
  - intros Ha.
    destruct (finaliser_keeps "alias_count" (process_marks_and_caution d7))
      as [-> ->]; [vm_compute; reflexivity|vm_compute; reflexivity|].
    assert (Hm : mem "alias_count" labels_after_aliases = false) by (vm_compute; reflexivity).
    destruct (after_aliases_untouched _ _ _ H2 H7 "alias_count" Hm) as [-> ->].
    unfold process_aliases. rewrite Ha, get_set_eq, has_set, String.eqb_refl.
    split; [apply orb_true_r|reflexivity].
  - intros Ha.
    destruct (finaliser_keeps "has_mark" (process_marks_and_caution d7))
      as [-> ->]; [vm_compute; reflexivity|vm_compute; reflexivity|].
    assert (Hm : mem "Scars and Marks" derived_labels = false) by (vm_compute; reflexivity).
    destruct (U7 "Scars and Marks" Hm) as [Hg Hh].
    unfold process_marks_and_caution. cbv zeta. rewrite Hh, Ha, Hg.
    match goal with |- context [if ?b then _ else _] => destruct b end.
    + rewrite (get_set_ne "has_caution" "has_mark"), (has_set_ne "has_caution" "has_mark")
        by (vm_compute; reflexivity).
      rewrite get_set_eq, has_set, String.eqb_refl.
      split; [apply orb_true_r|reflexivity].
    + rewrite get_set_eq, has_set, String.eqb_refl.
      split; [apply orb_true_r|reflexivity].
  - intros Ha.
    destruct (finaliser_keeps "has_caution" (process_marks_and_caution d7))
      as [-> ->]; [vm_compute; reflexivity|vm_compute; reflexivity|].
    assert (Hm : mem "caution" derived_labels = false) by (vm_compute; reflexivity).
    destruct (U7 "caution" Hm) as [Hg Hh].
    unfold process_marks_and_caution. cbv zeta.
    destruct (has_column "Scars and Marks" d7).
    + rewrite (has_set_ne "has_mark" "caution"), Hh, Ha, (get_set_ne "has_mark" "caution"), Hg
        by (vm_compute; reflexivity).
      rewrite get_set_eq, has_set, String.eqb_refl.
      split; [apply orb_true_r|reflexivity].
    + rewrite Hh, Ha, Hg, get_set_eq, has_set, String.eqb_refl.
      split; [apply orb_true_r|reflexivity].
  - intros Ha.
    destruct (finaliser_keeps "occupation_category" (process_marks_and_caution d7))
      as [-> ->]; [vm_compute; reflexivity|vm_compute; reflexivity|].
    assert (Hm : mem "occupation_category" labels_after_occupations = false)
      by (vm_compute; reflexivity).
    destruct (late_stages_untouched _ _ H7 "occupation_category" Hm) as [-> ->].
    assert (Ho : mem "Occupation" (["alias_count"] ++ dates_written)%list = false)
      by (vm_compute; reflexivity).
    assert (U2 : untouched (["alias_count"] ++ dates_written)%list df d2).
    { eapply untouched_trans.
      - apply (untouched_weaken _ _ _ _ (process_aliases_untouched df)).
        intros m Hm'. rewrite mem_app in Hm'. now apply orb_false_iff in Hm' as [? _].
      - apply (untouched_weaken _ _ _ _ (process_dates_and_ages_untouched _ _ H2)).
        intros m Hm'. rewrite mem_app in Hm'. now apply orb_false_iff in Hm' as [_ ?]. }
    destruct (U2 "Occupation" Ho) as [Hg Hh].
    unfold process_occupations. rewrite Hh, Ha, Hg, get_set_eq, has_set, String.eqb_refl.
    split; [apply orb_true_r|reflexivity].
  - intros c. split; [apply count_aliases_nonneg|apply categorize_occupation_in_set].
  - intros c Hc. unfold count_aliases, detect_scars_marks, detect_dollar_amounts,
      categorize_occupation. rewrite Hc. auto.
Qed.

Lemma derived_fields_total_with_source_witness :
  has_column "alias_count" sample_clean = true /\
  get_column "alias_count" sample_clean
  = map (fun c => Int (count_aliases c)) (get_column "alias" sample_frame).
Proof.
  apply (proj1 (derived_fields_total_with_source sample_frame sample_clean
                  ltac:(vm_compute; reflexivity))).
  vm_compute. reflexivity.
Defined.

Lemma keyword_loop_has_keyword text kws :
  keyword_loop text kws = has_keyword text kws.
Proof.
  unfold has_keyword. induction kws as [|kw kws IH]; cbn; [reflexivity|].
  rewrite IH. now destruct (Py.contains _ _).
Qed.

Lemma category_loop_first_match text items :
  category_loop text items
  = match first_matching_category text items with
    | Some c => c
    | None => "Other"
    end.
Proof.
  unfold first_matching_category.
  induction items as [|[cat kws] items IH]; [reflexivity|].
  cbn [category_loop find snd]. rewrite keyword_loop_has_keyword.
  destruct (has_keyword text kws); [reflexivity|exact IH].
Qed.

Lemma isspace_lower_char c : Py.isspace (Py.lower_char c) = Py.isspace c.
Proof. destruct c as [[] [] [] [] [] [] [] []]; vm_compute; reflexivity. Qed.

Lemma lstrip_nil l : Py.lstrip_chars l = [] -> forallb Py.isspace l = true.
Proof.
  induction l as [|c l IH]; cbn; [reflexivity|].
  destruct (Py.isspace c); [exact IH|discriminate].
Qed.

Lemma lstrip_head l c t : Py.lstrip_chars l = c :: t -> Py.isspace c = false.
Proof.
  induction l as [|x l IH]; cbn; [discriminate|].
  destruct (Py.isspace x) eqn:E; [exact IH|]. now intros [= <- _].
Qed.

Lemma truthy_str l : Py.truthy (Py.str l) = match l with [] => false | _ => true end.
Proof. now destruct l. Qed.

(** A text whose stripped form is empty has only blanks. *)
Lemma blank_all_space s :
  Py.truthy (Py.strip s) = false -> forallb Py.isspace (Py.chars s) = true.
Proof.
  unfold Py.strip. rewrite truthy_str.
  destruct (rev _) as [|c t] eqn:E; [intros _|discriminate].
  apply (f_equal (@rev ascii)) in E. rewrite rev_involutive in E. cbn in E.
  apply lstrip_nil in E. rewrite forallb_rev in E.
  destruct (Py.lstrip_chars (Py.chars s)) as [|c t] eqn:E2; [now apply lstrip_nil|].
  apply lstrip_head in E2. cbn in E. rewrite E2 in E. discriminate.
Qed.

Lemma is_prefix_In p : forall l c, Py.is_prefix p l = true -> In c p -> In c l.
Proof.
  induction p as [|a p IH]; intros l c H Hc; [contradiction|].
  destruct l as [|b l]; cbn in H; [discriminate|].
  apply andb_prop in H as [H1 H2]. apply Ascii.eqb_eq in H1. subst b.
  destruct Hc as [<-|Hc]; [now left|right; eauto].
Qed.

Lemma contains_chars_In sub : forall l c,
  Py.contains_chars sub l = true -> In c sub -> In c l.
Proof.
  induction l as [|b l IH]; intros c H Hc.
  - cbn in H. rewrite orb_false_r in H. eauto using is_prefix_In.
  - cbn [Py.contains_chars] in H. apply orb_prop in H as [H|H].
    + eauto using is_prefix_In.
    + right. eauto.
Qed.

(** A text in which a keyword with a visible character occurs is not blank. *)
Lemma has_keyword_not_blank s kws :
  forallb (fun kw => existsb nonspace (Py.chars (Py.lower kw))) kws = true ->
  has_keyword (Py.lower s) kws = true ->
  absent_or_blank (Str s) = false.
Proof.
  intros Hv Hk. unfold has_keyword in Hk.
  apply existsb_exists in Hk as (kw & Hin & Hc).
  apply (proj1 (forallb_forall _ _) Hv) in Hin.
  apply existsb_exists in Hin as (c & Hcin & Hns).
  unfold Py.contains in Hc. eapply contains_chars_In in Hc; [|exact Hcin].
  unfold Py.lower in Hc at 1. rewrite chars_str in Hc.
  apply in_map_iff in Hc as (x & Hx & Hxin).
  unfold absent_or_blank. cbn [isna py_str orb].
  destruct (Py.truthy (Py.strip s)) eqn:E; [reflexivity|].
  apply blank_all_space in E.
  apply (proj1 (forallb_forall _ _) E) in Hxin.
  unfold nonspace in Hns. rewrite <- Hx, isspace_lower_char, Hxin in Hns. discriminate.
Qed.

(** C6: the occupation classifier gives "Unknown" on an absent or blank
    text; otherwise the first category of the table one of whose keywords
    occurs in the text, case ignored, and "Other" when none does.  A text
    with a Military/Intelligence keyword and an IT/Technology keyword gets
    Military/Intelligence, the earlier of the two in the table. *)
Theorem categorize_occupation_first_category :
  (forall text, absent_or_blank text = true ->
     categorize_occupation text = "Unknown") /\
  (forall text, absent_or_blank text = false ->
     categorize_occupation text
     = match first_matching_category (Py.lower (py_str text)) OCCUPATION_KEYWORDS with
       | Some category => category
       | None => "Other"
       end) /\
  (forall s,
     has_keyword (Py.lower s) (keywords_of "Military/Intelligence") = true ->
     has_keyword (Py.lower s) (keywords_of "IT/Technology") = true ->
     categorize_occupation (Str s) = "Military/Intelligence").
Proof.
  split; [|split].
  - intros text H. unfold categorize_occupation. now rewrite H.
  - intros text H. unfold categorize_occupation. rewrite H.
    apply category_loop_first_match.
  - intros s Hm _. unfold categorize_occupation.
    assert (Hv : forallb (fun kw => existsb nonspace (Py.chars (Py.lower kw)))
                   (keywords_of "Military/Intelligence") = true)
      by (vm_compute; reflexivity).
    rewrite (has_keyword_not_blank s _ Hv Hm).
    rewrite category_loop_first_match. cbn [py_str].
    assert (Ht : exists rest, OCCUPATION_KEYWORDS
               = ("Military/Intelligence", keywords_of "Military/Intelligence") :: rest)
      by (eexists; reflexivity).
    destruct Ht as (rest & ->). unfold first_matching_category.
    cbn [find snd]. rewrite Hm. reflexivity.
Qed.

Lemma categorize_occupation_first_category_witness :
  categorize_occupation (Str "Military software Engineer") = "Military/Intelligence".
Proof.
  apply (proj2 (proj2 categorize_occupation_first_category));
    vm_compute; reflexivity.
Defined.

(** ** Lists of distinct labels *)


Lemma distinct_app_intro a : forall b,
  distinct a = true -> distinct b = true ->
  (forall x, mem x a = true -> mem x b = false) -> distinct (a ++ b) = true.
Proof.
  induction a as [|y a IH]; intros b Ha Hb Hab; cbn [app distinct] in *; [assumption|].
  apply andb_prop in Ha as [H1 H2]. apply negb_true_iff in H1.
  rewrite mem_app, H1, (Hab y), IH; auto.
  - intros x Hx. apply Hab. change (mem x (y :: a)) with (String.eqb x y || mem x a).
    rewrite Hx. apply orb_true_r.
  - change (mem y (y :: a)) with (String.eqb y y || mem y a). now rewrite String.eqb_refl.
Qed.


(** ** append_missing *)






(** ** Selecting the columns of a frame *)








(** ** Renaming *)






(** ** What a cleaned record set no longer has *)






(** ** The finaliser on a frame already in final form *)







(* ====================================================================== *)
(** * Further properties of the parsers *)

Lemma bind_ok {A B} (r : result A) (f : A -> result B) y :
  bind r f = Ok y -> exists a, r = Ok a /\ f a = Ok y.
Proof. destruct r as [a|]; cbn; [eauto|discriminate]. Qed.


(** [compute_age] gives nothing exactly when the reference date is before
    the birth date; otherwise the difference of the years, less one when the
    birthday of the reference year is still to come. *)
Theorem compute_age_absent_iff_future b r :
  (compute_age (Some b) r = None <-> date_ltb r b = true) /\
  (date_ltb r b = false ->
   compute_age (Some b) r
   = Some (year r - year b
           - (if pair_ltb (month r) (day r) (month b) (day b) then 1 else 0))).
Proof.
  unfold compute_age, date_ltb, pair_ltb. cbv zeta.
  destruct (Z.ltb_spec (year r) (year b)), (Z.eqb_spec (year r) (year b)),
    (Z.ltb_spec (month r) (month b)), (Z.eqb_spec (month r) (month b)),
    (Z.ltb_spec (day r) (day b)); cbn [orb andb];
  match goal with |- context [Z.leb 0 ?y] => destruct (Z.leb_spec 0 y) end;
  (split; [split|]); intros; try discriminate; try reflexivity; try lia;
  f_equal; lia.
Qed.

Lemma compute_age_absent_iff_future_witness :
  compute_age (Some (Date 1961 4 13)) TODAY = Some 64.
Proof.
  apply (proj2 (compute_age_absent_iff_future (Date 1961 4 13) TODAY)).
  vm_compute. reflexivity.
Defined.

(** On the n-th anniversary of the birth date the age is n, and on the day
    before it the age is still n - 1. *)
Theorem compute_age_on_birthday b n :
  0 <= n ->
  compute_age (Some b) (Date (year b + n) (month b) (day b)) = Some n /\
  (1 <= n ->
   compute_age (Some b) (Date (year b + n) (month b) (day b - 1)) = Some (n - 1)).
Proof.
  intros Hn. unfold compute_age, pair_ltb. cbn [year month day].
  rewrite !Z.ltb_irrefl, Z.eqb_refl. cbn [orb andb].
  replace (year b + n - year b) with n by lia.
  split.
  - destruct (Z.leb_spec 0 n); [reflexivity|lia].
  - intros H1. replace (Z.ltb (day b - 1) (day b)) with true by (symmetry; apply Z.ltb_lt; lia).
    destruct (Z.leb_spec 0 (n - 1)); [reflexivity|lia].
Qed.

Lemma compute_age_on_birthday_witness :
  compute_age (Some (Date 1961 4 13)) (Date (1961 + 64) 4 13) = Some 64.
Proof. apply (proj1 (compute_age_on_birthday (Date 1961 4 13) 64 ltac:(lia))). Defined.

(** [parse_height_to_cm] raises in its feet-and-inches rule only, and two
    faults only: the ValueError of [int] when the feet count, the first
    group of the match, has more than 4300 digits, and the OverflowError of
    [int * float] when a shorter count is too large for a float.  The four
    other rules never raise. *)
Theorem parse_height_faults :
  (forall h e, parse_height_to_cm h = Raise e ->
     e = ValueError \/ e = OverflowError) /\
  (forall s e, height_ft_in_rule s = Raise e ->
     exists m w,
       (Re.search re_ft_in s = Some m \/ Re.search re_ft_in_quote s = Some m) /\
       Re.group m 1 = Some (Py.str w) /\ forallb Py.isdigit w = true /\
       ((e = ValueError /\ (Py.int_max_str_digits < List.length w)%nat) \/
        (e = OverflowError /\ (List.length w <= Py.int_max_str_digits)%nat))) /\
  (forall s, exists o, height_cm_rule s = Ok o) /\
  (forall s, exists o, height_m_rule s = Ok o) /\
  (forall s, exists o, height_in_rule s = Ok o) /\
  (forall s, exists o, height_num_rule s = Ok o) /\
  parse_height_to_cm (Str huge_feet) = Raise OverflowError /\
  parse_height_to_cm (Str endless_feet) = Raise ValueError.
Proof.
  split; [exact parse_height_raises|].
  split; [exact height_ft_in_rule_fault|].
  split; [exact height_cm_rule_ok|].
  split; [exact height_m_rule_ok|].
  split; [exact height_in_rule_ok|].
  split; [exact height_num_rule_ok|].
  split; vm_compute; reflexivity.
Qed.

Lemma parse_height_faults_witness :
  OverflowError = ValueError \/ OverflowError = OverflowError.
Proof.
  apply (proj1 parse_height_faults (Str huge_feet)). vm_compute. reflexivity.
Defined.

(** ** A fault of the height parser leaves the pipeline *)




(** ** Rounding keeps a value between two bounds with one decimal *)

Lemma round_half_even_ge x a :
  (inject_Z a <= x)%Q -> a <= Py.round_half_even x.
Proof.
  intros H. unfold Py.round_half_even.
  assert (Hf : a <= Qfloor x).
  { rewrite <- (Qfloor_Z a). now apply Qfloor_resp_le. }
  destruct (Qcompare _ _); [destruct (Z.even _)| |]; lia.
Qed.

Lemma round_half_even_le x b :
  (x <= inject_Z b)%Q -> Py.round_half_even x <= b.
Proof.
  intros H. unfold Py.round_half_even.
  pose proof (Qfloor_le x) as Hf.
  assert (Hfb : Qfloor x <= b).
  { rewrite Zle_Qle. lra. }
  destruct (Qcompare (x - inject_Z (Qfloor x)) (1 # 2)) eqn:E; [| lia |].
  - apply Qeq_alt in E.
    assert (Qfloor x < b).
    { destruct (Z.eq_dec (Qfloor x) b) as [Eb|]; [|lia]. rewrite Eb in E. lra. }
    destruct (Z.even _); lia.
  - apply Qgt_alt in E.
    assert (Qfloor x < b).
    { destruct (Z.eq_dec (Qfloor x) b) as [Eb|]; [|lia]. rewrite Eb in E. lra. }
    lia.
Qed.

Lemma round1_between a b q :
  (inject_Z a <= q * 10)%Q -> (q * 10 <= inject_Z b)%Q ->
  (a # 10 <= Py.round1 q)%Q /\ (Py.round1 q <= b # 10)%Q.
Proof.
  intros Ha Hb. unfold Py.round1.
  pose proof (round_half_even_ge _ _ Ha). pose proof (round_half_even_le _ _ Hb).
  unfold Qle; cbn [Qnum Qden]. lia.
Qed.

Lemma Qbetween_iff lo x hi :
  Qbetween lo x hi = true -> (lo <= x)%Q /\ (x <= hi)%Q.
Proof.
  unfold Qbetween. intros H. apply andb_prop in H as [H1 H2].
  split; now apply Qle_bool_iff.
Qed.

(** The two rules of the height parser that check a range give a plausible
    height: between 130 and 250 cm for the metre rule, between 127 and
    250 cm for a bare number. *)
Theorem height_ranged_rules_bounds s v :
  (height_m_rule s = Ok (Some v) -> (130 <= v)%Q /\ (v <= 250)%Q) /\
  (height_num_rule s = Ok (Some v) -> (127 <= v)%Q /\ (v <= 250)%Q).
Proof.
  split.
  - unfold height_m_rule. destruct (Re.search _ _) as [m|]; [|discriminate].
    intros H. apply bind_ok in H as (val & _ & H).
    destruct (Qbetween _ _ _) eqn:E; [|discriminate]. injection H as <-.
    apply Qbetween_iff in E as [E1 E2].
    destruct (round1_between 1300 2500 (val * 100)) as [R1 R2]; [unfold inject_Z; lra|unfold inject_Z; lra|].
    split; [|lra]. lra.
  - unfold height_num_rule. destruct (Re.search _ _) as [m|]; [|discriminate].
    intros H. apply bind_ok in H as (val & _ & H).
    destruct (Qbetween 50 _ _) eqn:E1.
    { assert (Hv : v = Py.round1 (val * (254 # 100))) by congruence. subst v.
      apply Qbetween_iff in E1 as [? ?].
      destruct (round1_between 1270 2286 (val * (254 # 100))) as [R1 R2]; [unfold inject_Z; lra|unfold inject_Z; lra|].
      split; lra. }
    destruct (Qbetween (14 # 10) _ _) eqn:E2.
    { assert (Hv : v = Py.round1 (val * 100)) by congruence. subst v.
      apply Qbetween_iff in E2 as [? ?].
      destruct (round1_between 1400 2500 (val * 100)) as [R1 R2]; [unfold inject_Z; lra|unfold inject_Z; lra|].
      split; lra. }
    destruct (Qbetween 140 _ _) eqn:E3; [|discriminate].
    assert (Hv : v = Py.round1 val) by congruence. subst v.
    apply Qbetween_iff in E3 as [? ?].
    destruct (round1_between 1400 2300 val) as [R1 R2]; [unfold inject_Z; lra|unfold inject_Z; lra|].
    split; lra.
Qed.

Lemma height_ranged_rules_bounds_witness :
  (127 <= 1778 # 10)%Q /\ (1778 # 10 <= 250)%Q.
Proof.
  apply (proj2 (height_ranged_rules_bounds "70" (1778 # 10))).
  vm_compute. reflexivity.
Defined.

(** ** Weights *)

Lemma map_result_forall {A B} (P : B -> Prop) (f : A -> result B) l :
  (forall x y, f x = Ok y -> P y) ->
  forall ys, map_result f l = Ok ys -> Forall P ys.
Proof.
  intros Hf. induction l as [|x l IH]; cbn [map_result]; intros ys H.
  - injection H as <-. constructor.
  - apply bind_ok in H as (y & Hy & H). apply bind_ok in H as (zs & Hzs & H).
    injection H as <-. constructor; eauto.
Qed.

Lemma fold_left_pick (P : Q -> Prop) (f : Q -> Q -> Q) l :
  (forall a b, P a -> P b -> P (f a b)) ->
  forall x, P x -> Forall P l -> P (fold_left f l x).
Proof.
  intros Hf. induction l as [|y l IH]; intros x Hx Hl; cbn; [assumption|].
  inversion Hl; subst. apply IH; auto.
Qed.

(** [parse_weight_to_kg] never raises, and a weight is never negative. *)
Theorem parse_weight_total_nonneg w :
  (exists o, parse_weight_to_kg w = Ok o) /\
  (forall v, parse_weight_to_kg w = Ok (Some v) -> (0 <= v)%Q).
Proof.
  split; [apply parse_weight_ok|].
  unfold parse_weight_to_kg. destruct (absent_or_blank w); [discriminate|].
  set (s := Py.lower (py_str w)).
  assert (Hfl : forall l vals, map_result Py.float l = Ok vals ->
                  Forall (fun q => (0 <= q)%Q) vals).
  { intros l. apply map_result_forall. intros x y. apply float_nonneg. }
  intros v. destruct (Re.findall re_kg s) as [|g gs].
  - destruct (Re.findall re_number s) as [|g gs]; [discriminate|].
    intros H. apply bind_ok in H as (vals & Hv & H). apply Hfl in Hv.
    destruct vals as [|v0 rest]; [discriminate|]. injection H as <-.
    inversion Hv; subst. apply round1_nonneg.
    apply Qmult_le_0_compat; [|discriminate].
    destruct rest as [|v1 rest']; [assumption|].
    assert (Hmin : (0 <= Qmin_list v0 (v1 :: rest'))%Q).
    { unfold Qmin_list. apply (fold_left_pick (fun q => (0 <= q)%Q)); auto.
      intros a b Ha Hb. now destruct (Qle_bool a b). }
    assert (Hmax : (0 <= Qmax_list v0 (v1 :: rest'))%Q).
    { unfold Qmax_list. apply (fold_left_pick (fun q => (0 <= q)%Q)); auto.
      intros a b Ha Hb. now destruct (Qle_bool b a). }
    cbv beta iota. revert Hmin Hmax.
    generalize (Qmin_list v0 (v1 :: rest')) (Qmax_list v0 (v1 :: rest')).
    intros a b Ha Hb. unfold Qdiv. apply Qmult_le_0_compat.
    + pose proof (Qplus_le_compat _ _ _ _ Ha Hb) as Hab.
      now rewrite Qplus_0_l in Hab.
    + discriminate.
  - intros H. apply bind_ok in H as (vals & Hv & H). apply Hfl in Hv.
    injection H as <-. apply round1_nonneg.
    unfold Qdiv. apply Qmult_le_0_compat.
    + unfold Qsum. apply (fold_left_pick (fun q => (0 <= q)%Q)); auto;
        [|discriminate].
      intros a b Ha Hb. pose proof (Qplus_le_compat _ _ _ _ Ha Hb) as Hab.
      now rewrite Qplus_0_l in Hab.
    + apply Qinv_le_0_compat. unfold Qle; cbn. lia.
Qed.

Lemma parse_weight_total_nonneg_witness : (0 <= 726 # 10)%Q.
Proof.
  apply (proj2 (parse_weight_total_nonneg (Str "160 lbs"))).
  vm_compute. reflexivity.
Defined.

(** ** Languages *)

(** The slots of [split_languages] are filled from the first on, without a
    gap; a slot that is filled holds a text that is not empty; and an absent
    or blank text fills none. *)
Theorem split_languages_slots text l1 l2 l3 :
  split_languages text = (l1, l2, l3) ->
  (l3 <> None -> l2 <> None) /\
  (l2 <> None -> l1 <> None) /\
  (forall s, In (Some s) [l1; l2; l3] -> Py.truthy s = true) /\
  (absent_or_blank text = true -> l1 = None /\ l2 = None /\ l3 = None).
Proof.
  unfold split_languages. destruct (absent_or_blank text).
  { intros [= <- <- <-]. repeat split; try congruence.
    intros s [H|[H|[H|[]]]]; discriminate. }
  cbv zeta.
  set (ls := map Py.strip (List.filter _ _)).
  assert (Hne : forall s, In s ls -> Py.truthy s = true).
  { intros s Hs. unfold ls in Hs. apply in_map_iff in Hs as (p & <- & Hp).
    now apply filter_In in Hp as [_ Hp]. }
  intros [= <- <- <-]. repeat split.
  - destruct ls as [|a [|b [|c r]]]; cbn; congruence.
  - destruct ls as [|a [|b r]]; cbn; congruence.
  - intros s [H|[H|[H|[]]]];
      [apply (nth_error_In ls 0) in H|apply (nth_error_In ls 1) in H
      |apply (nth_error_In ls 2) in H]; auto.
  - discriminate.
  - discriminate.
  - discriminate.
Qed.

Lemma split_languages_slots_witness : Py.truthy "Spanish" = true.
Proof.
  refine (proj1 (proj2 (proj2
            (split_languages_slots (Str "English, Spanish and French; Dutch")
               (Some "English") (Some "Spanish") (Some "French") _)))
            "Spanish" _).
  - vm_compute. reflexivity.
  - right. left. reflexivity.
Defined.

(** ** A derived column needs its source column *)

Ltac weaken_before_marks H :=
  apply (untouched_weaken _ _ _ _ H);
  let m := fresh "m" in let Hm := fresh "Hm" in
  intros m Hm;
  unfold mem, labels_before_marks, dates_written, dob_labels in *;
  cbn [app existsb] in *;
  repeat match goal with
  | H : _ || _ = false |- _ => apply orb_false_iff in H as [? ?]
  end;
  repeat match goal with H : _ = false |- _ => rewrite H; clear H end; reflexivity.

Lemma before_marks_written df d2 d7 :
  process_dates_and_ages (process_aliases df) = Ok d2 ->
  process_physical_measurements
    (process_hair_color (process_languages (process_birth_places
       (process_occupations d2)))) = Ok d7 ->
  untouched labels_before_marks df d7.
Proof.
  intros H2 H7.
  apply process_dates_and_ages_untouched in H2.
  apply process_physical_measurements_untouched in H7.
  eapply untouched_trans; [weaken_before_marks (process_aliases_untouched df)|].
  eapply untouched_trans; [weaken_before_marks H2|].
  eapply untouched_trans; [weaken_before_marks (process_occupations_untouched d2)|].
  eapply untouched_trans;
    [weaken_before_marks (process_birth_places_untouched (process_occupations d2))|].
  eapply untouched_trans; [weaken_before_marks (process_languages_untouched
     (process_birth_places (process_occupations d2)))|].
  eapply untouched_trans; [weaken_before_marks (process_hair_color_untouched
     (process_languages (process_birth_places (process_occupations d2))))|].
  weaken_before_marks H7.
Qed.

(** When the record set lacks the source column, the stage that derives from
    it does nothing: the cleaned record set has the derived column only if
    the input already had one under that label, with the same cells. *)
Theorem derived_fields_need_source df out :
  clean_dataframe df = Ok out ->
  (has_column "alias" df = false ->
     has_column "alias_count" out = has_column "alias_count" df /\
     get_column "alias_count" out = get_column "alias_count" df) /\
  (has_column "Scars and Marks" df = false ->
     has_column "has_mark" out = has_column "has_mark" df /\
     get_column "has_mark" out = get_column "has_mark" df) /\
  (has_column "caution" df = false ->
     has_column "has_caution" out = has_column "has_caution" df /\
     get_column "has_caution" out = get_column "has_caution" df) /\
  (has_column "Occupation" df = false ->
     has_column "occupation_category" out = has_column "occupation_category" df /\
     get_column "occupation_category" out = get_column "occupation_category" df).
Proof.
  intros H. apply clean_dataframe_stages in H as (d2 & d7 & H2 & H7 & ->).
  pose proof (before_marks_written _ _ _ H2 H7) as U7.
  assert (U2 : untouched (["alias_count"] ++ dates_written)%list df d2).
  { eapply untouched_trans.
    - apply (untouched_weaken _ _ _ _ (process_aliases_untouched df)).
      intros m Hm'. rewrite mem_app in Hm'. now apply orb_false_iff in Hm' as [? _].
    - apply (untouched_weaken _ _ _ _ (process_dates_and_ages_untouched _ _ H2)).
      intros m Hm'. rewrite mem_app in Hm'. now apply orb_false_iff in Hm' as [_ ?]. }
  repeat apply conj.
  - intros Ha.
    destruct (finaliser_keeps "alias_count" (process_marks_and_caution d7))
      as [-> ->]; [vm_compute; reflexivity|vm_compute; reflexivity|].
    assert (Hm : mem "alias_count" labels_after_aliases = false) by (vm_compute; reflexivity).
    destruct (after_aliases_untouched _ _ _ H2 H7 "alias_count" Hm) as [-> ->].
    unfold process_aliases. rewrite Ha. split; reflexivity.
  - intros Ha.
    destruct (finaliser_keeps "has_mark" (process_marks_and_caution d7))
      as [-> ->]; [vm_compute; reflexivity|vm_compute; reflexivity|].
    assert (Hs : mem "Scars and Marks" labels_before_marks = false) by (vm_compute; reflexivity).
    assert (Hm : mem "has_mark" labels_before_marks = false) by (vm_compute; reflexivity).
    destruct (U7 "Scars and Marks" Hs) as [_ Hh].
    destruct (U7 "has_mark" Hm) as [Hg' Hh'].
    unfold process_marks_and_caution. cbv zeta. rewrite Hh, Ha.
    destruct (has_column "caution" d7).
    + rewrite (get_set_ne "has_caution" "has_mark"), (has_set_ne "has_caution" "has_mark")
        by (vm_compute; reflexivity).
      now rewrite Hg', Hh'.
    + now rewrite Hg', Hh'.
  - intros Ha.
    destruct (finaliser_keeps "has_caution" (process_marks_and_caution d7))
      as [-> ->]; [vm_compute; reflexivity|vm_compute; reflexivity|].
    assert (Hs : mem "caution" labels_before_marks = false) by (vm_compute; reflexivity).
    assert (Hm : mem "has_caution" labels_before_marks = false) by (vm_compute; reflexivity).
    destruct (U7 "caution" Hs) as [_ Hh].
    destruct (U7 "has_caution" Hm) as [Hg' Hh'].
    unfold process_marks_and_caution. cbv zeta.
    destruct (has_column "Scars and Marks" d7).
    + rewrite (has_set_ne "has_mark" "caution") by (vm_compute; reflexivity).
      rewrite Hh, Ha.
      rewrite (get_set_ne "has_mark" "has_caution"), (has_set_ne "has_mark" "has_caution")
        by (vm_compute; reflexivity).
      now rewrite Hg', Hh'.
    + rewrite Hh, Ha. now rewrite Hg', Hh'.
  - intros Ha.
    destruct (finaliser_keeps "occupation_category" (process_marks_and_caution d7))
      as [-> ->]; [vm_compute; reflexivity|vm_compute; reflexivity|].
    assert (Hm : mem "occupation_category" labels_after_occupations = false)
      by (vm_compute; reflexivity).
    destruct (late_stages_untouched _ _ H7 "occupation_category" Hm) as [-> ->].
    assert (Ho : mem "Occupation" (["alias_count"] ++ dates_written)%list = false)
      by (vm_compute; reflexivity).
    assert (Hc : mem "occupation_category" (["alias_count"] ++ dates_written)%list = false)
      by (vm_compute; reflexivity).
    destruct (U2 "Occupation" Ho) as [_ Hh].
    destruct (U2 "occupation_category" Hc) as [Hg' Hh'].
    unfold process_occupations. rewrite Hh, Ha. now rewrite Hg', Hh'.
Qed.

Lemma derived_fields_need_source_witness :
  has_column "alias_count" preset_clean = true /\
  get_column "alias_count" preset_clean = [Int 7].
Proof.
  apply (proj1 (derived_fields_need_source preset_frame preset_clean
                  ltac:(vm_compute; reflexivity))).
  vm_compute. reflexivity.
Defined.

(** ** The signs as intervals of the year *)

Lemma in_range_within mo dy sm sd em ed sign :
  em = sm + 1 ->
  in_range mo dy (Some (sm, sd)) (Some (em, ed))
  = Some (within mo dy (Some (sm, sd), Some (em, ed), sign)).
Proof.
  intros ->. unfold in_range, within, pair_leb.
  destruct (Z.eqb_spec mo sm), (Z.eqb_spec sm mo), (Z.eqb_spec mo (sm + 1)),
    (Z.ltb_spec sm mo), (Z.ltb_spec mo (sm + 1)),
    (Z.leb_spec sd dy), (Z.leb_spec dy ed); cbn; try reflexivity; lia.
Qed.

Lemma zodiac_loop_find mo dy ranges :
  Forall (fun r => match r with
                   | (Some (sm, _), Some (em, _), _) => em = sm + 1
                   | (Some _, None, _) => False
                   | (None, _, _) => True
                   end) ranges ->
  zodiac_loop mo dy ranges = Ok (option_map snd (find (within mo dy) ranges)).
Proof.
  induction 1 as [|[[start stop] sign] ranges Hr _ IH]; cbn [zodiac_loop find];
    [reflexivity|].
  destruct start as [[sm sd]|].
  - destruct stop as [[em ed]|]; [|contradiction].
    rewrite (in_range_within mo dy sm sd em ed sign Hr).
    destruct (within _ _ _); [reflexivity|exact IH].
  - destruct stop as [[em ed]|]; reflexivity.
Qed.

Ltac to_arith :=
  unfold within, pair_leb in *;
  repeat match goal with
  | H : _ && _ = true |- _ => apply andb_true_iff in H as [? ?]
  | H : _ || _ = true |- _ => apply orb_true_iff in H
  | H : (_ <? _)%Z = true \/ _ |- _ => rewrite Z.ltb_lt in H
  | H : _ \/ _ && _ = true |- _ => rewrite andb_true_iff in H
  | H : _ \/ (_ =? _)%Z = true /\ _ |- _ => rewrite Z.eqb_eq in H
  | H : _ \/ _ /\ (_ <=? _)%Z = true |- _ => rewrite Z.leb_le in H
  end.

(** [zodiac_sign] tests the month of a range's start and the month of its
    end separately; since every range of the table ends in the month after
    the one it starts in, the sign it gives is that of the first range that
    contains the day, from its start to its end.  The ranges do not overlap,
    so a day that lies in a range of the table has the sign of that
    range. *)
Theorem zodiac_sign_by_interval :
  (forall d, zodiac_sign (Some d) = Ok (sign_of_day (month d) (day d))) /\
  (forall d start stop sign,
     In (Some start, Some stop, sign) zodiac_ranges ->
     within (month d) (day d) (Some start, Some stop, sign) = true ->
     zodiac_sign (Some d) = Ok (Some sign)).
Proof.
  assert (H : forall d, zodiac_sign (Some d) = Ok (sign_of_day (month d) (day d))).
  { intros d. unfold zodiac_sign, sign_of_day. apply zodiac_loop_find.
    unfold zodiac_ranges. repeat constructor. }
  split; [exact H|].
  intros d start stop sign Hin Hw. rewrite H. unfold sign_of_day.
  clear H. revert Hw. generalize (day d) (month d). intros dy mo Hw.
  unfold zodiac_ranges in *. cbn [In] in Hin.
  repeat match type of Hin with
  | _ \/ _ => destruct Hin as [Hin|Hin]
  end; try contradiction; try discriminate;
  injection Hin as <- <- <-; cbn [find];
  repeat match goal with
  | |- context [if within mo dy ?r then _ else _] =>
    let E := fresh "E" in
    destruct (within mo dy r) eqn:E; [try reflexivity; exfalso; to_arith; lia|]
  end; discriminate.
Qed.

Lemma zodiac_sign_by_interval_witness :
  zodiac_sign (Some (Date 1961 4 13)) = Ok (Some "Aries").
Proof.
  apply (proj2 zodiac_sign_by_interval (Date 1961 4 13) (3, 21) (4, 19) "Aries").
  - right. right. left. reflexivity.
  - vm_compute. reflexivity.
Defined.

(* ====================================================================== *)
(** * The listing URLs and the category of a profile URL *)

Lemma chars_app a b : Py.chars (a ++ b) = (Py.chars a ++ Py.chars b)%list.
Proof.
  unfold Py.chars. induction a as [|c a IH]; [reflexivity|].
  change (String c a ++ b) with (String c (a ++ b)).
  cbn [list_ascii_of_string app]. now rewrite IH.
Qed.

Lemma split_on_nonempty sep l : split_on sep l <> [].
Proof.
  destruct l as [|c l]; cbn; [discriminate|].
  destruct (Ascii.eqb c sep); [discriminate|].
  destruct (split_on sep l); discriminate.
Qed.

(** Splitting around one more separator. *)
Lemma split_on_app sep a b :
  split_on sep (a ++ sep :: b) = (split_on sep a ++ split_on sep b)%list.
Proof.
  induction a as [|c a IH]; cbn.
  - now rewrite Ascii.eqb_refl.
  - destruct (Ascii.eqb c sep); [now rewrite IH|].
    rewrite IH. destruct (split_on sep a) eqn:E; [|reflexivity].
    now apply split_on_nonempty in E.
Qed.

Lemma split_on_none sep l :
  existsb (fun c => Ascii.eqb c sep) l = false -> split_on sep l = [l].
Proof.
  induction l as [|c l IH]; cbn; [reflexivity|]. intros H.
  apply orb_false_iff in H as [Hc Hl]. now rewrite Hc, (IH Hl).
Qed.

(** No piece of a split holds the separator. *)
Lemma split_on_pieces sep l p :
  In p (split_on sep l) -> existsb (fun c => Ascii.eqb c sep) p = false.
Proof.
  revert p. induction l as [|c l IH]; cbn; intros p H.
  - destruct H as [<-|[]]. reflexivity.
  - destruct (Ascii.eqb c sep) eqn:E.
    + destruct H as [<-|H]; [reflexivity|auto].
    + destruct (split_on sep l) as [|q qs].
      * destruct H as [<-|[]]. cbn. now rewrite E.
      * destruct H as [<-|H]; [|apply IH; now right].
        cbn. rewrite E. apply IH. now left.
Qed.

Lemma list_index_app x a b :
  existsb (String.eqb x) a = false ->
  list_index x (a ++ x :: b) = Some (List.length a).
Proof.
  induction a as [|y a IH]; cbn; intros H.
  - now rewrite String.eqb_refl.
  - apply orb_false_iff in H as [Hy Ha]. rewrite String.eqb_sym, Hy, (IH Ha).
    reflexivity.
Qed.

(** The element that follows the first "wanted". *)
Lemma after_wanted a cat b :
  existsb (String.eqb "wanted") a = false ->
  (let parts := (a ++ "wanted" :: cat :: b)%list in
   if existsb (String.eqb "wanted") parts then
     match list_index "wanted" parts with
     | Some wanted_index =>
       if (wanted_index + 1 <? List.length parts)%nat
       then nth_error parts (wanted_index + 1)
       else None
     | None => None
     end
   else None) = Some cat.
Proof.
  intros Ha. cbv zeta. rewrite existsb_app. cbn [existsb].
  rewrite String.eqb_refl, Ha. cbn [orb]. rewrite (list_index_app _ _ _ Ha).
  rewrite length_app. cbn [List.length].
  destruct (Nat.ltb_spec (List.length a + 1) (List.length a + S (S (List.length b))));
    [|lia].
  rewrite nth_error_app2 by lia.
  replace (List.length a + 1 - List.length a)%nat with 1%nat by lia. reflexivity.
Qed.

Lemma str_split_app sep a b :
  str_split sep (a ++ String sep b) = (str_split sep a ++ str_split sep b)%list.
Proof.
  unfold str_split. rewrite chars_app. cbn [Py.chars list_ascii_of_string].
  fold (Py.chars b). now rewrite split_on_app, map_app.
Qed.

Lemma str_split_none sep s :
  existsb (fun c => Ascii.eqb c sep) (Py.chars s) = false -> str_split sep s = [s].
Proof.
  intros H. unfold str_split. rewrite (split_on_none _ _ H). cbn.
  now rewrite str_chars.
Qed.

Lemma extract_category_found pre cat rest :
  existsb (String.eqb "wanted") (str_split "/" pre) = false ->
  existsb (fun c => Ascii.eqb c "/") (Py.chars cat) = false ->
  extract_category_from_url (Str (pre ++ "/wanted/" ++ cat)) = Some cat /\
  extract_category_from_url (Str (pre ++ "/wanted/" ++ cat ++ "/" ++ rest))
  = Some cat /\
  extract_category_from_url (Str (pre ++ "/wanted")) = None /\
  extract_category_from_url (Str pre) = None.
Proof.
  intros Hpre Hcat. unfold extract_category_from_url.
  change (pre ++ "/wanted/" ++ cat ++ "/" ++ rest)
    with (pre ++ String "/" ("wanted" ++ String "/" (cat ++ String "/" rest))).
  change (pre ++ "/wanted/" ++ cat)
    with (pre ++ String "/" ("wanted" ++ String "/" cat)).
  change (pre ++ "/wanted") with (pre ++ String "/" "wanted").
  rewrite !str_split_app, (str_split_none "/" cat Hcat).
  change (str_split "/" "wanted") with ["wanted"].
  repeat split.
  - apply (after_wanted _ cat [] Hpre).
  - apply (after_wanted _ cat _ Hpre).
  - rewrite existsb_app. cbn [existsb]. rewrite String.eqb_refl, Hpre.
    cbn [orb].
    change (str_split "/" pre ++ ["wanted"])%list
      with (str_split "/" pre ++ "wanted" :: [])%list.
    rewrite (list_index_app _ _ _ Hpre), length_app. cbn [List.length].
    destruct (Nat.ltb_spec (List.length (str_split "/" pre) + 1)
                (List.length (str_split "/" pre) + 1)); [lia|reflexivity].
  - now rewrite Hpre.
Qed.

(** The category of a profile URL is the path component after the first
    "wanted" component: whatever comes before (without a "wanted" component
    of its own) and after, it is returned whole, with no slash in it; a URL
    that ends with "wanted", or that has no such component, and anything
    that is not a text, give nothing. *)
Theorem extract_category_after_wanted :
  (forall pre cat rest,
     existsb (String.eqb "wanted") (str_split "/" pre) = false ->
     existsb (fun c => Ascii.eqb c "/") (Py.chars cat) = false ->
     extract_category_from_url (Str (pre ++ "/wanted/" ++ cat)) = Some cat /\
     extract_category_from_url (Str (pre ++ "/wanted/" ++ cat ++ "/" ++ rest))
     = Some cat /\
     extract_category_from_url (Str (pre ++ "/wanted")) = None /\
     extract_category_from_url (Str pre) = None) /\
  (forall url cat,
     extract_category_from_url url = Some cat ->
     existsb (fun c => Ascii.eqb c "/") (Py.chars cat) = false) /\
  (forall url, (forall s, url <> Str s) -> extract_category_from_url url = None).
Proof.
  split; [|split].
  - exact extract_category_found.
  - intros [|url| | | |] cat; cbn [extract_category_from_url]; try discriminate.
    cbv zeta. destruct (existsb _ _); [|discriminate].
    destruct (list_index _ _) as [i|]; [|discriminate].
    destruct (Nat.ltb _ _); [|discriminate].
    intros H. apply nth_error_In in H. unfold str_split in H.
    apply in_map_iff in H as (p & <- & Hp). rewrite chars_str.
    exact (split_on_pieces _ _ _ Hp).
  - intros [|s| | | |] H; try reflexivity. now destruct (H s).
Qed.

Lemma extract_category_after_wanted_witness :
  extract_category_from_url (Str "https://www.fbi.gov/wanted/cyber/john-doe")
  = Some "cyber".
Proof.
  apply (proj1 extract_category_after_wanted "https://www.fbi.gov" "cyber" "john-doe").
  - vm_compute. reflexivity.
  - vm_compute. reflexivity.
Defined.

(** ** The pages of the listing *)

Lemma str_of_int_inj a b : Py.str_of_int a = Py.str_of_int b -> a = b.
Proof.
  unfold Py.str_of_int. intros H.
  assert (Hn : forall z, Z.to_int z <> Decimal.Pos Decimal.Nil /\
                         Z.to_int z <> Decimal.Neg Decimal.Nil).
  { intros [|p|p]; cbn; split; try discriminate;
      intros [= E]; now apply DecimalPos.Unsigned.to_uint_nonnil in E. }
  apply DecimalZ.to_int_inj.
  assert (E : Some (Z.to_int a) = Some (Z.to_int b)).
  { rewrite <- (DecimalString.NilZero.isi (Z.to_int a)) by apply Hn.
    rewrite <- (DecimalString.NilZero.isi (Z.to_int b)) by apply Hn.
    now rewrite H. }
  now injection E.
Qed.

Lemma append_inj_r p a b : p ++ a = p ++ b -> a = b.
Proof.
  induction p as [|c p IH]; [auto|].
  change (String c p ++ a) with (String c (p ++ a)).
  change (String c p ++ b) with (String c (p ++ b)). intros [= H]. auto.
Qed.

Lemma length_append a b : String.length (a ++ b) = (String.length a + String.length b)%nat.
Proof.
  induction a as [|c a IH]; [reflexivity|].
  change (String c a ++ b) with (String c (a ++ b)). cbn [String.length].
  now rewrite IH.
Qed.

Lemma page_url_inj a b : page_url a = page_url b -> a = b.
Proof.
  unfold page_url.
  assert (Hd : forall x, first_page_url <> next_page_prefix ++ x).
  { intros x H. apply (f_equal String.length) in H. rewrite length_append in H.
    vm_compute in H. lia. }
  destruct (Z.eqb_spec a 1) as [->|Ha], (Z.eqb_spec b 1) as [->|Hb]; intros H.
  - reflexivity.
  - now apply Hd in H.
  - symmetry in H. now apply Hd in H.
  - apply append_inj_r in H. now apply str_of_int_inj.
Qed.

Lemma range_length a b : List.length (range a b) = Z.to_nat (b - a).
Proof. unfold range. now rewrite length_map, length_seq. Qed.

Lemma range_In a b x : In x (range a b) <-> a <= x < b.
Proof.
  unfold range. rewrite in_map_iff. split.
  - intros (i & <- & Hi). apply in_seq in Hi. lia.
  - intros H. exists (Z.to_nat (x - a)). split; [lia|]. apply in_seq. lia.
Qed.

Lemma NoDup_map_in {A B} (f : A -> B) l :
  (forall x y, In x l -> In y l -> f x = f y -> x = y) ->
  List.NoDup l -> List.NoDup (map f l).
Proof.
  induction l as [|a l IH]; intros Hf Hl; cbn; [constructor|].
  inversion Hl as [|? ? Ha Hl']; subst. constructor.
  - intros H. apply in_map_iff in H as (y & Hy & Hin).
    apply Ha. rewrite <- (Hf y a); auto; [now right|now left].
  - apply IH; [|assumption]. intros x y Hx Hy. apply Hf; now right.
Qed.

Lemma range_NoDup a b : List.NoDup (range a b).
Proof.
  unfold range. apply NoDup_map_in; [|apply List.seq_NoDup].
  intros i j _ _ H. lia.
Qed.

(** The category of a listing page is "fugitives", whatever its number. *)
Lemma page_url_category p :
  extract_category_from_url (Str (page_url p)) = Some "fugitives".
Proof.
  unfold page_url. destruct (p =? 1)%Z; [vm_compute; reflexivity|].
  let r := eval vm_compute in
    (substring 37 (String.length next_page_prefix - 37) next_page_prefix) in
  change (next_page_prefix ++ Py.str_of_int p)
    with ("https://www.fbi.gov" ++ "/wanted/" ++ "fugitives" ++ "/"
          ++ (r ++ Py.str_of_int p)).
  apply extract_category_found; vm_compute; reflexivity.
Qed.

(** [generate_page_urls] gives one URL per page, none for a count that is
    not positive; the first is the bare listing and the page of rank [i]
    carries the number [i + 1]; the URLs are pairwise distinct; and the
    category [extract_category_from_url] reads in each of them is
    "fugitives". *)
Theorem generate_page_urls_pages :
  (forall n, List.length (generate_page_urls n) = Z.to_nat n) /\
  (forall n, n <= 0 -> generate_page_urls n = []) /\
  (forall n i, (i < Z.to_nat n)%nat ->
     nth_error (generate_page_urls n) i = Some (page_url (Z.of_nat i + 1))) /\
  (forall n, 1 <= n -> hd_error (generate_page_urls n) = Some first_page_url) /\
  (forall n, List.NoDup (generate_page_urls n)) /\
  (forall n url, In url (generate_page_urls n) ->
     extract_category_from_url (Str url) = Some "fugitives").
Proof.
  assert (Hnth : forall n i, (i < Z.to_nat n)%nat ->
     nth_error (generate_page_urls n) i = Some (page_url (Z.of_nat i + 1))).
  { intros n i Hi. unfold generate_page_urls, range.
    rewrite !nth_error_map, nth_error_seq. replace (n + 1 - 1) with n by lia.
    destruct (Nat.ltb_spec i (Z.to_nat n)) as [_|]; [|lia].
    cbn [option_map]. do 2 f_equal. lia. }
  repeat split.
  - intros n. unfold generate_page_urls. rewrite length_map, range_length.
    f_equal. lia.
  - intros n Hn. unfold generate_page_urls, range.
    replace (Z.to_nat (n + 1 - 1)) with O by lia. reflexivity.
  - exact Hnth.
  - intros n Hn. specialize (Hnth n O ltac:(lia)).
    destruct (generate_page_urls n); [discriminate|exact Hnth].
  - intros n. unfold generate_page_urls.
    apply NoDup_map_in; [|apply range_NoDup].
    intros x y _ _. apply page_url_inj.
  - intros n url H. unfold generate_page_urls in H.
    apply in_map_iff in H as (p & <- & _). apply page_url_category.
Qed.

Lemma generate_page_urls_pages_witness :
  generate_page_urls 0 = [] /\
  extract_category_from_url (Str first_page_url) = Some "fugitives".
Proof.
  split.
  - apply (proj1 (proj2 generate_page_urls_pages) 0). lia.
  - apply (proj2 (proj2 (proj2 (proj2 (proj2 generate_page_urls_pages)))) 3).
    left. reflexivity.
Defined.
